(** * KALE pool Pooler: block discovery, work scheduling and proof submission

    A shallow embedding of the Pooler's core services:

    - [BlockMonitor]          (services/block-monitor.ts)
    - [WorkSubmissionService] (services/work-submission-service.ts)
    - [WorkManager]           (services/work-manager.ts)
    - [PoolCoordinator]       (services/pool-coordinator.ts)

    The outside world (chain RPC, Backend HTTP endpoint, the kale-farmer
    child process, the Launchtube relay, the wall clock) is an explicit
    environment value handed to each operation; every operation returns the
    new state together with the trace of externally visible events.

    JS numbers are modelled as [Z] (all the arithmetic of the modelled code
    stays within the exactly representable integers); a possibly-NaN number
    and a possibly-invalid [Date] are [option Z]. *)

From Stdlib Require Import ZArith String Ascii List Bool Sorted Lia.
From stdpp Require Import gmap strings list.
Import ListNotations.
Local Open Scope Z_scope.

(** ** Exceptions *)

Inductive result (A : Type) : Type :=
  | Ok (a : A)
  | Throw (msg : string).
Arguments Ok {A} a.
Arguments Throw {A} msg.

(** ** JavaScript [Date] *)

Module JsDate.

(** ECMAScript time values range over +-8.64e15 ms; [new Date(t)] outside
    that range is an Invalid Date whose [getTime()] is NaN. *)
Definition MAX_TIME : Z := 8640000000000000.

Definition Date := option Z.

Definition fromMs (t : option Z) : Date :=
  match t with
  | Some ms => if Z.abs ms <=? MAX_TIME then Some ms else None
  | None => None
  end.

Definition getTime (d : Date) : option Z := d.

(** [toISOString] throws a RangeError on an Invalid Date.  The ISO string
    of a valid date is represented by its time value. *)
Definition toISOString (d : Date) : result Z :=
  match d with
  | Some ms => Ok ms
  | None => Throw "RangeError: Invalid time value"
  end.

Definition plus (a : option Z) (b : Z) : option Z :=
  match a with Some x => Some (x + b) | None => None end.

End JsDate.

(** ** Hex rendering of a [Buffer] *)

Module Hex.

Definition digit (n : N) : ascii :=
  match n with
  | 0%N => "0" | 1%N => "1" | 2%N => "2" | 3%N => "3"
  | 4%N => "4" | 5%N => "5" | 6%N => "6" | 7%N => "7"
  | 8%N => "8" | 9%N => "9" | 10%N => "a" | 11%N => "b"
  | 12%N => "c" | 13%N => "d" | 14%N => "e" | _ => "f"
  end%char.

Fixpoint toString (buf : list Byte.byte) : string :=
  match buf with
  | [] => EmptyString
  | b :: rest =>
      let n := Byte.to_N b in
      String (digit (n / 16)) (String (digit (n mod 16)) (toString rest))
  end.

(** [Buffer.alloc(n)]: n zero bytes. *)
Definition alloc (n : nat) : list Byte.byte := repeat Byte.x00 n.

(** The value of a hex digit, in either case. *)
Definition value (c : ascii) : option N :=
  let n := N_of_ascii c in
  if ((48 <=? n) && (n <=? 57))%N then Some (n - 48)%N
  else if ((97 <=? n) && (n <=? 102))%N then Some (n - 87)%N
  else if ((65 <=? n) && (n <=? 70))%N then Some (n - 55)%N
  else None.

(** [Buffer.from(s, 'hex')]: the bytes of the leading pairs of hex digits;
    decoding stops at the first pair that is not two hex digits, and a
    trailing single character is dropped. *)
Fixpoint fromString (s : string) : list Byte.byte :=
  match s with
  | String a (String b rest) =>
      match value a, value b with
      | Some x, Some y =>
          match Byte.of_N (16 * x + y) with
          | Some byte => byte :: fromString rest
          | None => []
          end
      | _, _ => []
      end
  | _ => []
  end.

End Hex.

(** ** Block Monitor (services/block-monitor.ts) *)

Module BlockMonitor.

Record KaleBlock := {
  timestamp : option Z;            (* timestamp?: bigint, seconds *)
  min_gap : Z;
  min_stake : Z;
  min_zeros : Z;
  max_gap : Z;
  max_stake : Z;
  max_zeros : Z;
  entropy : option (list Byte.byte)
}.

Record ContractData := {
  index : Z;
  block : option KaleBlock
}.

Record BlockDiscoveryEvent := {
  previousIndex : Z;
  newIndex : Z;
  ev_block : option KaleBlock;
  ev_entropy : string;
  ev_timestamp : Z;                (* Date, always [now] *)
  blockAge : option Z              (* None = NaN *)
}.

Record BackendNotification := {
  blockIndex : Z;
  bd_index : Z;
  bd_timestamp : Z;
  bd_entropy : string;
  bd_blockAge : option Z;
  plantable : bool;
  bd_min_stake : Z;
  bd_max_stake : Z;
  bd_min_zeros : Z;
  bd_max_zeros : Z;
  bd_min_gap : Z;
  bd_max_gap : Z;
  discoveredAt : Z;
  poolerUptime : Z;
  md_totalBlocksDiscovered : Z
}.

(** [PoolerState] together with the two private fields of the class. *)
Record Monitor := {
  currentBlockIndex : Z;
  lastBlockTimestamp : option JsDate.Date;
  isMonitoring : bool;
  consecutiveMissedBlocks : Z;
  totalBlocksDiscovered : Z;
  startTime : Z;
  lastNotificationSent : option Z;
  errorCount : Z;
  maxErrorCount : Z;
  monitoringInterval : bool;       (* true = interval timer armed *)
  isShuttingDown : bool
}.

(** *** Environment of one poll *)

Inductive IndexRead :=
  | IndexOk (i : Z)                (* FarmIndex entry, 0 when absent *)
  | IndexFail (err : string).      (* RPC transport or decode error *)

Inductive BlockRead :=
  | BlockOk (b : KaleBlock)
  | BlockFail (err : string).

Inductive PostOutcome :=
  | PostOk
  | PostStatus (status : Z)        (* non-2xx reply *)
  | PostThrows (err : string).     (* network error or timeout *)

Record PollEnv := {
  rpcIndex : IndexRead;
  rpcBlock : BlockRead;
  now : Z;                         (* new Date() in the handler, ms *)
  http : PostOutcome;
  ackTime : Z                      (* new Date() after the reply *)
}.

Inductive Event :=
  | EvGetIndex
  | EvGetBlock (i : Z)
  | EvPost (n : BackendNotification).

Definition isChainRead (e : Event) : bool :=
  match e with
  | EvGetIndex | EvGetBlock _ => true
  | EvPost _ => false
  end.

(** The block-discovered POSTs of a trace, in order, and their block
    indexes. *)
Fixpoint posts (tr : list Event) : list BackendNotification :=
  match tr with
  | [] => []
  | EvPost n :: rest => n :: posts rest
  | _ :: rest => posts rest
  end.

Definition postedIndexes (tr : list Event) : list Z :=
  List.map blockIndex (posts tr).

Definition chainReads (tr : list Event) : list Event :=
  List.filter isChainRead tr.

(** *** Record updates *)

Definition setShutdown (m : Monitor) : Monitor :=
  {| currentBlockIndex := currentBlockIndex m;
     lastBlockTimestamp := lastBlockTimestamp m;
     isMonitoring := false;
     consecutiveMissedBlocks := consecutiveMissedBlocks m;
     totalBlocksDiscovered := totalBlocksDiscovered m;
     startTime := startTime m;
     lastNotificationSent := lastNotificationSent m;
     errorCount := errorCount m;
     maxErrorCount := maxErrorCount m;
     monitoringInterval := false;
     isShuttingDown := true |}.

Definition setErrorCount (m : Monitor) (c : Z) : Monitor :=
  {| currentBlockIndex := currentBlockIndex m;
     lastBlockTimestamp := lastBlockTimestamp m;
     isMonitoring := isMonitoring m;
     consecutiveMissedBlocks := consecutiveMissedBlocks m;
     totalBlocksDiscovered := totalBlocksDiscovered m;
     startTime := startTime m;
     lastNotificationSent := lastNotificationSent m;
     errorCount := c;
     maxErrorCount := maxErrorCount m;
     monitoringInterval := monitoringInterval m;
     isShuttingDown := isShuttingDown m |}.

Definition setCursor (m : Monitor) (i : Z) : Monitor :=
  {| currentBlockIndex := i;
     lastBlockTimestamp := lastBlockTimestamp m;
     isMonitoring := isMonitoring m;
     consecutiveMissedBlocks := consecutiveMissedBlocks m;
     totalBlocksDiscovered := totalBlocksDiscovered m;
     startTime := startTime m;
     lastNotificationSent := lastNotificationSent m;
     errorCount := errorCount m;
     maxErrorCount := maxErrorCount m;
     monitoringInterval := monitoringInterval m;
     isShuttingDown := isShuttingDown m |}.

Definition setDiscovered (m : Monitor) (i : Z) (ts : JsDate.Date) : Monitor :=
  {| currentBlockIndex := i;
     lastBlockTimestamp := Some ts;
     isMonitoring := isMonitoring m;
     consecutiveMissedBlocks := 0;
     totalBlocksDiscovered := totalBlocksDiscovered m + 1;
     startTime := startTime m;
     lastNotificationSent := lastNotificationSent m;
     errorCount := errorCount m;
     maxErrorCount := maxErrorCount m;
     monitoringInterval := monitoringInterval m;
     isShuttingDown := isShuttingDown m |}.

Definition setNotified (m : Monitor) (t : Z) : Monitor :=
  {| currentBlockIndex := currentBlockIndex m;
     lastBlockTimestamp := lastBlockTimestamp m;
     isMonitoring := isMonitoring m;
     consecutiveMissedBlocks := consecutiveMissedBlocks m;
     totalBlocksDiscovered := totalBlocksDiscovered m;
     startTime := startTime m;
     lastNotificationSent := Some t;
     errorCount := errorCount m;
     maxErrorCount := maxErrorCount m;
     monitoringInterval := monitoringInterval m;
     isShuttingDown := isShuttingDown m |}.

(** *** Shared/utils/timing.ts: calculateTimingPredictions

    Only the four dates matter here; each is rendered with
    [toISOString], which throws on an Invalid Date.  The argument is a JS
    number of seconds (the caller applies [Number(...)]). *)

Record TimingPredictions := {
  blockDiscoveredTime : Z;
  plantingTime : Z;
  workTime : Z;
  harvestTime : Z
}.

Definition bindR {A B} (r : result A) (k : A -> result B) : result B :=
  match r with Ok a => k a | Throw e => Throw e end.

Definition calculateTimingPredictions
    (blockTimestamp plantingDelaySeconds workDelaySeconds harvestDelaySeconds : Z)
    : result TimingPredictions :=
  let blockTimeMs := blockTimestamp * 1000 in
  let blockTime := JsDate.fromMs (Some blockTimeMs) in
  let planting := JsDate.fromMs (Some (blockTimeMs + plantingDelaySeconds * 1000)) in
  let work :=
    JsDate.fromMs (JsDate.plus (JsDate.getTime planting) (workDelaySeconds * 1000)) in
  let harvest :=
    JsDate.fromMs (JsDate.plus (JsDate.getTime work) (harvestDelaySeconds * 1000)) in
  bindR (JsDate.toISOString blockTime) (fun b =>
  bindR (JsDate.toISOString planting) (fun p =>
  bindR (JsDate.toISOString work) (fun w =>
  bindR (JsDate.toISOString harvest) (fun h =>
  Ok {| blockDiscoveredTime := b; plantingTime := p;
        workTime := w; harvestTime := h |})))).

(** The seconds value handed to [calculateTimingPredictions] lies in the
    range for which all four dates (up to harvest, 210 s later) are valid. *)
Definition inDateRange (seconds : Z) : Prop :=
  - JsDate.MAX_TIME <= seconds * 1000 /\
  seconds * 1000 + 210000 <= JsDate.MAX_TIME.

(** *** getContractData / getIndex / getBlock

    Every error of the two chain reads is caught ("Log but don't throw -
    allow partial data"): a failed farm-index read leaves [index = 0], a
    failed block read leaves [block = undefined]. *)

Definition getContractData (env : PollEnv) : ContractData * list Event :=
  match rpcIndex env with
  | IndexFail _ => ({| index := 0; block := None |}, [EvGetIndex])
  | IndexOk i =>
      if i >? 0 then
        match rpcBlock env with
        | BlockOk b => ({| index := i; block := Some b |}, [EvGetIndex; EvGetBlock i])
        | BlockFail _ => ({| index := i; block := None |}, [EvGetIndex; EvGetBlock i])
        end
      else ({| index := i; block := None |}, [EvGetIndex])
  end.

(** *** stopMonitoring *)

Definition stopMonitoring (m : Monitor) : Monitor :=
  if negb (isMonitoring m) then m else setShutdown m.

(** *** handleMonitoringError *)

Definition handleMonitoringError (m : Monitor) : Monitor :=
  let m1 := setErrorCount m (errorCount m + 1) in
  if errorCount m1 >=? maxErrorCount m1 then stopMonitoring m1 else m1.

(** *** JS truthiness and defaults used by the discovery path *)

(** [block?.timestamp] when truthy: a missing block, a missing timestamp and
    the bigint [0n] are all falsy. *)
Definition truthyTimestamp (b : option KaleBlock) : option Z :=
  match b with
  | Some blk =>
      match timestamp blk with
      | Some ts => if ts =? 0 then None else Some ts
      | None => None
      end
  | None => None
  end.

Definition blockField (f : KaleBlock -> Z) (b : option KaleBlock) : Z :=
  match b with Some blk => f blk | None => 0 end.

Definition isPlantable (age : option Z) : bool :=
  match age with
  | Some a => (a >=? 30) && (a <? 240)
  | None => false
  end.

(** *** notifyBackend

    The whole body sits in a try/catch that only logs: a failed POST
    leaves the state as it is and never throws. *)

Definition mkNotification (m : Monitor) (env : PollEnv) (ev : BlockDiscoveryEvent)
    : BackendNotification :=
  {| blockIndex := newIndex ev;
     bd_index := newIndex ev;
     bd_timestamp := ev_timestamp ev;
     bd_entropy := ev_entropy ev;
     bd_blockAge := blockAge ev;
     plantable := isPlantable (blockAge ev);
     bd_min_stake := blockField min_stake (ev_block ev);
     bd_max_stake := blockField max_stake (ev_block ev);
     bd_min_zeros := blockField min_zeros (ev_block ev);
     bd_max_zeros := blockField max_zeros (ev_block ev);
     bd_min_gap := blockField min_gap (ev_block ev);
     bd_max_gap := blockField max_gap (ev_block ev);
     discoveredAt := ev_timestamp ev;
     poolerUptime := now env - startTime m;
     md_totalBlocksDiscovered := totalBlocksDiscovered m |}.

Definition notifyBackend (m : Monitor) (env : PollEnv) (ev : BlockDiscoveryEvent)
    : Monitor * list Event :=
  let notification := mkNotification m env ev in
  match http env with
  | PostOk => (setNotified m (ackTime env), [EvPost notification])
  | PostStatus _ => (m, [EvPost notification])
  | PostThrows _ => (m, [EvPost notification])
  end.

(** [block?.entropy?.toString('hex') || Buffer.alloc(32).toString('hex')] *)
Definition entropyHex (b : option KaleBlock) : string :=
  let zeros := Hex.toString (Hex.alloc 32) in
  match b with
  | Some blk =>
      match entropy blk with
      | Some buf =>
          match Hex.toString buf with
          | EmptyString => zeros
          | s => s
          end
      | None => zeros
      end
  | None => zeros
  end.

(** [Number(block?.timestamp || Math.floor(now.getTime() / 1000))] *)
Definition timingSeconds (env : PollEnv) (b : option KaleBlock) : Z :=
  match truthyTimestamp b with
  | Some ts => ts
  | None => now env / 1000
  end.

(** *** handleNewBlockDiscovered

    Returns the state reached, the trace, and the exception (if any) that
    escapes to the caller.  The timing prediction is computed (and may
    throw) before any field of the state is written. *)

Definition handleNewBlockDiscovered (m : Monitor) (env : PollEnv) (cd : ContractData)
    : Monitor * list Event * option string :=
  let previousIndex := currentBlockIndex m in
  let newIndex := index cd in
  let blockTimestamp : JsDate.Date :=
    match truthyTimestamp (block cd) with
    | Some ts => JsDate.fromMs (Some (ts * 1000))
    | None => Some (now env)
    end in
  let blockAge : option Z :=
    match JsDate.getTime blockTimestamp with
    | Some t => Some ((now env - t) / 1000)
    | None => None
    end in
  let entropy := entropyHex (block cd) in
  match calculateTimingPredictions (timingSeconds env (block cd)) 30 150 30 with
  | Throw e => (m, [], Some e)
  | Ok _ =>
      let m1 := setDiscovered m newIndex blockTimestamp in
      let blockEvent :=
        {| previousIndex := previousIndex;
           newIndex := newIndex;
           ev_block := block cd;
           ev_entropy := entropy;
           ev_timestamp := now env;
           blockAge := blockAge |} in
      let '(m2, tr) := notifyBackend m1 env blockEvent in
      (m2, tr, None)
  end.

(** *** checkForNewBlocks: one poll *)

(** The try block of [checkForNewBlocks], up to the error-count reset. *)
Definition pollBody (m : Monitor) (env : PollEnv) : Monitor * list Event * option string :=
  let '(cd, tr1) := getContractData env in
  if index cd >? currentBlockIndex m then
    let '(m1, tr2, exn) := handleNewBlockDiscovered m env cd in
    (m1, tr1 ++ tr2, exn)
  else if index cd <? currentBlockIndex m then
    (setCursor m (index cd), tr1, None)
  else (m, tr1, None).

Definition checkForNewBlocks (m : Monitor) (env : PollEnv) : Monitor * list Event :=
  if isShuttingDown m then (m, [])
  else
    match pollBody m env with
    | (m1, tr, None) =>
        ((if errorCount m1 >? 0 then setErrorCount m1 0 else m1), tr)
    | (m1, tr, Some _) => (handleMonitoringError m1, tr)
    end.

(** A poll fails when an exception reaches the catch of
    [checkForNewBlocks]. *)
Definition pollThrows (m : Monitor) (env : PollEnv) : bool :=
  match pollBody m env with
  | (_, _, Some _) => true
  | (_, _, None) => false
  end.

(** The index the chain reader reports for a poll. *)
Definition snapshotIndex (env : PollEnv) : Z := index (fst (getContractData env)).

(** *** A sequence of polls *)

Fixpoint runPolls (m : Monitor) (envs : list PollEnv) : Monitor * list Event :=
  match envs with
  | [] => (m, [])
  | env :: rest =>
      let '(m1, tr1) := checkForNewBlocks m env in
      let '(m2, tr2) := runPolls m1 rest in
      (m2, tr1 ++ tr2)
  end.

Fixpoint allFailing (m : Monitor) (envs : list PollEnv) : Prop :=
  match envs with
  | [] => True
  | env :: rest =>
      pollThrows m env = true /\ allFailing (fst (checkForNewBlocks m env)) rest
  end.

Fixpoint noRegression (m : Monitor) (envs : list PollEnv) : Prop :=
  match envs with
  | [] => True
  | env :: rest =>
      currentBlockIndex m <= snapshotIndex env /\
      noRegression (fst (checkForNewBlocks m env)) rest
  end.

(** The four ways one poll of a live monitor can go. *)
Inductive PollCase (m : Monitor) (env : PollEnv) : Monitor -> list Event -> Prop :=
  | PollDiscovered m1 n tr :
      currentBlockIndex m < snapshotIndex env ->
      inDateRange (timingSeconds env (block (fst (getContractData env)))) ->
      pollThrows m env = false ->
      posts tr = [n] ->
      blockIndex n = snapshotIndex env ->
      bd_blockAge n =
        Some (match truthyTimestamp (block (fst (getContractData env))) with
              | Some ts => now env / 1000 - ts
              | None => 0
              end) ->
      plantable n = isPlantable (bd_blockAge n) ->
      currentBlockIndex m1 = snapshotIndex env ->
      isShuttingDown m1 = false ->
      (0 <= errorCount m -> errorCount m1 = 0) ->
      PollCase m env m1 tr
  | PollThrew tr :
      currentBlockIndex m < snapshotIndex env ->
      ~ inDateRange (timingSeconds env (block (fst (getContractData env)))) ->
      pollThrows m env = true ->
      posts tr = [] ->
      PollCase m env (handleMonitoringError m) tr
  | PollRegressed m1 tr :
      snapshotIndex env < currentBlockIndex m ->
      pollThrows m env = false ->
      posts tr = [] ->
      currentBlockIndex m1 = snapshotIndex env ->
      isShuttingDown m1 = false ->
      (0 <= errorCount m -> errorCount m1 = 0) ->
      PollCase m env m1 tr
  | PollQuiet m1 tr :
      snapshotIndex env = currentBlockIndex m ->
      pollThrows m env = false ->
      posts tr = [] ->
      currentBlockIndex m1 = currentBlockIndex m ->
      isShuttingDown m1 = false ->
      (0 <= errorCount m -> errorCount m1 = 0) ->
      PollCase m env m1 tr.

(** *** startMonitoring

    A no-op when already monitoring.  Otherwise one chain read seeds the
    cursor, [isMonitoring] is set and the timers are armed
    ([monitoringInterval] stands for the timeout that arms the interval and
    runs the first check).  [getContractData] never throws, so the catch of
    [startMonitoring] is not reached.  [isShuttingDown] is not written. *)

Definition setStarted (m : Monitor) (i : Z) : Monitor :=
  {| currentBlockIndex := i;
     lastBlockTimestamp := lastBlockTimestamp m;
     isMonitoring := true;
     consecutiveMissedBlocks := consecutiveMissedBlocks m;
     totalBlocksDiscovered := totalBlocksDiscovered m;
     startTime := startTime m;
     lastNotificationSent := lastNotificationSent m;
     errorCount := errorCount m;
     maxErrorCount := maxErrorCount m;
     monitoringInterval := true;
     isShuttingDown := isShuttingDown m |}.

Definition startMonitoring (m : Monitor) (env : PollEnv) : Monitor * list Event :=
  if isMonitoring m then (m, [])
  else
    let '(initialData, tr) := getContractData env in
    (setStarted m (index initialData), tr).

(** *** getStatus *)

Inductive StatusKind := healthy | degraded | unhealthy.

Record HealthStatus := {
  hs_status : StatusKind;
  hs_uptime : Z;
  hs_currentBlock : Z;
  hs_blocksDiscovered : Z;
  hs_lastBlockAge : option Z;        (* None = NaN *)
  hs_errorCount : Z;
  hs_isMonitoring : bool;
  hs_lastNotification : option Z
}.

Definition getStatus (m : Monitor) (nowMs : Z) : HealthStatus :=
  {| hs_status :=
       if isMonitoring m
       then (if errorCount m <? maxErrorCount m then healthy else degraded)
       else unhealthy;
     hs_uptime := (nowMs - startTime m) / 1000;
     hs_currentBlock := currentBlockIndex m;
     hs_blocksDiscovered := totalBlocksDiscovered m;
     hs_lastBlockAge :=
       match lastBlockTimestamp m with
       | Some d =>
           match JsDate.getTime d with
           | Some t => Some ((nowMs - t) / 1000)
           | None => None
           end
       | None => Some (-1)
       end;
     hs_errorCount := errorCount m;
     hs_isMonitoring := isMonitoring m;
     hs_lastNotification := lastNotificationSent m |}.

(** The monitor as its constructor leaves it. *)
Definition newMonitor (startedAt maxErrors : Z) : Monitor :=
  {| currentBlockIndex := 0;
     lastBlockTimestamp := None;
     isMonitoring := false;
     consecutiveMissedBlocks := 0;
     totalBlocksDiscovered := 0;
     startTime := startedAt;
     lastNotificationSent := None;
     errorCount := 0;
     maxErrorCount := maxErrors;
     monitoringInterval := false;
     isShuttingDown := false |}.

End BlockMonitor.

(** ** JavaScript strings (ASCII fragment) *)

Module JsString.

Definition lowerAscii (c : ascii) : ascii :=
  let n := nat_of_ascii c in
  if ((65 <=? n) && (n <=? 90))%nat then ascii_of_nat (n + 32) else c.

Fixpoint toLowerCase (s : string) : string :=
  match s with
  | EmptyString => EmptyString
  | String c rest => String (lowerAscii c) (toLowerCase rest)
  end.

Fixpoint startsWith (s p : string) {struct p} : bool :=
  match p with
  | EmptyString => true
  | String a p' =>
      match s with
      | EmptyString => false
      | String b s' => Ascii.eqb a b && startsWith s' p'
      end
  end.

(** [s.includes(t)] *)
Fixpoint includes (s t : string) : bool :=
  startsWith s t ||
  match s with
  | EmptyString => false
  | String _ s' => includes s' t
  end.

Fixpoint drop (n : nat) (s : string) : string :=
  match n, s with
  | O, _ => s
  | S n', String _ s' => drop n' s'
  | S _, EmptyString => EmptyString
  end.

(** [s.replace(pattern, replacement)] for a string pattern: the first
    occurrence only.  (The replacement strings used by the modelled code
    hold no [$] pattern.) *)
Fixpoint replace (s pattern replacement : string) : string :=
  if startsWith s pattern
  then String.append replacement (drop (String.length pattern) s)
  else match s with
       | EmptyString => EmptyString
       | String c s' => String c (replace s' pattern replacement)
       end.

End JsString.

(** ** Relay Submitter (services/work-submission-service.ts) *)

Module WorkSubmissionService.

Record WorkSubmissionResult := {
  success : bool;
  transactionHash : option string;
  error : option string;
  details_attempts : Z
}.

(** What the Launchtube POST of a built transaction meets. *)
Inductive LaunchtubeReply :=
  | FetchThrows (msg : string)         (* fetch, or reading the reply, rejects *)
  | RelayRejected (errorText : string) (* non-2xx reply *)
  | RelayAccepted (txHash : option string).

(** What one pass through the body of the retry loop meets. *)
Inductive AttemptOutcome :=
  | WorkThrows (msg : string)          (* contract.work(...) rejects *)
  | SimulationError (msg : string)     (* 'error' in transaction.simulation *)
  | Built (reply : LaunchtubeReply).   (* simulation fine, envelope sent *)

Inductive Event :=
  | EvAttempt (attempt : Z)
  | EvSleep (ms : Z).

Definition maxRetries : Z := 3.
Definition retryDelay : Z := 2000.

Definition retryableErrors : list string :=
  [ "NOT_FOUND"; "timeout"; "ECONNRESET"; "ENOTFOUND"; "ETIMEDOUT";
    "fetch failed"; "network error" ]%string.

Definition isRetryableError (errorMessage : string) : bool :=
  existsb
    (fun error =>
       JsString.includes (JsString.toLowerCase errorMessage) (JsString.toLowerCase error))
    retryableErrors.

(** sendViaLaunchtube, through sendViaLaunchtubeWithRetry (which only logs
    and rethrows). *)
Definition sendViaLaunchtube (reply : LaunchtubeReply) : result (option string) :=
  match reply with
  | RelayAccepted h => Ok h
  | RelayRejected errorText =>
      Throw ("Launchtube submission failed: " ++ errorText)%string
  | FetchThrows msg => Throw msg
  end.

(** The try block of one loop iteration: [Ok] is a [return], [Throw] goes
    to the catch. *)
Definition tryAttempt (o : AttemptOutcome) (attempt : Z) : result WorkSubmissionResult :=
  match o with
  | WorkThrows msg => Throw msg
  | SimulationError errorMessage =>
      Ok {| success := false;
            transactionHash := None;
            error := Some ("Simulation failed: " ++ errorMessage)%string;
            details_attempts := attempt |}
  | Built reply =>
      match sendViaLaunchtube reply with
      | Ok h =>
          Ok {| success := true;
                transactionHash := h;
                error := None;
                details_attempts := attempt |}
      | Throw msg => Throw msg
      end
  end.

(** The for loop; [fuel] counts the iterations for which
    [attempt <= maxRetries] still holds. *)
Fixpoint submitLoop (fuel : nat) (attempt : Z) (relay : Z -> AttemptOutcome)
    : WorkSubmissionResult * list Event :=
  match fuel with
  | O =>
      ({| success := false;
          transactionHash := None;
          error := Some "Maximum retry attempts exceeded"%string;
          details_attempts := maxRetries |}, [])
  | S fuel' =>
      match tryAttempt (relay attempt) attempt with
      | Ok r => (r, [EvAttempt attempt])
      | Throw errorMessage =>
          if (attempt =? maxRetries) || negb (isRetryableError errorMessage) then
            ({| success := false;
                transactionHash := None;
                error := Some errorMessage;
                details_attempts := attempt |}, [EvAttempt attempt])
          else
            let '(r, tr) := submitLoop fuel' (attempt + 1) relay in
            (r, EvAttempt attempt :: EvSleep retryDelay :: tr)
      end
  end.

Definition submitWork (relay : Z -> AttemptOutcome) : WorkSubmissionResult * list Event :=
  submitLoop (Z.to_nat maxRetries) 1 relay.

(** The attempts of a trace, in order. *)
Fixpoint attemptsOf (tr : list Event) : list Z :=
  match tr with
  | [] => []
  | EvAttempt a :: rest => a :: attemptsOf rest
  | EvSleep _ :: rest => attemptsOf rest
  end.

(** The trace of [n] attempts separated by sleeps of [retryDelay]:
    attempt 1, sleep, attempt 2, sleep, ..., attempt n. *)
Fixpoint schedule (n : nat) (first : Z) : list Event :=
  match n with
  | O => []
  | S O => [EvAttempt first]
  | S n' => EvAttempt first :: EvSleep 2000 :: schedule n' (first + 1)
  end.

(** The message thrown into the catch by an attempt, if any. *)
Definition thrownMessage (o : AttemptOutcome) (attempt : Z) : option string :=
  match tryAttempt o attempt with
  | Throw msg => Some msg
  | Ok _ => None
  end.

(** An attempt failed: it did not return [success = true]. *)
Definition attemptFailed (o : AttemptOutcome) (attempt : Z) : bool :=
  match tryAttempt o attempt with
  | Ok r => negb (success r)
  | Throw _ => true
  end.

End WorkSubmissionService.

(** ** Work Manager (services/work-manager.ts) *)

Module WorkManager.

Definition WORK_DELAY_SECONDS : Z := 150.
Definition MAX_RECOVERY_ATTEMPTS : Z := 3.
Definition WORK_TIMEOUT_MS : Z := 300000.
Definition NONCE_COUNT : Z := 10000000.

Inductive Status := success | failed | recovered.

Definition Status_eqb (a b : Status) : bool :=
  match a, b with
  | success, success | failed, failed | recovered, recovered => true
  | _, _ => false
  end.

Inductive JsNumber := Num (z : Z) | NaN.

(** An integer is used as the number it denotes. *)
Coercion Num : Z >-> JsNumber.

Record WorkRequest := {
  farmerId : string;
  custodialWallet : string;
  custodialSecretKey : string;
  blockIndex : Z;
  entropy : string;
  stakeAmount : string
}.

Record WorkResult := {
  r_farmerId : string;
  r_custodialWallet : string;
  status : Status;
  nonce : option JsNumber;
  hash : option string;
  zeros : option Z;
  gap : option Z;
  workTime : Z;
  attempts : Z;
  error : option string;
  compensationRequired : bool
}.

Record WorkBatchResult := {
  b_blockIndex : JsNumber;
  b_poolerId : string;
  workResults : list WorkResult;
  totalWorkTime : Z;
  timestamp : Z
}.

Record WorkState := {
  isWorking : bool;
  currentFarmerId : option string;
  ws_attempts : Z
}.

(** *** The outside world *)

(** One run of the kale-farmer child raced against the work timeout. *)
Inductive MinerRun :=
  | SpawnThrows (msg : string)
  | TimedOut                        (* createTimeout wins the race *)
  | NoOutput                        (* empty stdout *)
  | ParseError                      (* last line is not [nonce, hash] *)
  | Printed (nonce : JsNumber) (hash : string).

Record Env := {
  POOLER_ID : string;
  keypairFromSecret : string -> result string;   (* rawPublicKey hex *)
  miner : nat -> MinerRun;                       (* k-th spawn *)
  relay : nat -> Z -> WorkSubmissionService.AttemptOutcome;
                                                 (* k-th submitWork, attempt *)
  clock : nat -> Z                               (* k-th Date.now() *)
}.

Record SpawnArgs := {
  farmerHex : string;
  a_index : JsNumber;               (* --index blockIndex.toString() *)
  entropyHex : string;
  nonceCount : Z
}.

Record SubmitArgs := {
  farmerPublicKey : string;
  s_hash : list Byte.byte;          (* new Uint8Array(Buffer.from(hash, 'hex')) *)
  s_nonce : Z
}.

Record World := {
  spawns : list SpawnArgs;          (* child processes started, in order *)
  submits : list SubmitArgs;        (* submitWork calls, in order *)
  ticks : nat;
  workState : WorkState
}.

Definition initialWorld : World :=
  {| spawns := []; submits := []; ticks := O;
     workState := {| isWorking := false; currentFarmerId := None; ws_attempts := 0 |} |}.

Definition dateNow (env : Env) (w : World) : Z * World :=
  (clock env (ticks w),
   {| spawns := spawns w; submits := submits w; ticks := S (ticks w);
      workState := workState w |}).

Definition setWorkState (w : World) (ws : WorkState) : World :=
  {| spawns := spawns w; submits := submits w; ticks := ticks w; workState := ws |}.

Definition spawn (env : Env) (w : World) (args : SpawnArgs) : MinerRun * World :=
  (miner env (length (spawns w)),
   {| spawns := spawns w ++ [args]; submits := submits w; ticks := ticks w;
      workState := workState w |}).

(** The [finally] of executeWorkForFarmer. *)
Definition cleanUp (w : World) : World :=
  setWorkState w {| isWorking := false;
                    currentFarmerId := currentFarmerId (workState w);
                    ws_attempts := ws_attempts (workState w) |}.

(** *** readWorkStream / calculateGap *)

Record WorkOutput := {
  o_nonce : JsNumber;
  o_hash : string;
  o_zeros : Z;
  o_gap : Z
}.

Fixpoint leadingZeros (hash : string) : Z :=
  match hash with
  | String "0"%char rest => 1 + leadingZeros rest
  | _ => 0
  end.

Definition calculateGap (hash : string) : Z := 15.

Definition readWorkStream (run : MinerRun) : option WorkOutput :=
  match run with
  | Printed n h =>
      Some {| o_nonce := n; o_hash := h;
              o_zeros := leadingZeros h; o_gap := calculateGap h |}
  | _ => None
  end.

(** *** The call [workSubmissionService.submitWork({... nonce: BigInt(nonce)})]

    [BigInt(NaN)] throws before the service is entered. *)
Definition callSubmitWork (env : Env) (w : World) (wallet : string) (out : WorkOutput)
    : result WorkSubmissionService.WorkSubmissionResult * World :=
  match o_nonce out with
  | NaN => (Throw "RangeError: NaN cannot be converted to a BigInt", w)
  | Num n =>
      let r := fst (WorkSubmissionService.submitWork (relay env (length (submits w)))) in
      (Ok r,
       {| spawns := spawns w;
          submits := submits w ++
            [{| farmerPublicKey := wallet;
                s_hash := Hex.fromString (o_hash out);
                s_nonce := n |}];
          ticks := ticks w;
          workState := workState w |})
  end.

Definition errorText (e : option string) : string :=
  match e with Some s => s | None => "undefined" end.

Definition minedResult (req : WorkRequest) (out : WorkOutput) (st : Status)
    (workTime attempts : Z) (comp : bool) (err : option string) : WorkResult :=
  {| r_farmerId := farmerId req;
     r_custodialWallet := custodialWallet req;
     status := st;
     nonce := Some (o_nonce out);
     hash := Some (o_hash out);
     zeros := Some (o_zeros out);
     gap := Some (o_gap out);
     workTime := workTime;
     attempts := attempts;
     error := err;
     compensationRequired := comp |}.

(** *** executeWorkForFarmer

    [blockIndex] is a JS number: an integer or NaN.  The guard
    [blockIndex == null || blockIndex === undefined || isNaN(blockIndex)]
    sits after the key derivation and before the spawn; within the type
    [number] it fires for NaN. *)

Definition executeWorkForFarmer (env : Env) (w : World)
    (blockIndex : JsNumber) (entropy : string) (workRequest : WorkRequest)
    : WorkResult * World :=
  let '(startTime, w) := dateNow env w in
  let w := setWorkState w {| isWorking := true;
                             currentFarmerId := Some (farmerId workRequest);
                             ws_attempts := 1 |} in
  (* the outer catch, followed by the finally *)
  let catch (w : World) (message : string) : WorkResult * World :=
    let '(t, w) := dateNow env w in
    ({| r_farmerId := farmerId workRequest;
        r_custodialWallet := custodialWallet workRequest;
        status := failed;
        nonce := None; hash := None; zeros := None; gap := None;
        workTime := t - startTime;
        attempts := ws_attempts (workState w);
        error := Some message;
        compensationRequired := true |}, cleanUp w) in
  match keypairFromSecret env (custodialSecretKey workRequest) with
  | Throw e => catch w e
  | Ok farmerHex =>
      match blockIndex with
      | NaN => catch w "Invalid blockIndex: NaN. Must be a valid number."
      | Num _ =>
          let '(run, w) :=
            spawn env w {| farmerHex := farmerHex; a_index := blockIndex;
                           entropyHex := entropy; nonceCount := NONCE_COUNT |} in
          match run with
          | SpawnThrows e => catch w e
          | _ =>
              match readWorkStream run with
              | None =>
                  catch w "Work process timed out or produced no output. stderr: "
              | Some workOutput =>
                  let '(t, w) := dateNow env w in
                  let workTime := t - startTime in
                  match callSubmitWork env w (custodialWallet workRequest) workOutput with
                  | (Ok workSubmissionResult, w) =>
                      if negb (WorkSubmissionService.success workSubmissionResult) then
                        (minedResult workRequest workOutput failed workTime 1 true
                           (Some ("Smart contract submission failed: " ++
                                  errorText (WorkSubmissionService.error workSubmissionResult))%string),
                         cleanUp w)
                      else
                        (* formatISTTime() builds a new Date(), and
                           new Date(Date.now() + 30000) reads the clock again *)
                        let '(_, w) := dateNow env w in
                        let '(_, w) := dateNow env w in
                        (minedResult workRequest workOutput success workTime 1 false None,
                         cleanUp w)
                  | (Throw e, w) =>
                      (minedResult workRequest workOutput failed workTime 1 true
                         (Some ("Smart contract submission exception: " ++ e)%string),
                       cleanUp w)
                  end
              end
          end
      end
  end.

(** *** executeWorkWithParams

    The key derivation and the spawn sit outside the try: their
    exceptions, like the timeout, escape to the caller. *)

Definition executeWorkWithParams (env : Env) (w : World)
    (blockIndex : JsNumber) (entropy : string) (workRequest : WorkRequest)
    (nonceCount attemptNumber : Z) : result WorkResult * World :=
  let '(startTime, w) := dateNow env w in
  match keypairFromSecret env (custodialSecretKey workRequest) with
  | Throw e => (Throw e, w)
  | Ok farmerHex =>
      let '(run, w) :=
        spawn env w {| farmerHex := farmerHex; a_index := blockIndex;
                       entropyHex := entropy; nonceCount := nonceCount |} in
      match run with
      | SpawnThrows e => (Throw e, w)
      | _ =>
          match readWorkStream run with
          | None => (Throw "Work process timed out", w)
          | Some workOutput =>
              let '(t, w) := dateNow env w in
              let workTime := t - startTime in
              match callSubmitWork env w (custodialWallet workRequest) workOutput with
              | (Ok workSubmissionResult, w) =>
                  if negb (WorkSubmissionService.success workSubmissionResult) then
                    (Ok (minedResult workRequest workOutput failed workTime attemptNumber true
                           (Some ("Recovery work smart contract submission failed: " ++
                                  errorText (WorkSubmissionService.error workSubmissionResult))%string)),
                     w)
                  else
                    (Ok (minedResult workRequest workOutput success workTime attemptNumber
                           false None), w)
              | (Throw e, w) =>
                  (Ok (minedResult workRequest workOutput failed workTime attemptNumber true
                         (Some ("Recovery work smart contract submission exception: " ++ e)%string)),
                   w)
              end
          end
      end
  end.

(** *** attemptRecovery *)

Definition asRecovered (r : WorkResult) : WorkResult :=
  {| r_farmerId := r_farmerId r;
     r_custodialWallet := r_custodialWallet r;
     status := recovered;
     nonce := nonce r; hash := hash r; zeros := zeros r; gap := gap r;
     workTime := workTime r;
     attempts := attempts r;
     error := error r;
     compensationRequired := compensationRequired r |}.

(** The for loop; [fuel] counts the iterations for which
    [attempt <= MAX_RECOVERY_ATTEMPTS] still holds. *)
Fixpoint recoveryLoop (fuel : nat) (attempt : Z) (env : Env) (w : World)
    (blockIndex : JsNumber) (entropy : string) (workRequest : WorkRequest)
    : option WorkResult * World :=
  match fuel with
  | O => (None, w)
  | S fuel' =>
      let recoveryNonceCount := NONCE_COUNT + attempt * 1000000 in
      match executeWorkWithParams env w blockIndex entropy workRequest
              recoveryNonceCount (attempt + 1) with
      | (Ok recoveryResult, w) =>
          if Status_eqb (status recoveryResult) success
          then (Some (asRecovered recoveryResult), w)
          else recoveryLoop fuel' (attempt + 1) env w blockIndex entropy workRequest
      | (Throw _, w) =>
          recoveryLoop fuel' (attempt + 1) env w blockIndex entropy workRequest
      end
  end.

Definition attemptRecovery (env : Env) (w : World)
    (blockIndex : JsNumber) (entropy : string) (workRequest : WorkRequest)
    : option WorkResult * World :=
  recoveryLoop (Z.to_nat MAX_RECOVERY_ATTEMPTS) 1 env w blockIndex entropy workRequest.

(** *** executeWorkBatch *)

Fixpoint batchLoop (env : Env) (w : World) (blockIndex : JsNumber) (entropy : string)
    (workRequests : list WorkRequest) (workResults : list WorkResult)
    : list WorkResult * World :=
  match workRequests with
  | [] => (workResults, w)
  | workRequest :: rest =>
      let '(result, w) := executeWorkForFarmer env w blockIndex entropy workRequest in
      let workResults := workResults ++ [result] in
      let '(workResults, w) :=
        if Status_eqb (status result) failed && negb (compensationRequired result) then
          match attemptRecovery env w blockIndex entropy workRequest with
          | (Some recoveryResult, w) =>
              (<[ (length workResults - 1)%nat := recoveryResult ]> workResults, w)
          | (None, w) => (workResults, w)
          end
        else (workResults, w) in
      batchLoop env w blockIndex entropy rest workResults
  end.

Definition executeWorkBatch (env : Env) (w : World) (blockIndex : JsNumber) (entropy : string)
    (workRequests : list WorkRequest) : WorkBatchResult * World :=
  let '(batchStartTime, w) := dateNow env w in
  let '(workResults, w) := batchLoop env w blockIndex entropy workRequests [] in
  let '(t, w) := dateNow env w in
  let '(stamp, w) := dateNow env w in
  ({| b_blockIndex := blockIndex;
      b_poolerId := POOLER_ID env;
      workResults := workResults;
      totalWorkTime := t - batchStartTime;
      timestamp := stamp |}, w).

(** *** blockTimestampToMs / scheduleWork *)

(** A timestamp is a number or a bigint, and numbers are integers here:
    the arithmetic below is the arithmetic of the code on the integers that
    doubles hold exactly (see [inSafeRange]); NaN and the rounding of
    [Number(bigint)] beyond 2^53 are outside this model. *)
Inductive Timestamp :=
  | TsNumber (n : Z)
  | TsBigint (n : Z).

Definition blockTimestampToMs (timestamp : Timestamp) : Z :=
  match timestamp with
  | TsBigint n => n * 1000
  | TsNumber n => if n >? 10000000000 then n else n * 1000
  end.

Record Scheduled := {
  targetTimeMs : Z;
  waitTimeMs : Z;                   (* delay handed to setTimeout *)
  batch : WorkBatchResult           (* value the promise resolves with *)
}.

Definition scheduleWork (env : Env) (w : World) (blockTimestamp : Timestamp)
    (blockIndex : JsNumber) (entropy : string) (workRequests : list WorkRequest)
    : Scheduled * World :=
  let blockTimeMs := blockTimestampToMs blockTimestamp in
  let '(currentTimeMs, w) := dateNow env w in
  let targetTimeMs := blockTimeMs + WORK_DELAY_SECONDS * 1000 in
  let waitTimeMs := Z.max 0 (targetTimeMs - currentTimeMs) in
  let '(result, w) := executeWorkBatch env w blockIndex entropy workRequests in
  ({| targetTimeMs := targetTimeMs; waitTimeMs := waitTimeMs; batch := result |}, w).

(** *** Vocabulary of the properties *)

(** Who a result belongs to. *)
Definition resultKey (r : WorkResult) : string * string :=
  (r_farmerId r, r_custodialWallet r).

Definition requestKey (q : WorkRequest) : string * string :=
  (farmerId q, custodialWallet q).

(** The arguments of the miner run that recovery attempt [attempt + i]
    starts. *)
Definition recoveryArgs (hex : string) (idx : JsNumber) (ent : string) (attempt : Z)
    (i : nat)
    : SpawnArgs :=
  {| farmerHex := hex; a_index := idx; entropyHex := ent;
     nonceCount := NONCE_COUNT + (attempt + Z.of_nat i) * 1000000 |}.

(** The timestamps for which every intermediate value of scheduleWork is
    a non-negative integer no greater than Number.MAX_SAFE_INTEGER, so that
    the double arithmetic of the code is exact. *)
Definition inSafeRange (timestamp : Timestamp) : Prop :=
  match timestamp with
  | TsNumber n | TsBigint n => 0 <= n /\ n * 1000 + 150000 <= 9007199254740991
  end.

(** compensationRequired is set exactly on the failed results. *)
Definition compensationCorrect (r : WorkResult) : Prop :=
  compensationRequired r = true <-> status r = failed.

(** *** getWorkStatus / stopWork *)

Record WorkStatus := {
  st_isWorking : bool;
  st_currentFarmerId : option string;
  st_currentWorkTime : Z;
  st_attempts : Z
}.

Definition getWorkStatus (w : World) (nowMs startTime : Z) : WorkStatus :=
  {| st_isWorking := isWorking (workState w);
     st_currentFarmerId := currentFarmerId (workState w);
     st_currentWorkTime := if isWorking (workState w) then nowMs - startTime else 0;
     st_attempts := ws_attempts (workState w) |}.

Definition stopWork (w : World) : World :=
  setWorkState w {| isWorking := false;
                    currentFarmerId := currentFarmerId (workState w);
                    ws_attempts := ws_attempts (workState w) |}.

End WorkManager.

(** ** Coordinator (services/pool-coordinator.ts) *)

Module PoolCoordinator.

Record PlantedFarmer := {
  farmerId : string;
  custodialWallet : string;
  custodialSecretKey : string;
  stakeAmount : string;
  plantingTime : Z
}.

Record PlantingNotification := {
  blockIndex : Z;
  entropy : string;
  blockTimestamp : Z;
  plantedFarmers : list PlantedFarmer
}.

Record Summary := {
  totalFarmers : Z;
  successfulWork : Z;
  failedWork : Z;
  s_totalWorkTime : Z;
  s_timestamp : Z
}.

Record WorkCompletionNotification := {
  n_blockIndex : Z;
  poolerId : string;
  workResults : list WorkManager.WorkResult;
  summary : Summary
}.

(** The two maps of the class; of [activeWorkPromises] only the keys
    are state. *)
Record Coordinator := {
  pendingWorkBlocks : gmap Z PlantingNotification;
  activeWorkPromises : gset Z
}.

Definition toWorkRequest (blockIndex : Z) (entropy : string) (farmer : PlantedFarmer)
    : WorkManager.WorkRequest :=
  {| WorkManager.farmerId := farmerId farmer;
     WorkManager.custodialWallet := custodialWallet farmer;
     WorkManager.custodialSecretKey := custodialSecretKey farmer;
     WorkManager.blockIndex := blockIndex;
     WorkManager.entropy := entropy;
     WorkManager.stakeAmount := stakeAmount farmer |}.

Definition isSuccessful (r : WorkManager.WorkResult) : bool :=
  WorkManager.Status_eqb (WorkManager.status r) WorkManager.success ||
  WorkManager.Status_eqb (WorkManager.status r) WorkManager.recovered.

Definition isFailed (r : WorkManager.WorkResult) : bool :=
  WorkManager.Status_eqb (WorkManager.status r) WorkManager.failed.

(** *** handleWorkCompletion: the report built from a resolved batch *)

Definition handleWorkCompletion (blockIndex : Z) (result : WorkManager.WorkBatchResult)
    : WorkCompletionNotification :=
  let successCount := length (List.filter isSuccessful (WorkManager.workResults result)) in
  let failedCount := length (List.filter isFailed (WorkManager.workResults result)) in
  {| n_blockIndex := blockIndex;
     poolerId := WorkManager.b_poolerId result;
     workResults := WorkManager.workResults result;
     summary :=
       {| totalFarmers := Z.of_nat (length (WorkManager.workResults result));
          successfulWork := Z.of_nat successCount;
          failedWork := Z.of_nat failedCount;
          s_totalWorkTime := WorkManager.totalWorkTime result;
          s_timestamp := WorkManager.timestamp result |} |}.

(** *** handleWorkError: the report built when the batch promise rejects *)

Definition failedResult (message : string) (farmer : PlantedFarmer) : WorkManager.WorkResult :=
  {| WorkManager.r_farmerId := farmerId farmer;
     WorkManager.r_custodialWallet := custodialWallet farmer;
     WorkManager.status := WorkManager.failed;
     WorkManager.nonce := None;
     WorkManager.hash := None;
     WorkManager.zeros := None;
     WorkManager.gap := None;
     WorkManager.workTime := 0;
     WorkManager.attempts := 0;
     WorkManager.error :=
       Some (match message with
             | EmptyString => "Work execution failed"%string
             | m => m
             end);
     WorkManager.compensationRequired := true |}.

Definition handleWorkError (env : WorkManager.Env) (c : Coordinator)
    (blockIndex : Z) (message : string) (nowStamp : Z)
    : option WorkCompletionNotification :=
  match pendingWorkBlocks c !! blockIndex with
  | None => None
  | Some notification =>
      let failedResults := List.map (failedResult message) (plantedFarmers notification) in
      Some {| n_blockIndex := blockIndex;
              poolerId := WorkManager.POOLER_ID env;
              workResults := failedResults;
              summary :=
                {| totalFarmers := Z.of_nat (length failedResults);
                   successfulWork := 0;
                   failedWork := Z.of_nat (length failedResults);
                   s_totalWorkTime := 0;
                   s_timestamp := nowStamp |} |}
  end.

Definition forget (c : Coordinator) (blockIndex : Z) : Coordinator :=
  {| pendingWorkBlocks := delete blockIndex (pendingWorkBlocks c);
     activeWorkPromises := activeWorkPromises c ∖ {[ blockIndex ]} |}.

(** *** receivePlantingNotification

    [accept] is the synchronous part: validation, bookkeeping and the
    translation to work requests ([None] = rejected, nothing scheduled). *)

Definition accept (c : Coordinator) (notification : PlantingNotification)
    : Coordinator * option (list WorkManager.WorkRequest) :=
  if (length (plantedFarmers notification) =? 0)%nat then (c, None)
  else
    let workRequests :=
      List.map (toWorkRequest (blockIndex notification) (entropy notification))
               (plantedFarmers notification) in
    ({| pendingWorkBlocks :=
          <[ blockIndex notification := notification ]> (pendingWorkBlocks c);
        activeWorkPromises := activeWorkPromises c ∪ {[ blockIndex notification ]} |},
     Some workRequests).

(** The [.then] handler: report, then drop both entries. *)
Definition onResolved (c : Coordinator) (blockIndex : Z)
    (result : WorkManager.WorkBatchResult)
    : Coordinator * option WorkCompletionNotification :=
  (forget c blockIndex, Some (handleWorkCompletion blockIndex result)).

(** The [.catch] handler. *)
Definition onRejected (env : WorkManager.Env) (c : Coordinator) (blockIndex : Z)
    (message : string) (nowStamp : Z)
    : Coordinator * option WorkCompletionNotification :=
  (forget c blockIndex, handleWorkError env c blockIndex message nowStamp).

(** One notification carried through to its completion report, with no
    other notification interleaved: the report is what is POSTed to
    /pooler/work-completed. *)
Definition receivePlantingNotification (env : WorkManager.Env) (w : WorkManager.World)
    (c : Coordinator) (notification : PlantingNotification)
    : Coordinator * WorkManager.World * option WorkCompletionNotification :=
  match accept c notification with
  | (c1, None) => (c1, w, None)
  | (c1, Some workRequests) =>
      let '(scheduled, w1) :=
        WorkManager.scheduleWork env w
          (WorkManager.TsNumber (blockTimestamp notification))
          (WorkManager.Num (blockIndex notification)) (entropy notification)
          workRequests in
      let '(c2, report) :=
        onResolved c1 (blockIndex notification) (WorkManager.batch scheduled) in
      (c2, w1, report)
  end.

(** The same, for a batch promise that rejects with [message] before any
    other operation has written the maps.  A rejection that comes later is
    [onRejected] at the coordinator state of that moment. *)
Definition receivePlantingNotificationRejected (env : WorkManager.Env)
    (c : Coordinator) (notification : PlantingNotification)
    (message : string) (nowStamp : Z)
    : Coordinator * option WorkCompletionNotification :=
  match accept c notification with
  | (c1, None) => (c1, None)
  | (c1, Some _) => onRejected env c1 (blockIndex notification) message nowStamp
  end.


(** *** cancelPendingWork / emergencyStop *)

Definition cancelPendingWork (c : Coordinator) (blockIndex : Z) : Coordinator * bool :=
  if bool_decide (is_Some (pendingWorkBlocks c !! blockIndex)) &&
     negb (bool_decide (blockIndex ∈ activeWorkPromises c))
  then ({| pendingWorkBlocks := delete blockIndex (pendingWorkBlocks c);
           activeWorkPromises := activeWorkPromises c |}, true)
  else (c, false).

Definition emergencyStop (c : Coordinator) (w : WorkManager.World)
    : Coordinator * WorkManager.World :=
  ({| pendingWorkBlocks := ∅; activeWorkPromises := activeWorkPromises c |},
   WorkManager.stopWork w).

(** The operations that write the two maps, as they can follow one another:
    a notification is accepted, a batch promise settles (both handlers end
    with the two deletes), an emergency stop, a cancel request. *)
Inductive Op :=
  | OpAccept (notification : PlantingNotification)
  | OpSettle (blockIndex : Z)
  | OpEmergencyStop
  | OpCancel (blockIndex : Z).

Definition step (c : Coordinator) (op : Op) : Coordinator :=
  match op with
  | OpAccept notification => fst (accept c notification)
  | OpSettle blockIndex => forget c blockIndex
  | OpEmergencyStop => fst (emergencyStop c WorkManager.initialWorld)
  | OpCancel blockIndex => fst (cancelPendingWork c blockIndex)
  end.

Definition run (c : Coordinator) (ops : list Op) : Coordinator :=
  List.fold_left step ops c.

(** The coordinator as its constructor leaves it. *)
Definition newCoordinator : Coordinator :=
  {| pendingWorkBlocks := ∅; activeWorkPromises := ∅ |}.


End PoolCoordinator.

(** ** Pooler service (server.ts) *)

Module PoolerService.

(** *** GET /health: the reply's status code *)

Definition healthCode (m : BlockMonitor.Monitor) (nowMs : Z) : Z :=
  match BlockMonitor.hs_status (BlockMonitor.getStatus m nowMs) with
  | BlockMonitor.healthy => 200
  | _ => 503
  end.

(** *** POST /backend/planted-farmers: the authorization check *)

Inductive AuthOutcome :=
  | Reply401                        (* 'Authorization header required' *)
  | Reply403                        (* 'Invalid authorization token' *)
  | Authorized.

Definition authorize (authorization : option string) (AUTH_TOKEN : string) : AuthOutcome :=
  match authorization with
  | None => Reply401
  | Some EmptyString => Reply401
  | Some a =>
      if negb (JsString.startsWith a "Bearer ") then Reply401
      else
        let token := JsString.replace a "Bearer " "" in
        if String.eqb token AUTH_TOKEN then Authorized else Reply403
  end.

(** The handler: the coordinator sees the notification only when the
    check passes. *)
Definition plantedFarmersHandler (env : WorkManager.Env) (w : WorkManager.World)
    (c : PoolCoordinator.Coordinator) (authorization : option string)
    (AUTH_TOKEN : string) (body : PoolCoordinator.PlantingNotification)
    : Z * PoolCoordinator.Coordinator * WorkManager.World *
      option PoolCoordinator.WorkCompletionNotification :=
  match authorize authorization AUTH_TOKEN with
  | Reply401 => (401, c, w, None)
  | Reply403 => (403, c, w, None)
  | Authorized =>
      let '(c', w', report) :=
        PoolCoordinator.receivePlantingNotification env w c body in
      (200, c', w', report)
  end.

(** *** checkStartupBlockDiscovery / sendBlockDiscoveryNotification *)

Record StartupNotification := {
  sn_blockIndex : Z;
  sn_entropy : string;
  sn_blockTimestamp : Z;
  sn_blockAge : Z;
  sn_discoveredAt : Z
}.

(** [sendTime]: the clock when the notification is built. *)
Definition sendBlockDiscoveryNotification (blockIndex : Z)
    (block : BlockMonitor.KaleBlock) (blockTimestamp sendTime : Z)
    : StartupNotification :=
  let entropy :=
    match BlockMonitor.entropy block with
    | Some buf => Hex.toString buf
    | None => EmptyString
    end in
  let blockTimeMs := blockTimestamp * 1000 in
  {| sn_blockIndex := blockIndex;
     sn_entropy := entropy;
     sn_blockTimestamp := blockTimeMs / 1000;
     sn_blockAge := (sendTime - blockTimeMs) / 1000;
     sn_discoveredAt := sendTime |}.

(** Returns the chain reads made and the notification POSTed, if any.  The
    whole body sits in a try/catch that only logs; the status log renders
    the block time with [toISOString] before the age is tested. *)
Definition checkStartupBlockDiscovery (env : BlockMonitor.PollEnv) (sendTime : Z)
    : list BlockMonitor.Event * option StartupNotification :=
  let '(contractData, tr) := BlockMonitor.getContractData env in
  match BlockMonitor.block contractData with
  | None => (tr, None)
  | Some block =>
      match BlockMonitor.truthyTimestamp (Some block) with
      | None => (tr, None)
      | Some blockTimestamp =>
          let blockTimeMs := blockTimestamp * 1000 in
          let currentTimeMs := BlockMonitor.now env in
          let blockAgeSeconds := (currentTimeMs - blockTimeMs) / 1000 in
          match JsDate.toISOString (JsDate.fromMs (Some blockTimeMs)) with
          | Throw _ => (tr, None)
          | Ok _ =>
              if blockAgeSeconds <? 120 then
                (tr, Some (sendBlockDiscoveryNotification
                             (BlockMonitor.index contractData) block
                             blockTimestamp sendTime))
              else (tr, None)
          end
      end
  end.

(** [start]: the monitor is started, then the startup check runs. *)
Definition start (m : BlockMonitor.Monitor) (env : BlockMonitor.PollEnv)
    (checkEnv : BlockMonitor.PollEnv) (sendTime : Z)
    : BlockMonitor.Monitor * list BlockMonitor.Event * option StartupNotification :=
  let '(m1, tr1) := BlockMonitor.startMonitoring m env in
  let '(tr2, posted) := checkStartupBlockDiscovery checkEnv sendTime in
  (m1, tr1 ++ tr2, posted).

End PoolerService.

(** ** Concrete scenarios *)

Module Scenario.

Import BlockMonitor.

Definition blockAt (ts : option Z) : KaleBlock :=
  {| timestamp := ts;
     min_gap := 0; min_stake := 10000000; min_zeros := 6;
     max_gap := 30; max_stake := 100000000; max_zeros := 9;
     entropy := None |}.

(** A running monitor seeded at [cursor], ceiling 10. *)
Definition monitorAt (cursor : Z) : Monitor :=
  {| currentBlockIndex := cursor;
     lastBlockTimestamp := None;
     isMonitoring := true;
     consecutiveMissedBlocks := 0;
     totalBlocksDiscovered := 0;
     startTime := 1700000000000;
     lastNotificationSent := None;
     errorCount := 0;
     maxErrorCount := 10;
     monitoringInterval := true;
     isShuttingDown := false |}.

(** A poll at wall-clock 1700000045 s reading farm index [i] whose block
    carries timestamp [ts]. *)
Definition pollOf (i : Z) (ts : option Z) (reply : PostOutcome) : PollEnv :=
  {| rpcIndex := IndexOk i;
     rpcBlock := BlockOk (blockAt ts);
     now := 1700000045000;
     http := reply;
     ackTime := 1700000045120 |}.

(** A poll whose farm-index read fails at the transport. *)
Definition pollRpcDown : PollEnv :=
  {| rpcIndex := IndexFail "ECONNREFUSED";
     rpcBlock := BlockFail "ECONNREFUSED";
     now := 1700000045000;
     http := PostOk;
     ackTime := 1700000045120 |}.

(** Happy block: 45 s old. *)
Definition happy (i : Z) (reply : PostOutcome) : PollEnv :=
  pollOf i (Some 1700000000) reply.

(** A block whose timestamp, 9e12 s, lies beyond the last instant a JS Date
    can hold (8.64e12 s): [new Date(9e15)] is an Invalid Date. *)
Definition beyondDates (i : Z) : PollEnv :=
  pollOf i (Some 9000000000000) PostOk.

(** The notification expected for [happy 101 _] at a monitor seeded at
    100 that has discovered nothing yet. *)
Definition happyNotification : BackendNotification :=
  {| blockIndex := 101;
     bd_index := 101;
     bd_timestamp := 1700000045000;
     bd_entropy :=
       "0000000000000000000000000000000000000000000000000000000000000000";
     bd_blockAge := Some 45;
     plantable := true;
     bd_min_stake := 10000000;
     bd_max_stake := 100000000;
     bd_min_zeros := 6;
     bd_max_zeros := 9;
     bd_min_gap := 0;
     bd_max_gap := 30;
     discoveredAt := 1700000045000;
     poolerUptime := 45000;
     md_totalBlocksDiscovered := 1 |}.

(** *** Work batches *)

Definition farmerF1 : WorkManager.WorkRequest :=
  {| WorkManager.farmerId := "F1";
     WorkManager.custodialWallet := "GF1KALE";
     WorkManager.custodialSecretKey := "SF1SECRET";
     WorkManager.blockIndex := 201;
     WorkManager.entropy := "abab";
     WorkManager.stakeAmount := "1000000" |}.

(** S6 of the specification: the first miner run produces no output within
    the timeout, every later run prints [9999, "00005ef"]; the relay
    accepts whatever it is sent. *)
Definition minerTimesOutOnce : WorkManager.Env :=
  {| WorkManager.POOLER_ID := "pooler-1";
     WorkManager.keypairFromSecret := fun _ => Ok "f1f1"%string;
     WorkManager.miner :=
       fun k => match k with
                | O => WorkManager.TimedOut
                | S _ => WorkManager.Printed (WorkManager.Num 9999) "00005ef"
                end;
     WorkManager.relay :=
       fun _ _ => WorkSubmissionService.Built
                    (WorkSubmissionService.RelayAccepted (Some "AAA"%string));
     WorkManager.clock := fun k => 1000 * Z.of_nat k |}.

(** S4: the miner prints [12345, "0000007abc"] at the first run. *)
Definition minerSucceeds : WorkManager.Env :=
  {| WorkManager.POOLER_ID := "pooler-1";
     WorkManager.keypairFromSecret := fun _ => Ok "f1f1"%string;
     WorkManager.miner :=
       fun _ => WorkManager.Printed (WorkManager.Num 12345) "0000007abc";
     WorkManager.relay :=
       fun _ _ => WorkSubmissionService.Built
                    (WorkSubmissionService.RelayAccepted (Some "AAA"%string));
     WorkManager.clock := fun k => 1000 * Z.of_nat k |}.

Definition plantingOfF1 : PoolCoordinator.PlantingNotification :=
  {| PoolCoordinator.blockIndex := 201;
     PoolCoordinator.entropy := "abab";
     PoolCoordinator.blockTimestamp := 1700000000;
     PoolCoordinator.plantedFarmers :=
       [ {| PoolCoordinator.farmerId := "F1";
            PoolCoordinator.custodialWallet := "GF1KALE";
            PoolCoordinator.custodialSecretKey := "SF1SECRET";
            PoolCoordinator.stakeAmount := "1000000";
            PoolCoordinator.plantingTime := 1700000035000 |} ] |}.

Definition idleCoordinator : PoolCoordinator.Coordinator :=
  {| PoolCoordinator.pendingWorkBlocks := ∅;
     PoolCoordinator.activeWorkPromises := ∅ |}.




End Scenario.

(** * Properties of the Block Monitor *)

Section BlockMonitorFacts.

Import BlockMonitor.

Lemma timing_in_range_iff (seconds : Z) :
  inDateRange seconds <->
  exists p, calculateTimingPredictions seconds 30 150 30 = Ok p.
Proof.
  unfold inDateRange, calculateTimingPredictions, JsDate.fromMs, JsDate.plus,
    JsDate.getTime, JsDate.toISOString, bindR, JsDate.MAX_TIME.
  split.
  - intros [Hlo Hhi].
    repeat match goal with
           | |- context [Z.leb ?a ?b] => destruct (Z.leb_spec a b); simpl; try lia
           end.
    eexists; reflexivity.
  - repeat match goal with
           | |- context [Z.leb ?a ?b] => destruct (Z.leb_spec a b); simpl
           end; intros [p Hp]; try discriminate; lia.
Qed.

Lemma timing_throws_iff (seconds : Z) :
  ~ inDateRange seconds <->
  exists e, calculateTimingPredictions seconds 30 150 30 = Throw e.
Proof.
  rewrite timing_in_range_iff.
  destruct (calculateTimingPredictions seconds 30 150 30) as [p|e].
  - split; [intros H; exfalso; apply H; eauto | intros [e He]; discriminate].
  - split; [eauto | intros _ [p Hp]; discriminate].
Qed.

Lemma posts_app (a b : list Event) : posts (a ++ b) = posts a ++ posts b.
Proof.
  induction a as [|[| |n] a IH]; simpl; auto. now rewrite IH.
Qed.

Lemma postedIndexes_app (a b : list Event) :
  postedIndexes (a ++ b) = postedIndexes a ++ postedIndexes b.
Proof. unfold postedIndexes. now rewrite posts_app, List.map_app. Qed.

Lemma posts_getContractData (env : PollEnv) : posts (snd (getContractData env)) = [].
Proof.
  unfold getContractData.
  destruct (rpcIndex env); [destruct (i >? 0); [destruct (rpcBlock env)|]|]; reflexivity.
Qed.

(** The discovery handler: what it does when the timing prediction goes
    through, and when it throws. *)
Lemma handleNewBlockDiscovered_ok (m : Monitor) (env : PollEnv) (cd : ContractData) :
  inDateRange (timingSeconds env (block cd)) ->
  exists m1 n,
    handleNewBlockDiscovered m env cd = (m1, [EvPost n], None) /\
    blockIndex n = index cd /\
    currentBlockIndex m1 = index cd /\
    errorCount m1 = errorCount m /\
    maxErrorCount m1 = maxErrorCount m /\
    isShuttingDown m1 = isShuttingDown m /\
    isMonitoring m1 = isMonitoring m /\
    monitoringInterval m1 = monitoringInterval m /\
    totalBlocksDiscovered m1 = totalBlocksDiscovered m + 1 /\
    bd_blockAge n =
      match truthyTimestamp (block cd) with
      | Some ts => Some (now env / 1000 - ts)
      | None => Some 0
      end /\
    plantable n = isPlantable (bd_blockAge n).
Proof.
  intros Hr. pose proof Hr as Hr'.
  apply timing_in_range_iff in Hr as [p Hp].
  unfold handleNewBlockDiscovered. rewrite Hp.
  unfold notifyBackend.
  assert (Hage :
    match JsDate.getTime
            match truthyTimestamp (block cd) with
            | Some ts => JsDate.fromMs (Some (ts * 1000))
            | None => Some (now env)
            end with
    | Some t => Some ((now env - t) / 1000)
    | None => None
    end =
    match truthyTimestamp (block cd) with
    | Some ts => Some (now env / 1000 - ts)
    | None => Some 0
    end).
  { unfold timingSeconds, inDateRange, JsDate.MAX_TIME in Hr'.
    unfold JsDate.getTime, JsDate.fromMs, JsDate.MAX_TIME.
    destruct (truthyTimestamp (block cd)) as [ts|].
    - destruct (Z.leb_spec (Z.abs (ts * 1000)) 8640000000000000); [|lia].
      f_equal.
      replace (now env - ts * 1000) with (now env + (- ts) * 1000) by lia.
      rewrite Z.div_add by lia. lia.
    - f_equal. rewrite Z.sub_diag. reflexivity. }
  destruct (http env); eexists; eexists; (split; [reflexivity|]);
    simpl in Hage |- *; rewrite ?Hage; repeat split; reflexivity.
Qed.

Lemma handleNewBlockDiscovered_throws (m : Monitor) (env : PollEnv) (cd : ContractData) :
  ~ inDateRange (timingSeconds env (block cd)) ->
  exists e, handleNewBlockDiscovered m env cd = (m, [], Some e).
Proof.
  intros Hr. apply timing_throws_iff in Hr as [e He].
  unfold handleNewBlockDiscovered. rewrite He. eauto.
Qed.

Lemma inDateRange_dec (seconds : Z) : {inDateRange seconds} + {~ inDateRange seconds}.
Proof.
  unfold inDateRange.
  destruct (Z_le_dec (- JsDate.MAX_TIME) (seconds * 1000));
    destruct (Z_le_dec (seconds * 1000 + 210000) JsDate.MAX_TIME);
    (left; tauto) || (right; tauto).
Qed.

Lemma reset_fields (m : Monitor) :
  let m' := if errorCount m >? 0 then setErrorCount m 0 else m in
  currentBlockIndex m' = currentBlockIndex m /\
  isShuttingDown m' = isShuttingDown m /\
  isMonitoring m' = isMonitoring m /\
  monitoringInterval m' = monitoringInterval m /\
  maxErrorCount m' = maxErrorCount m /\
  (0 <= errorCount m -> errorCount m' = 0).
Proof.
  simpl. destruct (Z.gtb_spec (errorCount m) 0); simpl; repeat split; lia.
Qed.

Lemma poll_cases (m : Monitor) (env : PollEnv) :
  isShuttingDown m = false ->
  PollCase m env (fst (checkForNewBlocks m env)) (snd (checkForNewBlocks m env)).
Proof.
  intros Hlive.
  pose proof (posts_getContractData env) as Hreads.
  assert (Hthrows : pollThrows m env =
                    match pollBody m env with (_, _, Some _) => true | _ => false end)
    by reflexivity.
  unfold checkForNewBlocks. rewrite Hlive.
  unfold pollBody in *.
  remember (getContractData env) as p eqn:Hcd. destruct p as [cd tr1].
  assert (Hsnap : snapshotIndex env = index cd)
    by (unfold snapshotIndex; now rewrite <- Hcd).
  assert (Hfst : fst (getContractData env) = cd) by now rewrite <- Hcd.
  simpl in Hreads.
  destruct (Z.gtb_spec (index cd) (currentBlockIndex m)) as [Hgt|Hle].
  - destruct (inDateRange_dec (timingSeconds env (block cd))) as [Hr|Hr].
    + destruct (handleNewBlockDiscovered_ok m env cd Hr)
        as (m1 & n & Heq & Hn & Hc & He & Hmx & Hs & Hmon & Hint & _ & Hage & Hpl).
      rewrite Heq in *. simpl.
      destruct (reset_fields m1) as (R1 & R2 & _ & _ & _ & R3).
      simpl in R1, R2, R3.
      apply (PollDiscovered m env _ n); rewrite ?Hsnap, ?Hfst.
      * exact Hgt.
      * exact Hr.
      * exact Hthrows.
      * rewrite posts_app, Hreads. reflexivity.
      * exact Hn.
      * rewrite Hage. destruct (truthyTimestamp (block cd)); reflexivity.
      * exact Hpl.
      * rewrite R1. exact Hc.
      * rewrite R2, Hs. exact Hlive.
      * intros H0. apply R3. lia.
    + destruct (handleNewBlockDiscovered_throws m env cd Hr) as [e Heq].
      rewrite Heq in *. simpl.
      apply PollThrew; rewrite ?Hsnap, ?Hfst; auto.
      rewrite posts_app, Hreads. reflexivity.
  - destruct (Z.ltb_spec (index cd) (currentBlockIndex m)) as [Hlt|Hge]; simpl.
    + destruct (reset_fields (setCursor m (index cd))) as (R1 & R2 & _ & _ & _ & R3).
      simpl in R1, R2, R3.
      apply PollRegressed; rewrite ?Hsnap; auto.
      now rewrite R2.
    + destruct (reset_fields m) as (R1 & R2 & _ & _ & _ & R3). simpl in R1, R2, R3.
      apply PollQuiet; rewrite ?Hsnap; auto; try lia.
      now rewrite R2.
Qed.

Lemma poll_halted (m : Monitor) (env : PollEnv) :
  isShuttingDown m = true -> checkForNewBlocks m env = (m, []).
Proof. intros H. unfold checkForNewBlocks. now rewrite H. Qed.

Lemma runPolls_halted (m : Monitor) (envs : list PollEnv) :
  isShuttingDown m = true -> runPolls m envs = (m, []).
Proof.
  intros H. induction envs as [|env rest IH]; simpl; [reflexivity|].
  rewrite poll_halted by exact H. now rewrite IH.
Qed.

Lemma handleMonitoringError_fields (m : Monitor) :
  let m' := handleMonitoringError m in
  errorCount m' = errorCount m + 1 /\
  currentBlockIndex m' = currentBlockIndex m /\
  maxErrorCount m' = maxErrorCount m /\
  (errorCount m + 1 < maxErrorCount m ->
     isShuttingDown m' = isShuttingDown m /\
     isMonitoring m' = isMonitoring m /\
     monitoringInterval m' = monitoringInterval m) /\
  (maxErrorCount m <= errorCount m + 1 -> isMonitoring m = true ->
     isShuttingDown m' = true /\
     isMonitoring m' = false /\
     monitoringInterval m' = false).
Proof.
  unfold handleMonitoringError, stopMonitoring. simpl.
  destruct (Z.geb_spec (errorCount m + 1) (maxErrorCount m)) as [Hge|Hlt].
  - destruct (isMonitoring m) eqn:Hm; simpl; repeat split; auto; try lia; discriminate.
  - simpl. repeat split; auto; lia.
Qed.

Lemma In_posts (n : BackendNotification) (tr : list Event) :
  In (EvPost n) tr <-> In n (posts tr).
Proof.
  induction tr as [|[| |n'] tr IH]; simpl.
  - tauto.
  - rewrite <- IH. split; [intros [H|H]; [discriminate|exact H] | auto].
  - rewrite <- IH. split; [intros [H|H]; [discriminate|exact H] | auto].
  - rewrite <- IH. split; intros [H|H]; auto; left; congruence.
Qed.

Lemma quiet_when_cursor_matches (m : Monitor) (env : PollEnv) :
  snapshotIndex env <= currentBlockIndex m ->
  posts (snd (checkForNewBlocks m env)) = [].
Proof.
  intros Hle. destruct (isShuttingDown m) eqn:Hs.
  - now rewrite poll_halted.
  - destruct (poll_cases m env Hs); auto; lia.
Qed.

(** S1 of the specification, evaluated. *)
Example happy_block_poll :
  checkForNewBlocks (Scenario.monitorAt 100) (Scenario.happy 101 PostOk) =
  (setNotified
     (setDiscovered (Scenario.monitorAt 100) 101 (Some 1700000000000)) 1700000045120,
   [EvGetIndex; EvGetBlock 101; EvPost Scenario.happyNotification]).
Proof. vm_compute. reflexivity. Qed.

(** ** C1 *)

(** C1, as stated, fails: at cursor 100 the chain reports index 101 and the
    block-discovered POST throws.  The POST was attempted for 101 and not
    acknowledged, yet the cursor has moved off 100 and the next poll that
    reads index 101 sends nothing. *)
Lemma C1_failed_post_still_advances_cursor :
  let m0 := Scenario.monitorAt 100 in
  let env := Scenario.happy 101 (PostThrows "fetch failed") in
  let m1 := fst (checkForNewBlocks m0 env) in
  postedIndexes (snd (checkForNewBlocks m0 env)) = [101] /\
  lastNotificationSent m1 = None /\
  ~ (currentBlockIndex m1 = currentBlockIndex m0) /\
  postedIndexes (snd (checkForNewBlocks m1 env)) = [].
Proof. vm_compute. repeat split; try reflexivity. discriminate. Qed.

(** C1 (amended): whenever a poll issues the block-discovered POST, the
    cursor has been advanced to the snapshot index, whatever the outcome
    of the POST; a following poll reading the same index issues no POST
    (the notification is not re-attempted). *)
Theorem discovery_post_never_holds_cursor
    (m : Monitor) (env : PollEnv) (n : BackendNotification) :
  In (EvPost n) (snd (checkForNewBlocks m env)) ->
  blockIndex n = snapshotIndex env /\
  currentBlockIndex m < snapshotIndex env /\
  currentBlockIndex (fst (checkForNewBlocks m env)) = snapshotIndex env /\
  forall env',
    snapshotIndex env' = snapshotIndex env ->
    posts (snd (checkForNewBlocks (fst (checkForNewBlocks m env)) env')) = [].
Proof.
  intros Hin. apply In_posts in Hin.
  destruct (isShuttingDown m) eqn:Hs.
  { rewrite poll_halted in Hin by exact Hs. destruct Hin. }
  destruct (poll_cases m env Hs) as
    [m1 n0 tr Hlt Hr _ Hp Hn _ _ Hc Hs1 _ | tr _ _ _ Hp | m1 tr _ _ Hp _ _ _
     | m1 tr _ _ Hp _ _ _];
    rewrite Hp in Hin; simpl in Hin; try contradiction.
  destruct Hin as [->|[]].
  repeat split; auto.
  intros env' Heq. apply quiet_when_cursor_matches. lia.
Qed.

Lemma discovery_post_never_holds_cursor_witness :
  In (EvPost Scenario.happyNotification)
     (snd (checkForNewBlocks (Scenario.monitorAt 100)
             (Scenario.happy 101 (PostThrows "fetch failed")))) /\
  currentBlockIndex
    (fst (checkForNewBlocks (Scenario.monitorAt 100)
            (Scenario.happy 101 (PostThrows "fetch failed")))) = 101.
Proof.
  assert (H : In (EvPost Scenario.happyNotification)
                (snd (checkForNewBlocks (Scenario.monitorAt 100)
                        (Scenario.happy 101 (PostThrows "fetch failed")))))
    by (vm_compute; right; right; left; reflexivity).
  split; [exact H|].
  exact (proj1 (proj2 (proj2
           (discovery_post_never_holds_cursor _ _ _ H)))).
Defined.

(** ** C3 *)

(** C3, as stated, fails: a transport error on the farm-index read at
    cursor 100 is swallowed by getContractData; the error counter is not
    incremented and the cursor drops to 0. *)
Lemma C3_rpc_error_not_counted :
  let m0 := Scenario.monitorAt 100 in
  let m1 := fst (checkForNewBlocks m0 Scenario.pollRpcDown) in
  rpcIndex Scenario.pollRpcDown = IndexFail "ECONNREFUSED" /\
  ~ (errorCount m1 = errorCount m0 + 1) /\
  ~ (currentBlockIndex m1 = currentBlockIndex m0).
Proof. vm_compute. repeat split; discriminate. Qed.

(** C3 (amended): when an exception escapes the body of a poll, the error
    counter goes up by one, the cursor is untouched, and below the ceiling
    the monitor keeps polling.  Errors of the two chain reads never escape:
    a failed farm-index read makes the poll see index 0, a failed block
    read makes it see the index without a block, and in both cases the
    poll counts as successful (counter reset to zero). *)
Theorem poll_exception_counted_chain_errors_absorbed (m : Monitor) (env : PollEnv) :
  isShuttingDown m = false ->
  0 <= errorCount m ->
  let m1 := fst (checkForNewBlocks m env) in
  (pollThrows m env = true ->
     errorCount m1 = errorCount m + 1 /\
     currentBlockIndex m1 = currentBlockIndex m /\
     (errorCount m + 1 < maxErrorCount m ->
        isShuttingDown m1 = false /\
        monitoringInterval m1 = monitoringInterval m)) /\
  (forall err,
     rpcIndex env = IndexFail err -> 0 <= currentBlockIndex m ->
     snapshotIndex env = 0 /\ pollThrows m env = false /\ errorCount m1 = 0) /\
  (forall i err,
     rpcIndex env = IndexOk i -> rpcBlock env = BlockFail err ->
     inDateRange (now env / 1000) ->
     block (fst (getContractData env)) = None /\
     pollThrows m env = false /\ errorCount m1 = 0).
Proof.
  intros Hs H0 m1. subst m1.
  pose proof (poll_cases m env Hs) as Hc.
  split; [|split].
  - intros Ht.
    destruct Hc as [m1 n0 tr _ _ Hf | tr _ _ _ _ | m1 tr _ Hf | m1 tr _ Hf].
    + congruence.
    + destruct (handleMonitoringError_fields m) as (E1 & E2 & _ & E3 & _).
      repeat split; auto; try (rewrite (proj1 (E3 H)); exact Hs);
        apply E3; assumption.
    + congruence.
    + congruence.
  - intros err Herr Hcur.
    assert (Hsnap : snapshotIndex env = 0)
      by (unfold snapshotIndex, getContractData; now rewrite Herr).
    assert (Hnt : pollThrows m env = false).
    { unfold pollThrows, pollBody, getContractData. rewrite Herr. simpl.
      destruct (Z.gtb_spec 0 (currentBlockIndex m)) as [Hgt|Hle]; [lia|].
      destruct (0 <? currentBlockIndex m); reflexivity. }
    repeat split; auto.
    destruct Hc; auto; congruence.
  - intros i err Hi Hb Hr.
    assert (Hblk : block (fst (getContractData env)) = None).
    { unfold getContractData. rewrite Hi, Hb. destruct (i >? 0); reflexivity. }
    assert (Hnt : pollThrows m env = false).
    { destruct Hc as [m1 n0 tr _ _ Hf | tr _ Hbad _ _ | m1 tr _ Hf | m1 tr _ Hf]; auto.
      exfalso. apply Hbad. rewrite Hblk. exact Hr. }
    repeat split; auto.
    destruct Hc; auto; congruence.
Qed.

Lemma poll_exception_counted_chain_errors_absorbed_witness :
  pollThrows (Scenario.monitorAt 100) (Scenario.beyondDates 101) = true /\
  errorCount
    (fst (checkForNewBlocks (Scenario.monitorAt 100) (Scenario.beyondDates 101))) = 1.
Proof.
  assert (Ht : pollThrows (Scenario.monitorAt 100) (Scenario.beyondDates 101) = true)
    by (vm_compute; reflexivity).
  assert (H0 : 0 <= errorCount (Scenario.monitorAt 100)) by (simpl; lia).
  split; [exact Ht|].
  exact (proj1 (proj1
           (poll_exception_counted_chain_errors_absorbed
              (Scenario.monitorAt 100) (Scenario.beyondDates 101) eq_refl H0) Ht)).
Defined.

(** ** C7 *)

Lemma runPolls_cons (m : Monitor) (env : PollEnv) (rest : list PollEnv) :
  runPolls m (env :: rest) =
  (fst (runPolls (fst (checkForNewBlocks m env)) rest),
   snd (checkForNewBlocks m env) ++ snd (runPolls (fst (checkForNewBlocks m env)) rest)).
Proof.
  simpl. destruct (checkForNewBlocks m env) as [m1 tr1]. simpl.
  destruct (runPolls m1 rest). reflexivity.
Qed.

Lemma failing_poll_state (m : Monitor) (env : PollEnv) :
  isShuttingDown m = false ->
  pollThrows m env = true ->
  fst (checkForNewBlocks m env) = handleMonitoringError m.
Proof.
  intros Hs Ht.
  destruct (poll_cases m env Hs); congruence.
Qed.

Lemma consecutive_failures_halt (envs : list PollEnv) :
  forall m : Monitor,
    envs <> [] ->
    isMonitoring m = true ->
    isShuttingDown m = false ->
    errorCount m + Z.of_nat (length envs) = maxErrorCount m ->
    allFailing m envs ->
    isShuttingDown (fst (runPolls m envs)) = true /\
    isMonitoring (fst (runPolls m envs)) = false /\
    monitoringInterval (fst (runPolls m envs)) = false.
Proof.
  induction envs as [|env rest IH]; intros m Hne Hmon Hs Hlen Hall;
    [congruence|].
  destruct Hall as [Ht Hrest].
  rewrite runPolls_cons. cbn [fst].
  rewrite (failing_poll_state m env Hs Ht) in *.
  destruct (handleMonitoringError_fields m) as (E1 & E2 & E3 & E4 & E5).
  cbn zeta in *.
  destruct rest as [|env' rest'].
  - simpl in Hlen |- *. apply E5; [lia | exact Hmon].
  - assert (Hlt : errorCount m + 1 < maxErrorCount m)
      by (simpl length in Hlen; lia).
    destruct (E4 Hlt) as (F1 & F2 & F3).
    apply IH; try congruence.
    simpl length in Hlen |- *. lia.
Qed.

(** C7, as stated, fails for the failing polls the monitor meets when the
    chain cannot be read: ten polls in a row whose farm-index read fails at
    the transport (MaxErrorCount is 10) leave the monitor running - not
    shutting down, timer in place, error counter at zero - and the
    eleventh poll reads the chain again. *)
Lemma C7_rpc_down_polls_never_halt :
  let failing := repeat Scenario.pollRpcDown 10 in
  let m10 := fst (runPolls (Scenario.monitorAt 100) failing) in
  rpcIndex Scenario.pollRpcDown = IndexFail "ECONNREFUSED" /\
  Z.of_nat (length failing) = maxErrorCount (Scenario.monitorAt 100) /\
  isShuttingDown m10 = false /\
  isMonitoring m10 = true /\
  monitoringInterval m10 = true /\
  errorCount m10 = 0 /\
  chainReads (snd (runPolls (Scenario.monitorAt 100) failing)) =
    repeat EvGetIndex 10 /\
  chainReads (snd (checkForNewBlocks m10 Scenario.pollRpcDown)) = [EvGetIndex].
Proof. vm_compute. repeat split; reflexivity. Qed.

(** C7 (amended): a running monitor whose error counter is at zero and that
    meets MaxErrorCount polls in a row from which an exception escapes is
    halted afterwards - shutting down, no longer monitoring, interval timer
    cleared - and every later poll returns at once: no chain read (indeed
    no event at all) and no state change. *)
Theorem halts_after_max_consecutive_failures (m : Monitor) (envs : list PollEnv) :
  isMonitoring m = true ->
  isShuttingDown m = false ->
  errorCount m = 0 ->
  1 <= maxErrorCount m ->
  Z.of_nat (length envs) = maxErrorCount m ->
  allFailing m envs ->
  isShuttingDown (fst (runPolls m envs)) = true /\
  isMonitoring (fst (runPolls m envs)) = false /\
  monitoringInterval (fst (runPolls m envs)) = false /\
  forall later : list PollEnv,
    runPolls (fst (runPolls m envs)) later = (fst (runPolls m envs), []) /\
    chainReads (snd (runPolls (fst (runPolls m envs)) later)) = [].
Proof.
  intros Hmon Hs He Hmax Hlen Hall.
  destruct (consecutive_failures_halt envs m) as (H1 & H2 & H3); auto.
  - intros ->. simpl in Hlen. lia.
  - lia.
  - repeat split; auto; rewrite runPolls_halted by exact H1; reflexivity.
Qed.

Lemma halts_after_max_consecutive_failures_witness :
  allFailing (Scenario.monitorAt 100) (repeat (Scenario.beyondDates 101) 10) /\
  isShuttingDown
    (fst (runPolls (Scenario.monitorAt 100) (repeat (Scenario.beyondDates 101) 10)))
  = true.
Proof.
  assert (Hall : allFailing (Scenario.monitorAt 100)
                   (repeat (Scenario.beyondDates 101) 10))
    by (vm_compute; repeat split).
  split; [exact Hall|].
  refine (proj1 (halts_after_max_consecutive_failures
                   (Scenario.monitorAt 100) (repeat (Scenario.beyondDates 101) 10)
                   eq_refl eq_refl eq_refl _ eq_refl Hall)).
  simpl; lia.
Defined.

(** ** C6 *)

(** C6, as stated, fails: block 100 is notified, the chain then reports a
    lower index (a reorg to 99, or a failed farm-index read, seen as
    index 0), and when index 100 shows again it is notified a second
    time. *)
Lemma C6_index_notified_twice :
  postedIndexes
    (snd (runPolls (Scenario.monitorAt 99)
            [Scenario.happy 100 PostOk; Scenario.happy 99 PostOk;
             Scenario.happy 100 PostOk])) = [100; 100] /\
  ~ NoDup
      (postedIndexes
         (snd (runPolls (Scenario.monitorAt 99)
                 [Scenario.happy 100 PostOk; Scenario.pollRpcDown;
                  Scenario.happy 100 PostOk]))).
Proof.
  split; [vm_compute; reflexivity|].
  vm_compute. intros H. inversion H as [|x l Hnin _]; subst.
  apply Hnin. left.
Qed.

Lemma StronglySorted_lt_NoDup (l : list Z) : StronglySorted Z.lt l -> NoDup l.
Proof.
  induction 1 as [|a l Hs IH Hall]; constructor; auto.
  intros Hin. rewrite Forall_forall in Hall.
  specialize (Hall a Hin). lia.
Qed.

Lemma posted_above_cursor_and_sorted (envs : list PollEnv) :
  forall m : Monitor,
    noRegression m envs ->
    Forall (fun i => currentBlockIndex m < i) (postedIndexes (snd (runPolls m envs))) /\
    StronglySorted Z.lt (postedIndexes (snd (runPolls m envs))).
Proof.
  induction envs as [|env rest IH]; intros m Hnr.
  - simpl. split; constructor.
  - destruct Hnr as [Hle Hrest].
    destruct (isShuttingDown m) eqn:Hs.
    { rewrite runPolls_halted by exact Hs. simpl. split; constructor. }
    rewrite runPolls_cons. cbn [snd]. rewrite postedIndexes_app.
    specialize (IH _ Hrest). destruct IH as [IHa IHs].
    unfold postedIndexes at 1 3.
    destruct (poll_cases m env Hs) as
      [m1 n tr Hlt _ _ Hp Hn _ _ Hc _ _ | tr _ _ _ Hp | m1 tr Hlt _ _ _ _ _
       | m1 tr _ _ Hp Hc _ _].
    + rewrite Hp. simpl. rewrite Hn. rewrite Hc in IHa. split.
      * constructor; [exact Hlt|].
        eapply List.Forall_impl; [|exact IHa]. simpl. intros; lia.
      * constructor; assumption.
    + rewrite Hp. simpl.
      destruct (handleMonitoringError_fields m) as (_ & E2 & _).
      cbn zeta in E2. rewrite E2 in IHa. split; assumption.
    + lia.
    + rewrite Hp. simpl. rewrite Hc in IHa. split; assumption.
Qed.

(** C6 (amended): over any sequence of polls in which the chain reader
    never reports an index below the cursor, the block-discovered POSTs
    carry strictly increasing block indexes; so no index is notified
    twice. *)
Theorem no_repeat_notification_without_regression
    (m : Monitor) (envs : list PollEnv) :
  noRegression m envs ->
  StronglySorted Z.lt (postedIndexes (snd (runPolls m envs))) /\
  NoDup (postedIndexes (snd (runPolls m envs))).
Proof.
  intros Hnr.
  destruct (posted_above_cursor_and_sorted envs m Hnr) as [_ Hs].
  split; [exact Hs | apply StronglySorted_lt_NoDup; exact Hs].
Qed.

Lemma no_repeat_notification_without_regression_witness :
  noRegression (Scenario.monitorAt 99)
    [Scenario.happy 100 PostOk; Scenario.happy 100 (PostStatus 503);
     Scenario.happy 101 PostOk] /\
  NoDup
    (postedIndexes
       (snd (runPolls (Scenario.monitorAt 99)
               [Scenario.happy 100 PostOk; Scenario.happy 100 (PostStatus 503);
                Scenario.happy 101 PostOk]))).
Proof.
  assert (H : noRegression (Scenario.monitorAt 99)
                [Scenario.happy 100 PostOk; Scenario.happy 100 (PostStatus 503);
                 Scenario.happy 101 PostOk])
    by (vm_compute; repeat split; discriminate).
  split; [exact H|].
  exact (proj2 (no_repeat_notification_without_regression _ _ H)).
Defined.

(** ** C9 *)

(** C9, as stated, fails: at cursor 100 the chain reports index 101 with
    block timestamp 9,000,000,000,000 s.  The block is new and its age is
    far outside the window, but the timing prediction throws before
    anything is sent: no POST, cursor still 100, one error counted. *)
Lemma C9_out_of_window_block_not_notified :
  let m0 := Scenario.monitorAt 100 in
  let env := Scenario.beyondDates 101 in
  let m1 := fst (checkForNewBlocks m0 env) in
  currentBlockIndex m0 < snapshotIndex env /\
  posts (snd (checkForNewBlocks m0 env)) = [] /\
  ~ (currentBlockIndex m1 = snapshotIndex env) /\
  errorCount m1 = 1.
Proof. vm_compute. repeat split; discriminate. Qed.

(** C9 (amended): for a new-block discovery whose timing prediction is
    within the range of JS dates, exactly one notification is sent; its
    blockAge is [now/1000 - timestamp] in whole seconds, or zero when the
    timestamp is missing (or zero); plantable holds exactly when
    [30 <= blockAge < 240]; and the cursor advances to the snapshot index
    whether or not the block is plantable. *)
Theorem discovery_plantable_window (m : Monitor) (env : PollEnv) :
  isShuttingDown m = false ->
  currentBlockIndex m < snapshotIndex env ->
  inDateRange (timingSeconds env (block (fst (getContractData env)))) ->
  exists n age,
    age = match truthyTimestamp (block (fst (getContractData env))) with
          | Some ts => now env / 1000 - ts
          | None => 0
          end /\
    posts (snd (checkForNewBlocks m env)) = [n] /\
    blockIndex n = snapshotIndex env /\
    bd_blockAge n = Some age /\
    (plantable n = true <-> 30 <= age < 240) /\
    currentBlockIndex (fst (checkForNewBlocks m env)) = snapshotIndex env.
Proof.
  intros Hs Hlt Hr.
  destruct (poll_cases m env Hs) as
    [m1 n tr _ _ _ Hp Hn Hage Hpl Hc _ _ | tr _ Hbad _ _ | m1 tr Hlt' _ _ _ _ _
     | m1 tr Heq _ _ _ _ _]; try lia; try contradiction.
  exists n. eexists. split; [reflexivity|].
  split; [exact Hp|]. split; [exact Hn|]. split; [exact Hage|].
  split; [|exact Hc].
  rewrite Hpl, Hage. unfold isPlantable.
  rewrite andb_true_iff. lia.
Qed.

Lemma discovery_plantable_window_witness :
  exists n,
    posts (snd (checkForNewBlocks (Scenario.monitorAt 100)
                  (Scenario.happy 101 PostOk))) = [n] /\
    bd_blockAge n = Some 45 /\
    plantable n = true.
Proof.
  assert (Hr : inDateRange
                 (timingSeconds (Scenario.happy 101 PostOk)
                    (block (fst (getContractData (Scenario.happy 101 PostOk))))))
    by (vm_compute; split; discriminate).
  assert (Hlt : currentBlockIndex (Scenario.monitorAt 100) <
                snapshotIndex (Scenario.happy 101 PostOk))
    by (vm_compute; reflexivity).
  destruct (discovery_plantable_window (Scenario.monitorAt 100)
              (Scenario.happy 101 PostOk) eq_refl Hlt Hr)
    as (n & age & Hage & Hp & _ & Hb & Hpl & _).
  exists n. split; [exact Hp|].
  assert (Ha : age = 45) by (rewrite Hage; vm_compute; reflexivity).
  subst age. rewrite Ha in *. split; [exact Hb|].
  apply Hpl. lia.
Defined.

End BlockMonitorFacts.

(** * Properties of the Relay Submitter *)

Section JsStringFacts.

Import JsString.

Lemma startsWith_spec (p s : string) :
  startsWith s p = true <-> exists post, s = String.append p post.
Proof.
  revert s. induction p as [|a p IH]; intros s; simpl.
  - split; [intros _; exists s; reflexivity | reflexivity].
  - destruct s as [|b s].
    + split; [discriminate | intros [post H]; discriminate].
    + rewrite andb_true_iff, IH. split.
      * intros [Hab [post ->]]. apply Ascii.eqb_eq in Hab as ->.
        exists post. reflexivity.
      * intros [post H]. injection H as -> ->.
        split; [apply Ascii.eqb_refl | exists post; reflexivity].
Qed.

Lemma includes_spec (s t : string) :
  includes s t = true <->
  exists pre post, s = String.append pre (String.append t post).
Proof.
  induction s as [|c s IH].
  - simpl. rewrite orb_false_r, startsWith_spec. split.
    + intros [post H]. exists EmptyString, post. exact H.
    + intros (pre & post & H). destruct pre as [|a pre]; [|discriminate].
      exists post. exact H.
  - cbn [includes]. rewrite orb_true_iff, startsWith_spec, IH. split.
    + intros [[post H]|(pre & post & H)].
      * exists EmptyString, post. exact H.
      * exists (String c pre), post. simpl. now rewrite H.
    + intros (pre & post & H). destruct pre as [|a pre].
      * left. exists post. exact H.
      * right. simpl in H. injection H as _ H. exists pre, post. exact H.
Qed.

End JsStringFacts.

Section RelayFacts.

Import WorkSubmissionService.

(** The retryable tokens, lower-cased. *)
Lemma retryable_tokens_lower :
  List.map JsString.toLowerCase retryableErrors =
  [ "not_found"; "timeout"; "econnreset"; "enotfound"; "etimedout";
    "fetch failed"; "network error" ]%string.
Proof. vm_compute. reflexivity. Qed.

Lemma isRetryableError_spec (msg : string) :
  isRetryableError msg = true <->
  exists token,
    In token [ "not_found"; "timeout"; "econnreset"; "enotfound"; "etimedout";
               "fetch failed"; "network error" ]%string /\
    exists pre post,
      JsString.toLowerCase msg = String.append pre (String.append token post).
Proof.
  rewrite <- retryable_tokens_lower. unfold isRetryableError.
  rewrite List.existsb_exists. split.
  - intros (x & Hin & Hinc). exists (JsString.toLowerCase x). split.
    + apply List.in_map. exact Hin.
    + apply includes_spec. exact Hinc.
  - intros (token & Hin & Hsub).
    apply List.in_map_iff in Hin as (x & <- & Hin).
    exists x. split; [exact Hin|]. apply includes_spec. exact Hsub.
Qed.

(** S5 of the specification: two "fetch failed", then accepted. *)
Example retry_then_success :
  submitWork (fun attempt =>
                if attempt <? 3 then Built (FetchThrows "fetch failed")
                else Built (RelayAccepted (Some "BBB"%string))) =
  ({| success := true; transactionHash := Some "BBB"%string; error := None;
      details_attempts := 3 |},
   [EvAttempt 1; EvSleep 2000; EvAttempt 2; EvSleep 2000; EvAttempt 3]).
Proof. vm_compute. reflexivity. Qed.

(** S7: a simulation error ends the submission at once. *)
Example simulation_error_is_terminal :
  submitWork (fun _ => SimulationError "Error(Contract, #13)") =
  ({| success := false; transactionHash := None;
      error := Some "Simulation failed: Error(Contract, #13)"%string;
      details_attempts := 1 |},
   [EvAttempt 1]).
Proof. vm_compute. reflexivity. Qed.

Example upper_case_token_is_retryable :
  isRetryableError "Launchtube submission failed: Tx NOT_FOUND" = true /\
  isRetryableError "Request Timeout" = true /\
  isRetryableError "Error(Contract, #13)" = false.
Proof. vm_compute. auto. Qed.

(** ** C4 *)

(** C4: [submitWork] makes between one and three attempts, consecutive
    attempts separated by one sleep of 2000 ms.  Every attempt that was
    followed by another one had thrown an error whose lower-cased message
    contains one of the seven tokens; the last attempt either returned
    (success, or a simulation error reported with success = false), or
    threw on the third attempt, or threw a message containing none of the
    tokens - and in the last two cases the result is success = false with
    that message. *)
Theorem submitWork_retry_policy (relay : Z -> AttemptOutcome) :
  (forall msg,
     isRetryableError msg = true <->
     exists token,
       In token [ "not_found"; "timeout"; "econnreset"; "enotfound"; "etimedout";
                  "fetch failed"; "network error" ]%string /\
       exists pre post,
         JsString.toLowerCase msg = String.append pre (String.append token post)) /\
  exists n : nat,
    (1 <= n <= 3)%nat /\
    snd (submitWork relay) = schedule n 1 /\
    (forall k, 1 <= k < Z.of_nat n ->
       exists msg, thrownMessage (relay k) k = Some msg /\
                   isRetryableError msg = true) /\
    match tryAttempt (relay (Z.of_nat n)) (Z.of_nat n) with
    | Ok res =>
        fst (submitWork relay) = res /\
        (forall msg, relay (Z.of_nat n) = SimulationError msg -> success res = false)
    | Throw msg =>
        (n = 3%nat \/ isRetryableError msg = false) /\
        success (fst (submitWork relay)) = false /\
        error (fst (submitWork relay)) = Some msg
    end.
Proof.
  split; [exact isRetryableError_spec|].
  unfold submitWork. change (Z.to_nat maxRetries) with 3%nat.
  cbn [submitLoop]. change (1 + 1) with 2. change (2 + 1) with 3.
  change (1 =? maxRetries) with false. change (2 =? maxRetries) with false.
  change (3 =? maxRetries) with true. cbn [orb].
  assert (Hsim : forall k res msg,
             tryAttempt (relay k) k = Ok res ->
             relay k = SimulationError msg -> success res = false).
  { intros k res msg Hres Hrel. rewrite Hrel in Hres. simpl in Hres.
    injection Hres as <-. reflexivity. }
  destruct (tryAttempt (relay 1) 1) as [r1|m1] eqn:H1.
  { exists 1%nat. change (Z.of_nat 1) with 1. rewrite H1. simpl.
    repeat split; auto; try lia. intros msg. eapply Hsim; eauto. }
  destruct (isRetryableError m1) eqn:R1; cbn [negb].
  2:{ exists 1%nat. change (Z.of_nat 1) with 1. rewrite H1. simpl.
      repeat split; auto; try lia. }
  destruct (tryAttempt (relay 2) 2) as [r2|m2] eqn:H2.
  { exists 2%nat. change (Z.of_nat 2) with 2. rewrite H2. simpl.
    repeat split; auto; try lia.
    - intros k Hk. assert (k = 1) as -> by lia.
      exists m1. unfold thrownMessage. rewrite H1. auto.
    - intros msg. eapply Hsim; eauto. }
  destruct (isRetryableError m2) eqn:R2; cbn [negb].
  2:{ exists 2%nat. change (Z.of_nat 2) with 2. rewrite H2. simpl.
      repeat split; auto; try lia.
      intros k Hk. assert (k = 1) as -> by lia.
      exists m1. unfold thrownMessage. rewrite H1. auto. }
  assert (Hprev : forall k, 1 <= k < 3 ->
             exists msg, thrownMessage (relay k) k = Some msg /\
                         isRetryableError msg = true).
  { intros k Hk. assert (k = 1 \/ k = 2) as [-> | ->] by lia.
    - exists m1. unfold thrownMessage. rewrite H1. auto.
    - exists m2. unfold thrownMessage. rewrite H2. auto. }
  destruct (tryAttempt (relay 3) 3) as [r3|m3] eqn:H3.
  { exists 3%nat. change (Z.of_nat 3) with 3. rewrite H3. simpl.
    repeat split; auto; try lia. intros msg. eapply Hsim; eauto. }
  exists 3%nat. change (Z.of_nat 3) with 3. rewrite H3. simpl.
  repeat split; auto; try lia.
Qed.

End RelayFacts.

(** * Properties of the Work Manager and the Coordinator *)

Section WorkFacts.

Import WorkManager.

(** S4 evaluated: one farmer, mined and submitted at the first attempt. *)
Example single_farmer_success :
  List.map (fun r => (status r, nonce r, zeros r, attempts r, compensationRequired r))
    (workResults
       (fst (executeWorkBatch Scenario.minerSucceeds initialWorld 201 "abab"
               [Scenario.farmerF1]))) =
  [(success, Some (Num 12345), Some 6, 1, false)].
Proof. vm_compute. reflexivity. Qed.

(** ** C2 *)

(** C2 at the failing input: one farmer whose first miner run times out
    while every later run would print a nonce.  The batch ends with the
    farmer failed and compensation required after a single miner run at
    the default nonce count: the recovery loop is never entered, because
    its guard asks for a failed result without compensationRequired and
    the failed result carries compensationRequired = true.  Run directly
    in the state the failed attempt leaves, attemptRecovery does recover
    at its first attempt, with nonce count 11,000,000. *)
Theorem timed_out_miner_gets_no_recovery :
  let run := executeWorkBatch Scenario.minerTimesOutOnce initialWorld 201 "abab"
               [Scenario.farmerF1] in
  let first := executeWorkForFarmer Scenario.minerTimesOutOnce initialWorld 201 "abab"
                 Scenario.farmerF1 in
  let retry := attemptRecovery Scenario.minerTimesOutOnce (snd first) 201 "abab"
                 Scenario.farmerF1 in
  List.map (fun r => (status r, attempts r, compensationRequired r))
    (workResults (fst run)) = [(failed, 1, true)] /\
  List.map nonceCount (spawns (snd run)) = [NONCE_COUNT] /\
  option_map (fun r => (status r, attempts r, compensationRequired r)) (fst retry)
    = Some (recovered, 2, false) /\
  List.map nonceCount (spawns (snd retry)) = [NONCE_COUNT; NONCE_COUNT + 1000000].
Proof. vm_compute. repeat split; reflexivity. Qed.

(** ** Per-farmer results *)

Ltac crush_result :=
  solve [ unfold compensationCorrect, resultKey, requestKey; cbn;
          repeat split; intros; try reflexivity; try discriminate; try congruence ].

Lemma executeWorkForFarmer_result
    (env : Env) (w : World) (idx : JsNumber) (ent : string) (req : WorkRequest) :
  let r := fst (executeWorkForFarmer env w idx ent req) in
  compensationCorrect r /\
  resultKey r = requestKey req /\
  status r <> recovered.
Proof.
  unfold executeWorkForFarmer, dateNow, spawn, callSubmitWork, cleanUp, setWorkState,
    readWorkStream, minedResult.
  cbn.
  destruct (keypairFromSecret env (custodialSecretKey req)) as [hex|e]; [|crush_result].
  destruct idx as [i|]; [|crush_result].
  destruct (miner env (length (spawns w))) as [e| | | |n h]; try crush_result.
  cbn. destruct n as [n|]; cbn; [|crush_result].
  destruct (WorkSubmissionService.success _); crush_result.
Qed.

Lemma executeWorkWithParams_result
    (env : Env) (w : World) (idx : JsNumber) (ent : string) (req : WorkRequest) (nc an : Z) :
  match fst (executeWorkWithParams env w idx ent req nc an) with
  | Ok r =>
      compensationCorrect r /\
      resultKey r = requestKey req /\
      status r <> recovered /\
      attempts r = an
  | Throw _ => True
  end.
Proof.
  unfold executeWorkWithParams, dateNow, spawn, callSubmitWork, readWorkStream, minedResult.
  cbn.
  destruct (keypairFromSecret env (custodialSecretKey req)) as [hex|e]; [|exact I].
  destruct (miner env (length (spawns w))) as [e| | | |n h]; try exact I.
  cbn. destruct n as [n|]; cbn; [|crush_result].
  destruct (WorkSubmissionService.success _); crush_result.
Qed.

Lemma recoveryLoop_result (fuel : nat) :
  forall (attempt : Z) (env : Env) (w : World) (idx : JsNumber) (ent : string)
         (req : WorkRequest),
    match fst (recoveryLoop fuel attempt env w idx ent req) with
    | Some r =>
        compensationCorrect r /\
        resultKey r = requestKey req /\
        status r = recovered /\
        attempt + 1 <= attempts r <= attempt + Z.of_nat fuel
    | None => True
    end.
Proof.
  induction fuel as [|fuel IH]; intros attempt env w idx ent req; [exact I|].
  cbn [recoveryLoop].
  pose proof (executeWorkWithParams_result env w idx ent req
                (NONCE_COUNT + attempt * 1000000) (attempt + 1)) as Hstep.
  destruct (executeWorkWithParams env w idx ent req
              (NONCE_COUNT + attempt * 1000000) (attempt + 1)) as [[r|e] w1];
    cbn [fst] in Hstep.
  - destruct (Status_eqb (status r) success) eqn:Hst.
    + cbn [fst]. destruct Hstep as (Hc & Hk & _ & Ha).
      assert (Hs : status r = success) by (destruct (status r); auto; discriminate).
      unfold compensationCorrect, resultKey in *. cbn.
      split; [split; [intros Hcomp; apply Hc in Hcomp; congruence | discriminate]|].
      split; [exact Hk|]. split; [reflexivity|lia].
    + specialize (IH (attempt + 1) env w1 idx ent req).
      destruct (fst (recoveryLoop fuel (attempt + 1) env w1 idx ent req)); auto.
      destruct IH as (? & ? & ? & ?).
      split; [assumption|]. split; [assumption|]. split; [assumption|lia].
  - specialize (IH (attempt + 1) env w1 idx ent req).
    destruct (fst (recoveryLoop fuel (attempt + 1) env w1 idx ent req)); auto.
    destruct IH as (? & ? & ? & ?).
      split; [assumption|]. split; [assumption|]. split; [assumption|lia].
Qed.

Lemma attemptRecovery_result
    (env : Env) (w : World) (idx : JsNumber) (ent : string) (req : WorkRequest) :
  match fst (attemptRecovery env w idx ent req) with
  | Some r =>
      compensationCorrect r /\
      resultKey r = requestKey req /\
      status r = recovered /\
      2 <= attempts r <= 4
  | None => True
  end.
Proof.
  exact (recoveryLoop_result (Z.to_nat MAX_RECOVERY_ATTEMPTS) 1 env w idx ent req).
Qed.

(** The guard of the recovery branch of executeWorkBatch never holds for a
    result of executeWorkForFarmer. *)
Lemma recovery_guard_never_holds
    (env : Env) (w : World) (idx : JsNumber) (ent : string) (req : WorkRequest) :
  let r := fst (executeWorkForFarmer env w idx ent req) in
  Status_eqb (status r) failed && negb (compensationRequired r) = false.
Proof.
  destruct (executeWorkForFarmer_result env w idx ent req) as (Hc & _ & _).
  cbn zeta in *. unfold compensationCorrect in Hc.
  destruct (status (fst (executeWorkForFarmer env w idx ent req)));
    destruct (compensationRequired (fst (executeWorkForFarmer env w idx ent req)));
    try reflexivity.
  exfalso. assert (false = true) by (apply Hc; reflexivity). discriminate.
Qed.

(** ** The batch loop *)

Lemma batchLoop_results (reqs : list WorkRequest) :
  forall (env : Env) (w : World) (idx : JsNumber) (ent : string) (acc : list WorkResult),
    Forall compensationCorrect acc ->
    Forall compensationCorrect (fst (batchLoop env w idx ent reqs acc)) /\
    List.map resultKey (fst (batchLoop env w idx ent reqs acc)) =
      List.map resultKey acc ++ List.map requestKey reqs.
Proof.
  induction reqs as [|req rest IH]; intros env w idx ent acc Hacc.
  - cbn. split; [exact Hacc | now rewrite app_nil_r].
  - cbn [batchLoop].
    pose proof (executeWorkForFarmer_result env w idx ent req) as (Hc & Hk & _).
    pose proof (recovery_guard_never_holds env w idx ent req) as Hg.
    cbn zeta in *.
    destruct (executeWorkForFarmer env w idx ent req) as [r w1]. cbn [fst] in *.
    rewrite Hg.
    destruct (IH env w1 idx ent (acc ++ [r])) as [IH1 IH2].
    { apply Forall_app. split; [exact Hacc | constructor; [exact Hc | constructor]]. }
    split; [exact IH1|].
    rewrite IH2, List.map_app. cbn [List.map]. rewrite Hk, <- app_assoc. reflexivity.
Qed.

(** No batch ever reports a recovered farmer, and every miner a batch
    starts runs at the default nonce count. *)
Lemma batchLoop_never_recovers (reqs : list WorkRequest) :
  forall (env : Env) (w : World) (idx : JsNumber) (ent : string) (acc : list WorkResult),
    Forall (fun r => status r <> recovered) acc ->
    Forall (fun a => nonceCount a = NONCE_COUNT) (spawns w) ->
    Forall (fun r => status r <> recovered) (fst (batchLoop env w idx ent reqs acc)) /\
    Forall (fun a => nonceCount a = NONCE_COUNT)
           (spawns (snd (batchLoop env w idx ent reqs acc))).
Proof.
  induction reqs as [|req rest IH]; intros env w idx ent acc Hacc Hsp.
  - cbn. split; assumption.
  - cbn [batchLoop].
    pose proof (executeWorkForFarmer_result env w idx ent req) as (_ & _ & Hn).
    pose proof (recovery_guard_never_holds env w idx ent req) as Hg.
    assert (Hs : Forall (fun a => nonceCount a = NONCE_COUNT)
                   (spawns (snd (executeWorkForFarmer env w idx ent req)))).
    { unfold executeWorkForFarmer, dateNow, spawn, callSubmitWork, cleanUp,
        setWorkState, readWorkStream.
      cbn.
      destruct (keypairFromSecret env (custodialSecretKey req)) as [hex|e];
        [|exact Hsp].
      destruct idx as [i|]; [|exact Hsp].
      assert (Hsp' : Forall (fun a => nonceCount a = NONCE_COUNT)
                       (spawns w ++ [{| farmerHex := hex; a_index := Num i;
                                        entropyHex := ent;
                                        nonceCount := NONCE_COUNT |}]))
        by (apply Forall_app; split; [exact Hsp | constructor; [reflexivity|constructor]]).
      destruct (miner env (length (spawns w))) as [e| | | |n h]; cbn; try exact Hsp'.
      destruct n as [n|]; cbn; [|exact Hsp'].
      destruct (WorkSubmissionService.success _); exact Hsp'. }
    cbn zeta in *.
    destruct (executeWorkForFarmer env w idx ent req) as [r w1]. cbn [fst snd] in *.
    rewrite Hg.
    apply IH; [|exact Hs].
    apply Forall_app. split; [exact Hacc | constructor; [exact Hn | constructor]].
Qed.

(** Writing a recovery result over the entry just pushed touches that
    entry alone. *)
Lemma recovery_overwrites_last (acc : list WorkResult) (r r' : WorkResult) :
  <[ (length (acc ++ [r]) - 1)%nat := r' ]> (acc ++ [r]) = acc ++ [r'].
Proof.
  rewrite length_app. cbn [length].
  replace (length acc + 1 - 1)%nat with (length acc + 0)%nat by lia.
  rewrite insert_app_r. reflexivity.
Qed.

Lemma executeWorkBatch_results
    (env : Env) (w : World) (idx : JsNumber) (ent : string) (reqs : list WorkRequest) :
  Forall compensationCorrect (workResults (fst (executeWorkBatch env w idx ent reqs))) /\
  List.map resultKey (workResults (fst (executeWorkBatch env w idx ent reqs))) =
    List.map requestKey reqs.
Proof.
  unfold executeWorkBatch, dateNow. cbn.
  lazymatch goal with
  | |- context [batchLoop ?e ?w0 ?i ?n ?q []] =>
      pose proof (batchLoop_results q e w0 i n [] (List.Forall_nil _)) as [H1 H2];
      destruct (batchLoop e w0 i n q []) as [rs w1]
  end.
  cbn in *. split; assumption.
Qed.

Lemma scheduleWork_batch
    (env : Env) (w : World) (ts : Timestamp) (idx : JsNumber) (ent : string)
    (reqs : list WorkRequest) :
  exists w0,
    batch (fst (scheduleWork env w ts idx ent reqs)) =
    fst (executeWorkBatch env w0 idx ent reqs).
Proof.
  unfold scheduleWork, dateNow. cbn -[executeWorkBatch].
  lazymatch goal with
  | |- context [batch (fst (let '(_, _) := executeWorkBatch ?e ?w0 ?i ?n ?q in _))] =>
      exists w0; destruct (executeWorkBatch e w0 i n q)
  end.
  reflexivity.
Qed.



Lemma failed_results_compensated
    (message : string) (farmers : list PoolCoordinator.PlantedFarmer) :
  Forall compensationCorrect (List.map (PoolCoordinator.failedResult message) farmers).
Proof.
  induction farmers as [|f rest IH]; cbn [List.map]; constructor; [|exact IH].
  unfold compensationCorrect. cbn. split; reflexivity.
Qed.

Lemma report_of_accepted_notification
    (env : Env) (w : World) (c : PoolCoordinator.Coordinator)
    (notification : PoolCoordinator.PlantingNotification) :
  PoolCoordinator.plantedFarmers notification <> [] ->
  exists c' w' w0,
    PoolCoordinator.receivePlantingNotification env w c notification =
    (c', w',
     Some (PoolCoordinator.handleWorkCompletion
             (PoolCoordinator.blockIndex notification)
             (fst (executeWorkBatch env w0
                     (PoolCoordinator.blockIndex notification)
                     (PoolCoordinator.entropy notification)
                     (List.map (PoolCoordinator.toWorkRequest
                                  (PoolCoordinator.blockIndex notification)
                                  (PoolCoordinator.entropy notification))
                               (PoolCoordinator.plantedFarmers notification)))))).
Proof.
  intros Hne.
  unfold PoolCoordinator.receivePlantingNotification, PoolCoordinator.accept.
  destruct (PoolCoordinator.plantedFarmers notification) as [|f rest] eqn:Hf;
    [congruence|].
  cbn [length Nat.eqb].
  match goal with
  | |- context [scheduleWork ?e ?w0 ?t ?i ?n ?q] =>
      destruct (scheduleWork_batch e w0 t i n q) as [w1 Hb];
      destruct (scheduleWork e w0 t i n q) as [sch w2]
  end.
  cbn [fst] in Hb. unfold PoolCoordinator.onResolved. rewrite Hb.
  eexists; eexists; exists w1. reflexivity.
Qed.

(** ** C5 *)

(** C5: every WorkResult the Pooler builds - by a normal attempt, by a
    recovery attempt (a result of executeWorkWithParams, or the recovered
    result attemptRecovery returns), in a batch, by the whole-batch error
    path, or in the completion report of a notification - has
    compensationRequired = true exactly when its status is failed. *)
Theorem compensation_required_iff_failed
    (env : Env) (w : World) (blockIndex : JsNumber) (idx : Z) (ent : string)
    (req : WorkRequest) (reqs : list WorkRequest) (nc an : Z)
    (c : PoolCoordinator.Coordinator) (message : string) (stamp : Z)
    (notification : PoolCoordinator.PlantingNotification) :
  compensationCorrect (fst (executeWorkForFarmer env w blockIndex ent req)) /\
  match fst (executeWorkWithParams env w blockIndex ent req nc an) with
  | Ok r => compensationCorrect r
  | Throw _ => True
  end /\
  match fst (attemptRecovery env w blockIndex ent req) with
  | Some r => compensationCorrect r /\ compensationRequired r = false
  | None => True
  end /\
  Forall compensationCorrect
    (workResults (fst (executeWorkBatch env w blockIndex ent reqs))) /\
  match PoolCoordinator.handleWorkError env c idx message stamp with
  | Some report => Forall compensationCorrect (PoolCoordinator.workResults report)
  | None => True
  end /\
  match PoolCoordinator.receivePlantingNotification env w c notification with
  | (_, _, Some report) => Forall compensationCorrect (PoolCoordinator.workResults report)
  | (_, _, None) => True
  end.
Proof.
  split; [apply executeWorkForFarmer_result|].
  split.
  { pose proof (executeWorkWithParams_result env w blockIndex ent req nc an) as H.
    destruct (fst (executeWorkWithParams env w blockIndex ent req nc an));
      [apply H | exact I]. }
  split.
  { pose proof (attemptRecovery_result env w blockIndex ent req) as H.
    destruct (fst (attemptRecovery env w blockIndex ent req)) as [r|]; [|exact I].
    destruct H as (Hc & _ & Hs & _). split; [exact Hc|].
    unfold compensationCorrect in Hc.
    destruct (compensationRequired r); [|reflexivity].
    assert (status r = failed) by (apply Hc; reflexivity). congruence. }
  split; [apply executeWorkBatch_results|].
  split.
  { unfold PoolCoordinator.handleWorkError.
    destruct (PoolCoordinator.pendingWorkBlocks c !! idx); [|exact I].
    cbn. apply failed_results_compensated. }
  destruct (PoolCoordinator.plantedFarmers notification) as [|f rest] eqn:Hf.
  - unfold PoolCoordinator.receivePlantingNotification, PoolCoordinator.accept.
    rewrite Hf. cbn. exact I.
  - destruct (report_of_accepted_notification env w c notification)
      as (c' & w' & w0 & Heq); [congruence|].
    rewrite Heq. cbn. apply executeWorkBatch_results.
Qed.

(** ** C8 *)





(** ** C10 *)

Example millisecond_timestamp_is_not_scaled :
  blockTimestampToMs (TsNumber 1700000000000) = 1700000000000 /\
  blockTimestampToMs (TsNumber 1700000000) = 1700000000000 /\
  targetTimeMs (fst (scheduleWork Scenario.minerSucceeds initialWorld
                       (TsNumber 1700000000000) 201 "abab" [Scenario.farmerF1]))
    = 1700000150000.
Proof. vm_compute. repeat split; reflexivity. Qed.

(** C10: for a numeric blockTimestamp, scheduleWork aims at
    blockTimestampToMs(blockTimestamp) + 150,000 ms and waits
    max(0, target - now), where now is the clock read on entry; the
    timestamp is multiplied by 1000 when it is at most 10,000,000,000 and
    taken as it is when greater, so that a millisecond timestamp gives the
    target timestamp + 150,000. *)
Theorem scheduleWork_target_and_wait
    (env : Env) (w : World) (n idx : Z) (ent : string) (reqs : list WorkRequest) :
  let s := fst (scheduleWork env w (TsNumber n) idx ent reqs) in
  targetTimeMs s = blockTimestampToMs (TsNumber n) + 150000 /\
  waitTimeMs s = Z.max 0 (targetTimeMs s - clock env (ticks w)) /\
  (n <= 10000000000 -> blockTimestampToMs (TsNumber n) = n * 1000) /\
  (10000000000 < n ->
     blockTimestampToMs (TsNumber n) = n /\ targetTimeMs s = n + 150000).
Proof.
  unfold scheduleWork, dateNow. cbn -[executeWorkBatch].
  lazymatch goal with
  | |- context [executeWorkBatch ?e ?w0 ?i ?m ?q] =>
      destruct (executeWorkBatch e w0 i m q)
  end.
  cbn. unfold WORK_DELAY_SECONDS.
  destruct (Z.gtb_spec n 10000000000); repeat split; intros; try reflexivity; lia.
Qed.

End WorkFacts.

(** * Further properties of the Block Monitor *)

Section BlockMonitorMore.

Import BlockMonitor.

Lemma chainReads_getContractData (env : PollEnv) :
  chainReads (snd (getContractData env)) = snd (getContractData env).
Proof.
  unfold getContractData.
  destruct (rpcIndex env); [destruct (i >? 0); [destruct (rpcBlock env)|]|]; reflexivity.
Qed.

Lemma chainReads_app (a b : list Event) :
  chainReads (a ++ b) = chainReads a ++ chainReads b.
Proof. unfold chainReads. apply List.filter_app. Qed.

(** What one poll of a live monitor does to the fields no claim follows. *)
Lemma poll_effect (m : Monitor) (env : PollEnv) :
  isShuttingDown m = false ->
  maxErrorCount (fst (checkForNewBlocks m env)) = maxErrorCount m /\
  startTime (fst (checkForNewBlocks m env)) = startTime m /\
  totalBlocksDiscovered (fst (checkForNewBlocks m env)) =
    totalBlocksDiscovered m + Z.of_nat (length (posts (snd (checkForNewBlocks m env)))) /\
  chainReads (snd (checkForNewBlocks m env)) = snd (getContractData env) /\
  lastNotificationSent (fst (checkForNewBlocks m env)) =
    match posts (snd (checkForNewBlocks m env)), http env with
    | _ :: _, PostOk => Some (ackTime env)
    | _, _ => lastNotificationSent m
    end /\
  (pollThrows m env = false ->
     isMonitoring (fst (checkForNewBlocks m env)) = isMonitoring m /\
     monitoringInterval (fst (checkForNewBlocks m env)) = monitoringInterval m /\
     errorCount (fst (checkForNewBlocks m env)) = Z.min (errorCount m) 0).
Proof.
  intros Hlive.
  pose proof (posts_getContractData env) as Hposts.
  pose proof (chainReads_getContractData env) as Hreads.
  unfold checkForNewBlocks, pollThrows. rewrite Hlive. unfold pollBody.
  destruct (getContractData env) as [cd tr1]. cbn [fst snd] in *.
  assert (Hmin : forall x : Monitor,
             errorCount (if errorCount x >? 0 then setErrorCount x 0 else x)
             = Z.min (errorCount x) 0).
  { intros x. destruct (Z.gtb_spec (errorCount x) 0); simpl; lia. }
  destruct (index cd >? currentBlockIndex m).
  - unfold handleNewBlockDiscovered.
    destruct (calculateTimingPredictions (timingSeconds env (block cd)) 30 150 30)
      as [p|e].
    + unfold notifyBackend.
      destruct (http env); cbn [fst snd];
        rewrite posts_app, chainReads_app, Hposts, Hreads; cbn;
        rewrite ?app_nil_r;
        repeat split; intros;
        first [ reflexivity
              | destruct (Z.gtb_spec (errorCount m) 0); simpl; first [reflexivity | lia] ].
    + cbn [fst snd]. rewrite app_nil_r, Hposts, Hreads.
      unfold handleMonitoringError, stopMonitoring. cbn.
      destruct (errorCount m + 1 >=? maxErrorCount m); cbn;
        [destruct (isMonitoring m); cbn|];
        repeat split; intros;
        first [ reflexivity | discriminate | lia | destruct tr1; reflexivity ].
  - destruct (index cd <? currentBlockIndex m); cbn [fst snd];
      rewrite Hposts, Hreads; cbn;
      repeat split; intros;
      first [ reflexivity
            | destruct (Z.gtb_spec (errorCount m) 0); simpl; first [reflexivity | lia]
            | destruct tr1; destruct (errorCount m >? 0); reflexivity ].
Qed.

(** ** Start and restart *)

(** X1: a monitor that has been stopped (by stopMonitoring or by the error
    ceiling) can be started again - the cursor is re-seeded from the chain
    and isMonitoring is set - but isShuttingDown is never cleared, so every
    later poll returns without a chain read; and when the stop came from the
    error ceiling the status reported from then on is 'degraded', the health
    code 503. *)
Theorem restart_after_stop_never_polls
    (m : Monitor) (env : PollEnv) (later : list PollEnv) (nowMs : Z) :
  isShuttingDown m = true ->
  isMonitoring m = false ->
  isMonitoring (fst (startMonitoring m env)) = true /\
  currentBlockIndex (fst (startMonitoring m env)) = snapshotIndex env /\
  runPolls (fst (startMonitoring m env)) later = (fst (startMonitoring m env), []) /\
  (maxErrorCount m <= errorCount m ->
     hs_status (getStatus (fst (startMonitoring m env)) nowMs) = degraded /\
     PoolerService.healthCode (fst (startMonitoring m env)) nowMs = 503).
Proof.
  intros Hs Hm. unfold startMonitoring. rewrite Hm. unfold snapshotIndex.
  destruct (getContractData env) as [cd tr]. cbn [fst snd].
  split; [reflexivity|]. split; [reflexivity|].
  split; [apply runPolls_halted; exact Hs|].
  intros Hmax. unfold PoolerService.healthCode, getStatus. cbn.
  destruct (Z.ltb_spec (errorCount m) (maxErrorCount m)); [lia|]. split; reflexivity.
Qed.

Lemma restart_after_stop_never_polls_witness :
  let halted := fst (runPolls (Scenario.monitorAt 100)
                       (repeat (Scenario.beyondDates 101) 10)) in
  isShuttingDown halted = true /\
  runPolls (fst (startMonitoring halted (Scenario.happy 101 PostOk)))
    [Scenario.happy 102 PostOk] =
  (fst (startMonitoring halted (Scenario.happy 101 PostOk)), []).
Proof.
  assert (H1 : isShuttingDown
                 (fst (runPolls (Scenario.monitorAt 100)
                         (repeat (Scenario.beyondDates 101) 10))) = true)
    by (vm_compute; reflexivity).
  assert (H2 : isMonitoring
                 (fst (runPolls (Scenario.monitorAt 100)
                         (repeat (Scenario.beyondDates 101) 10))) = false)
    by (vm_compute; reflexivity).
  split; [exact H1|].
  exact (proj1 (proj2 (proj2
           (restart_after_stop_never_polls _ (Scenario.happy 101 PostOk)
              [Scenario.happy 102 PostOk] 0 H1 H2)))).
Defined.

(** X2: startMonitoring does nothing when the monitor is already running;
    otherwise it makes the chain reads of one snapshot, sends no
    notification and seeds the cursor with the index read.  Over any later
    sequence of polls in which the chain reader never reports an index
    below the cursor, every notification carries an index strictly above
    the index found at start: that index itself is not announced. *)
Theorem start_seeds_cursor_silently (m : Monitor) (env : PollEnv) (later : list PollEnv) :
  (isMonitoring m = true -> startMonitoring m env = (m, [])) /\
  (isMonitoring m = false ->
     snd (startMonitoring m env) = snd (getContractData env) /\
     posts (snd (startMonitoring m env)) = [] /\
     currentBlockIndex (fst (startMonitoring m env)) = snapshotIndex env /\
     isMonitoring (fst (startMonitoring m env)) = true /\
     errorCount (fst (startMonitoring m env)) = errorCount m /\
     (noRegression (fst (startMonitoring m env)) later ->
        Forall (fun i => snapshotIndex env < i)
               (postedIndexes (snd (runPolls (fst (startMonitoring m env)) later))))).
Proof.
  split; intros Hm.
  - unfold startMonitoring. rewrite Hm. reflexivity.
  - assert (Hc : currentBlockIndex (fst (startMonitoring m env)) = snapshotIndex env).
    { unfold startMonitoring, snapshotIndex. rewrite Hm.
      destruct (getContractData env) as [cd tr]. reflexivity. }
    split; [|split; [|split; [exact Hc|split; [|split]]]].
    + unfold startMonitoring. rewrite Hm.
      destruct (getContractData env) as [cd tr]. reflexivity.
    + pose proof (posts_getContractData env) as Hp.
      unfold startMonitoring. rewrite Hm.
      destruct (getContractData env) as [cd tr]. exact Hp.
    + unfold startMonitoring. rewrite Hm.
      destruct (getContractData env) as [cd tr]. reflexivity.
    + unfold startMonitoring. rewrite Hm.
      destruct (getContractData env) as [cd tr]. reflexivity.
    + intros Hnr.
      destruct (posted_above_cursor_and_sorted later _ Hnr) as [Ha _].
      rewrite Hc in Ha. exact Ha.
Qed.

(** With a regression in between the index found at start is announced
    after all: start reads 101, a farm-index read fails (the poll sees
    index 0), and the next poll reading 101 notifies it. *)
Example start_index_announced_after_failed_read :
  let started := fst (startMonitoring (newMonitor 1700000000000 10)
                        (Scenario.happy 101 PostOk)) in
  currentBlockIndex started = 101 /\
  postedIndexes
    (snd (runPolls started [Scenario.pollRpcDown; Scenario.happy 101 PostOk])) = [101].
Proof. vm_compute. split; reflexivity. Qed.

(** ** Health *)

Lemma poll_keeps_health_invariant (m : Monitor) (env : PollEnv) :
  1 <= maxErrorCount m ->
  (isMonitoring m = true -> errorCount m < maxErrorCount m) ->
  maxErrorCount (fst (checkForNewBlocks m env)) = maxErrorCount m /\
  (isMonitoring (fst (checkForNewBlocks m env)) = true ->
   errorCount (fst (checkForNewBlocks m env)) < maxErrorCount m).
Proof.
  intros Hmax Hinv.
  destruct (isShuttingDown m) eqn:Hs.
  { rewrite poll_halted by exact Hs. cbn. split; [reflexivity | exact Hinv]. }
  destruct (poll_effect m env Hs) as (E1 & _ & _ & _ & _ & E6).
  split; [exact E1|].
  destruct (pollThrows m env) eqn:Ht.
  - rewrite (failing_poll_state m env Hs Ht).
    destruct (handleMonitoringError_fields m) as (F1 & _ & _ & F4 & F5).
    cbn zeta in *. intros Hmon.
    destruct (Z.lt_ge_cases (errorCount m + 1) (maxErrorCount m)) as [Hlt|Hge].
    + lia.
    + destruct (isMonitoring m) eqn:Hm.
      * destruct (F5 Hge eq_refl) as (_ & G & _). congruence.
      * unfold handleMonitoringError, stopMonitoring in Hmon. cbn in Hmon.
        destruct (errorCount m + 1 >=? maxErrorCount m); cbn in Hmon;
          rewrite ?Hm in Hmon; cbn in Hmon; congruence.
  - destruct (E6 eq_refl) as (G1 & _ & G3). rewrite G3. intros _. lia.
Qed.

(** X3: as long as the monitor is only polled, its reported status is never
    'degraded': starting from a state where a running monitor has fewer
    errors than the ceiling (at least 1), after any sequence of polls the
    status is 'healthy' when it is monitoring and 'unhealthy' when it is not,
    and GET /health answers 200 exactly when it is monitoring. *)
Theorem polling_never_reports_degraded
    (m : Monitor) (envs : list PollEnv) (nowMs : Z) :
  1 <= maxErrorCount m ->
  (isMonitoring m = true -> errorCount m < maxErrorCount m) ->
  hs_status (getStatus (fst (runPolls m envs)) nowMs) =
    (if isMonitoring (fst (runPolls m envs)) then healthy else unhealthy) /\
  (PoolerService.healthCode (fst (runPolls m envs)) nowMs = 200 <->
   isMonitoring (fst (runPolls m envs)) = true).
Proof.
  intros Hmax Hinv.
  assert (H : maxErrorCount (fst (runPolls m envs)) = maxErrorCount m /\
              (isMonitoring (fst (runPolls m envs)) = true ->
               errorCount (fst (runPolls m envs)) < maxErrorCount m)).
  { revert m Hmax Hinv. induction envs as [|env rest IH]; intros m Hmax Hinv.
    - cbn. split; [reflexivity | exact Hinv].
    - rewrite runPolls_cons. cbn [fst].
      destruct (poll_keeps_health_invariant m env Hmax Hinv) as [P1 P2].
      destruct (IH (fst (checkForNewBlocks m env))) as [Q1 Q2];
        [rewrite P1; exact Hmax | rewrite P1; exact P2|].
      rewrite P1 in Q1, Q2. split; assumption. }
  destruct H as [H1 H2].
  unfold PoolerService.healthCode, getStatus. cbn.
  destruct (isMonitoring (fst (runPolls m envs))) eqn:Hm.
  - specialize (H2 eq_refl). rewrite H1.
    destruct (Z.ltb_spec (errorCount (fst (runPolls m envs))) (maxErrorCount m)); [|lia].
    split; [reflexivity | split; reflexivity].
  - split; [reflexivity | split; discriminate].
Qed.

Lemma polling_never_reports_degraded_witness :
  hs_status
    (getStatus
       (fst (runPolls (Scenario.monitorAt 100)
               (repeat (Scenario.beyondDates 101) 10))) 1700000050000) = unhealthy /\
  hs_status
    (getStatus
       (fst (runPolls (Scenario.monitorAt 100)
               (repeat (Scenario.beyondDates 101) 9))) 1700000050000) = healthy.
Proof.
  assert (H1 : 1 <= maxErrorCount (Scenario.monitorAt 100)) by (cbn; lia).
  assert (H2 : isMonitoring (Scenario.monitorAt 100) = true ->
               errorCount (Scenario.monitorAt 100) <
               maxErrorCount (Scenario.monitorAt 100)) by (cbn; lia).
  split.
  - exact (proj1 (polling_never_reports_degraded (Scenario.monitorAt 100)
                    (repeat (Scenario.beyondDates 101) 10) 1700000050000 H1 H2)).
  - exact (proj1 (polling_never_reports_degraded (Scenario.monitorAt 100)
                    (repeat (Scenario.beyondDates 101) 9) 1700000050000 H1 H2)).
Defined.

(** ** Counters *)

(** X4: over any sequence of polls, totalBlocksDiscovered grows by exactly
    the number of block-discovered POSTs the monitor issued (acknowledged or
    not); reorg regressions, quiet polls and failing polls leave it alone. *)
Theorem discovered_counter_counts_notifications (m : Monitor) (envs : list PollEnv) :
  totalBlocksDiscovered (fst (runPolls m envs)) =
  totalBlocksDiscovered m + Z.of_nat (length (posts (snd (runPolls m envs)))).
Proof.
  revert m. induction envs as [|env rest IH]; intros m.
  - cbn. lia.
  - destruct (isShuttingDown m) eqn:Hs.
    { rewrite runPolls_halted by exact Hs. cbn. lia. }
    rewrite runPolls_cons. cbn [fst snd].
    rewrite IH, posts_app, length_app.
    destruct (poll_effect m env Hs) as (_ & _ & E3 & _). rewrite E3. lia.
Qed.

(** X5: after every poll of a live monitor that does not throw, the cursor
    equals the index the chain reader reported for that poll - higher
    (discovery), lower (reorg regression; 0 when the farm-index read
    failed) or equal - and the error count is back at zero. *)
Theorem successful_poll_tracks_chain_index (m : Monitor) (env : PollEnv) :
  isShuttingDown m = false ->
  pollThrows m env = false ->
  0 <= errorCount m ->
  currentBlockIndex (fst (checkForNewBlocks m env)) = snapshotIndex env /\
  errorCount (fst (checkForNewBlocks m env)) = 0 /\
  (snapshotIndex env <= currentBlockIndex m ->
     posts (snd (checkForNewBlocks m env)) = [] /\
     totalBlocksDiscovered (fst (checkForNewBlocks m env)) = totalBlocksDiscovered m).
Proof.
  intros Hs Ht H0.
  destruct (poll_effect m env Hs) as (_ & _ & E3 & _ & _ & E6).
  destruct (E6 Ht) as (_ & _ & G3).
  split; [|split].
  - destruct (poll_cases m env Hs); congruence.
  - rewrite G3. lia.
  - intros Hle. pose proof (quiet_when_cursor_matches m env Hle) as Hq.
    split; [exact Hq|]. rewrite E3, Hq. cbn. lia.
Qed.

Lemma successful_poll_tracks_chain_index_witness :
  currentBlockIndex
    (fst (checkForNewBlocks (Scenario.monitorAt 200) (Scenario.happy 199 PostOk))) = 199 /\
  posts (snd (checkForNewBlocks (Scenario.monitorAt 200) (Scenario.happy 199 PostOk))) = [].
Proof.
  assert (Ht : pollThrows (Scenario.monitorAt 200) (Scenario.happy 199 PostOk) = false)
    by (vm_compute; reflexivity).
  assert (H0 : 0 <= errorCount (Scenario.monitorAt 200)) by (cbn; lia).
  pose proof (successful_poll_tracks_chain_index (Scenario.monitorAt 200)
                (Scenario.happy 199 PostOk) eq_refl Ht H0) as (Hc & _ & Hq).
  split; [exact Hc|].
  apply Hq. vm_compute. discriminate.
Defined.

(** X6: a poll makes one farm-index read, followed by one block read - for
    the index just read - exactly when that index is positive; a failed
    farm-index read is followed by no block read, and a monitor that is
    shutting down reads nothing. *)
Theorem poll_chain_reads (m : Monitor) (env : PollEnv) :
  chainReads (snd (checkForNewBlocks m env)) =
  if isShuttingDown m then []
  else match rpcIndex env with
       | IndexOk i => if i >? 0 then [EvGetIndex; EvGetBlock i] else [EvGetIndex]
       | IndexFail _ => [EvGetIndex]
       end.
Proof.
  destruct (isShuttingDown m) eqn:Hs.
  - rewrite poll_halted by exact Hs. reflexivity.
  - destruct (poll_effect m env Hs) as (_ & _ & _ & E4 & _). rewrite E4.
    unfold getContractData.
    destruct (rpcIndex env); [destruct (i >? 0); [destruct (rpcBlock env)|]|]; reflexivity.
Qed.

(** X7: the time of the last notification is written only when a
    block-discovered POST was sent in the poll and the Backend answered 2xx;
    after a non-2xx answer, a network error, or a poll without discovery it
    keeps its value. *)
Theorem last_notification_needs_acknowledgement (m : Monitor) (env : PollEnv) :
  lastNotificationSent (fst (checkForNewBlocks m env)) =
  match posts (snd (checkForNewBlocks m env)), http env with
  | _ :: _, PostOk => Some (ackTime env)
  | _, _ => lastNotificationSent m
  end.
Proof.
  destruct (isShuttingDown m) eqn:Hs.
  - rewrite poll_halted by exact Hs. reflexivity.
  - destruct (poll_effect m env Hs) as (_ & _ & _ & _ & E5 & _). exact E5.
Qed.

(** ** Cursor *)

(** X25: the cursor only moves to indexes the chain reader reported, and
    over a sequence of polls in which no reported index is below the cursor
    it never decreases. *)
Theorem cursor_never_decreases_without_regression (m : Monitor) (envs : list PollEnv) :
  noRegression m envs ->
  currentBlockIndex m <= currentBlockIndex (fst (runPolls m envs)) /\
  (currentBlockIndex (fst (runPolls m envs)) = currentBlockIndex m \/
   In (currentBlockIndex (fst (runPolls m envs))) (List.map snapshotIndex envs)).
Proof.
  revert m. induction envs as [|env rest IH]; intros m Hnr.
  - cbn. split; [lia | left; reflexivity].
  - destruct Hnr as [Hle Hrest].
    rewrite runPolls_cons. cbn [fst List.map].
    specialize (IH _ Hrest). destruct IH as [IH1 IH2].
    assert (Hstep : currentBlockIndex (fst (checkForNewBlocks m env)) = currentBlockIndex m \/
                    currentBlockIndex (fst (checkForNewBlocks m env)) = snapshotIndex env).
    { destruct (isShuttingDown m) eqn:Hs.
      - rewrite poll_halted by exact Hs. left. reflexivity.
      - destruct (poll_cases m env Hs); auto.
        left. destruct (handleMonitoringError_fields m) as (_ & E2 & _). exact E2. }
    split.
    + destruct Hstep as [H|H]; rewrite H in IH1; lia.
    + destruct IH2 as [H|H].
      * rewrite H. destruct Hstep as [H'|H']; [left; exact H' | right; left; auto].
      * right. right. exact H.
Qed.

Lemma cursor_never_decreases_without_regression_witness :
  noRegression (Scenario.monitorAt 99)
    [Scenario.happy 100 PostOk; Scenario.happy 100 (PostStatus 503);
     Scenario.happy 101 PostOk] /\
  99 <= currentBlockIndex
          (fst (runPolls (Scenario.monitorAt 99)
                  [Scenario.happy 100 PostOk; Scenario.happy 100 (PostStatus 503);
                   Scenario.happy 101 PostOk])).
Proof.
  assert (H : noRegression (Scenario.monitorAt 99)
                [Scenario.happy 100 PostOk; Scenario.happy 100 (PostStatus 503);
                 Scenario.happy 101 PostOk])
    by (vm_compute; repeat split; discriminate).
  split; [exact H|].
  exact (proj1 (cursor_never_decreases_without_regression _ _ H)).
Defined.

(** ** Entropy field *)

Lemma hex_length (buf : list Byte.byte) :
  String.length (Hex.toString buf) = (2 * length buf)%nat.
Proof. induction buf as [|b rest IH]; cbn; [reflexivity | rewrite IH; lia]. Qed.

Lemma hex_digit_is_hex (n : N) :
  In (Hex.digit n) (list_ascii_of_string "0123456789abcdef").
Proof.
  unfold Hex.digit.
  destruct n as [|p]; [cbn; tauto|].
  do 5 (try destruct p as [p|p|]); cbn; tauto.
Qed.

Lemma hex_chars (buf : list Byte.byte) :
  Forall (fun c => In c (list_ascii_of_string "0123456789abcdef"))
         (list_ascii_of_string (Hex.toString buf)).
Proof.
  induction buf as [|b rest IH]; cbn [Hex.toString list_ascii_of_string].
  - constructor.
  - constructor; [apply hex_digit_is_hex|].
    constructor; [apply hex_digit_is_hex | exact IH].
Qed.

(** Decoding the hex rendering of a buffer gives the buffer back. *)
Lemma fromString_toString (buf : list Byte.byte) :
  Hex.fromString (Hex.toString buf) = buf.
Proof.
  induction buf as [|b rest IH]; [reflexivity|].
  cbn [Hex.toString].
  assert (Hb : forall tail,
             Hex.fromString
               (String (Hex.digit (Byte.to_N b / 16))
                  (String (Hex.digit (Byte.to_N b mod 16)) tail)) =
             b :: Hex.fromString tail).
  { intros tail. destruct b; reflexivity. }
  cbn zeta. rewrite Hb, IH. reflexivity.
Qed.

(** X8: the entropy field of a notification is the lower-case hex rendering
    of the block's entropy bytes, two characters per byte in byte order -
    decoding it gives those bytes back - or, when the block, its entropy or
    every byte of it is missing, the rendering of thirty-two zero bytes:
    sixty-four '0' characters. *)
Theorem entropy_field_is_hex (b : option KaleBlock) :
  let bytes :=
    match b with
    | Some blk =>
        match entropy blk with
        | Some (x :: rest) => x :: rest
        | _ => Hex.alloc 32
        end
    | None => Hex.alloc 32
    end in
  entropyHex b = Hex.toString bytes /\
  Hex.fromString (entropyHex b) = bytes /\
  String.length (entropyHex b) = (2 * length bytes)%nat /\
  Forall (fun c => In c (list_ascii_of_string "0123456789abcdef"))
         (list_ascii_of_string (entropyHex b)) /\
  (bytes = Hex.alloc 32 ->
   entropyHex b = "0000000000000000000000000000000000000000000000000000000000000000"%string).
Proof.
  intros bytes.
  assert (H : entropyHex b = Hex.toString bytes).
  { unfold entropyHex, bytes.
    destruct b as [blk|]; [destruct (entropy blk) as [[|x rest]|]|]; reflexivity. }
  rewrite H.
  split; [reflexivity|].
  split; [apply fromString_toString|].
  split; [apply hex_length|].
  split; [apply hex_chars|].
  intros ->. reflexivity.
Qed.

End BlockMonitorMore.

(** * Properties of the service layer (server.ts, timing.ts) *)

Section ServiceFacts.

Import BlockMonitor.

(** ** Startup discovery shortcut *)

(** X9: the startup check makes the chain reads of one snapshot and sends
    its notification exactly when the block read has a non-zero timestamp
    that a JS Date can hold and the block is less than 120 s old (a block
    stamped in the future counts as young).  The notification names the
    index read and carries the timestamp in seconds back unchanged. *)
Theorem startup_shortcut_condition (env : PollEnv) (sendTime : Z) :
  fst (PoolerService.checkStartupBlockDiscovery env sendTime) =
    snd (getContractData env) /\
  (is_Some (snd (PoolerService.checkStartupBlockDiscovery env sendTime)) <->
   exists ts,
     truthyTimestamp (block (fst (getContractData env))) = Some ts /\
     Z.abs (ts * 1000) <= JsDate.MAX_TIME /\
     now env / 1000 - ts < 120) /\
  (forall n,
     snd (PoolerService.checkStartupBlockDiscovery env sendTime) = Some n ->
     PoolerService.sn_blockIndex n = snapshotIndex env /\
     truthyTimestamp (block (fst (getContractData env))) =
       Some (PoolerService.sn_blockTimestamp n) /\
     PoolerService.sn_blockAge n = sendTime / 1000 - PoolerService.sn_blockTimestamp n).
Proof.
  unfold PoolerService.checkStartupBlockDiscovery, snapshotIndex.
  destruct (getContractData env) as [cd tr]. cbn [fst snd].
  assert (Hage : forall a ts, (a - ts * 1000) / 1000 = a / 1000 - ts).
  { intros a ts. replace (a - ts * 1000) with (a + (- ts) * 1000) by lia.
    rewrite Z.div_add by lia. lia. }
  destruct (block cd) as [blk|] eqn:Hb.
  2:{ cbn. split; [reflexivity|]. split.
      - split; [intros [x Hx]; discriminate | intros (ts & Hts & _); discriminate].
      - intros n Hn. discriminate. }
  destruct (truthyTimestamp (Some blk)) as [ts|] eqn:Hts.
  2:{ cbn. split; [reflexivity|]. split.
      - split; [intros [x Hx]; discriminate | intros (ts & Hts' & _); discriminate].
      - intros n Hn. discriminate. }
  unfold JsDate.toISOString, JsDate.fromMs.
  destruct (Z.leb_spec (Z.abs (ts * 1000)) JsDate.MAX_TIME) as [Hin|Hout].
  2:{ cbn. split; [reflexivity|]. split.
      - split; [intros [x Hx]; discriminate|].
        intros (ts' & Heq & Hle & _). injection Heq as <-. lia.
      - intros n Hn. discriminate. }
  rewrite Hage.
  destruct (Z.ltb_spec (now env / 1000 - ts) 120) as [Hy|Ho]; cbn [fst snd].
  - split; [reflexivity|]. split.
    + split; [intros _; exists ts; auto | intros _; eexists; reflexivity].
    + intros n Hn. injection Hn as <-.
      unfold PoolerService.sendBlockDiscoveryNotification. cbn.
      rewrite Z.div_mul by lia. rewrite Hage. auto.
  - split; [reflexivity|]. split.
    + split; [intros [x Hx]; discriminate|].
      intros (ts' & Heq & _ & Hlt). injection Heq as <-. lia.
    + intros n Hn. discriminate.
Qed.

(** ** Authorization of POST /backend/planted-farmers *)

Lemma drop_append (p rest : string) :
  JsString.drop (String.length p) (String.append p rest) = rest.
Proof. induction p as [|c p IH]; cbn; [reflexivity | exact IH]. Qed.

Lemma replace_at_start (a p r : string) :
  JsString.startsWith a p = true ->
  JsString.replace a p r = String.append r (JsString.drop (String.length p) a).
Proof. intros H. destruct a; cbn [JsString.replace]; rewrite H; reflexivity. Qed.

Lemma bearer_prefix (a : string) :
  JsString.startsWith a "Bearer " = true <->
  exists rest, a = String.append "Bearer " rest.
Proof. apply startsWith_spec. Qed.

(** X10: the planted-farmers endpoint lets a request through exactly when
    its Authorization header is the word Bearer, one space, and the
    configured token, character for character.  A missing header or one that
    does not start with "Bearer " is answered 401, any other token 403, and
    in both cases the coordinator and the work manager are left untouched
    and no report is produced. *)
Theorem planted_farmers_needs_exact_bearer_token
    (authorization : option string) (AUTH_TOKEN : string)
    (env : WorkManager.Env) (w : WorkManager.World)
    (c : PoolCoordinator.Coordinator) (body : PoolCoordinator.PlantingNotification) :
  (PoolerService.authorize authorization AUTH_TOKEN = PoolerService.Authorized <->
   authorization = Some (String.append "Bearer " AUTH_TOKEN)) /\
  (PoolerService.authorize authorization AUTH_TOKEN = PoolerService.Reply403 <->
   exists token,
     authorization = Some (String.append "Bearer " token) /\ token <> AUTH_TOKEN) /\
  (PoolerService.authorize authorization AUTH_TOKEN = PoolerService.Reply401 <->
   ~ exists token, authorization = Some (String.append "Bearer " token)) /\
  (authorization <> Some (String.append "Bearer " AUTH_TOKEN) ->
   exists code,
     PoolerService.plantedFarmersHandler env w c authorization AUTH_TOKEN body =
       (code, c, w, None) /\ (code = 401 \/ code = 403)).
Proof.
  assert (Hshape :
    match authorization with
    | None => PoolerService.authorize authorization AUTH_TOKEN = PoolerService.Reply401
    | Some a =>
        (JsString.startsWith a "Bearer " = false /\
         PoolerService.authorize authorization AUTH_TOKEN = PoolerService.Reply401) \/
        (exists token,
           a = String.append "Bearer " token /\
           PoolerService.authorize authorization AUTH_TOKEN =
             if String.eqb token AUTH_TOKEN
             then PoolerService.Authorized else PoolerService.Reply403)
    end).
  { destruct authorization as [a|]; [|reflexivity].
    destruct (JsString.startsWith a "Bearer ") eqn:Hsw.
    - right. pose proof Hsw as Hsw'. apply bearer_prefix in Hsw' as [token ->].
      exists token. split; [reflexivity|].
      unfold PoolerService.authorize.
      change (String.append "Bearer " token) with
        (String "B" (String "e" (String "a" (String "r" (String "e" (String "r"
           (String " " token))))))).
      cbn. reflexivity.
    - left. split; [reflexivity|]. unfold PoolerService.authorize.
      destruct a; [reflexivity|]. rewrite Hsw. reflexivity. }
  assert (Hno : forall a token,
             JsString.startsWith a "Bearer " = false ->
             a <> String.append "Bearer " token).
  { intros a token Hf ->. cbn in Hf. discriminate. }
  assert (Hinj : forall t1 t2,
             Some (String.append "Bearer " t1) = Some (String.append "Bearer " t2) ->
             t1 = t2).
  { intros t1 t2 H.
    assert (H' : String.append "Bearer " t1 = String.append "Bearer " t2) by congruence.
    pose proof (drop_append "Bearer " t1) as D1.
    pose proof (drop_append "Bearer " t2) as D2.
    rewrite H' in D1. congruence. }
  assert (H1 : PoolerService.authorize authorization AUTH_TOKEN = PoolerService.Authorized <->
               authorization = Some (String.append "Bearer " AUTH_TOKEN)).
  { destruct authorization as [a|].
    - destruct Hshape as [[Hf Hr]|(token & Ha & Hr)]; rewrite Hr.
      + split; [discriminate | intros H; injection H as Ha; exfalso; eapply Hno; eauto].
      + rewrite Ha. destruct (String.eqb_spec token AUTH_TOKEN) as [Heq|Hne].
        * rewrite Heq. split; reflexivity.
        * split; [discriminate | intros H; apply Hinj in H; contradiction].
    - rewrite Hshape. split; discriminate. }
  split; [exact H1|]. split; [|split].
  - destruct authorization as [a|].
    + destruct Hshape as [[Hf Hr]|(token & Ha & Hr)]; rewrite Hr.
      * split; [discriminate|].
        intros (token & H & _). injection H as Ha. exfalso. eapply Hno; eauto.
      * rewrite Ha. destruct (String.eqb_spec token AUTH_TOKEN) as [Heq|Hne].
        -- split; [discriminate|].
           intros (t & H & Hne). apply Hinj in H. congruence.
        -- split; [intros _; exists token; auto | reflexivity].
    + rewrite Hshape. split; [discriminate | intros (t & H & _); discriminate].
  - destruct authorization as [a|].
    + destruct Hshape as [[Hf Hr]|(token & Ha & Hr)]; rewrite Hr.
      * split; [|reflexivity]. intros _ (token & H). injection H as Ha.
        eapply Hno; eauto.
      * rewrite Ha. destruct (String.eqb_spec token AUTH_TOKEN) as [Heq|Hne].
        -- split; [discriminate | intros H; exfalso; apply H; eauto].
        -- split; [discriminate | intros H; exfalso; apply H; eauto].
    + rewrite Hshape. split; [intros _ (t & H); discriminate | reflexivity].
  - intros Hne. unfold PoolerService.plantedFarmersHandler.
    destruct (PoolerService.authorize authorization AUTH_TOKEN) eqn:Ha.
    + exists 401. auto.
    + exists 403. auto.
    + exfalso. apply Hne. apply H1. reflexivity.
Qed.

(** ** Timing predictions *)

(** X11: for a block timestamp within the range of JS dates, the monitor's
    timing prediction puts planting 30 s, work 180 s and harvest 210 s after
    the block time.  The work manager, given the same timestamp as a
    number, aims the start of work at 150 s after the block time - 30 s
    before the work time the monitor predicts - as long as the timestamp is
    at most 10,000,000,000; a greater one it takes as milliseconds, aims at
    timestamp + 150,000 ms, and the two no longer agree. *)
Theorem predicted_work_time_is_30s_after_scheduled
    (seconds : Z) (env : WorkManager.Env) (w : WorkManager.World)
    (idx : WorkManager.JsNumber) (ent : string) (reqs : list WorkManager.WorkRequest) :
  inDateRange seconds ->
  let target :=
    WorkManager.targetTimeMs
      (fst (WorkManager.scheduleWork env w (WorkManager.TsNumber seconds)
              idx ent reqs)) in
  exists p,
    calculateTimingPredictions seconds 30 150 30 = Ok p /\
    blockDiscoveredTime p = seconds * 1000 /\
    plantingTime p = seconds * 1000 + 30000 /\
    workTime p = seconds * 1000 + 180000 /\
    harvestTime p = seconds * 1000 + 210000 /\
    (seconds <= 10000000000 ->
     target = seconds * 1000 + 150000 /\ workTime p = target + 30000) /\
    (10000000000 < seconds ->
     target = seconds + 150000 /\ workTime p <> target + 30000).
Proof.
  intros [Hlo Hhi] target.
  assert (Ht : target = if seconds >? 10000000000
                        then seconds + 150000 else seconds * 1000 + 150000).
  { unfold target, WorkManager.scheduleWork, WorkManager.dateNow.
    cbn -[WorkManager.executeWorkBatch].
    lazymatch goal with
    | |- context [WorkManager.executeWorkBatch ?e ?w0 ?i ?n ?q] =>
        destruct (WorkManager.executeWorkBatch e w0 i n q)
    end.
    cbn. unfold WorkManager.WORK_DELAY_SECONDS.
    destruct (seconds >? 10000000000); lia. }
  clearbody target.
  unfold calculateTimingPredictions, JsDate.fromMs, JsDate.plus, JsDate.getTime,
    JsDate.toISOString, bindR, JsDate.MAX_TIME in *.
  repeat match goal with
         | |- context [Z.leb ?a ?b] => destruct (Z.leb_spec a b); cbn; try lia
         end.
  eexists. split; [reflexivity|].
  cbn [blockDiscoveredTime plantingTime workTime harvestTime].
  destruct (Z.gtb_spec seconds 10000000000); subst target;
    repeat split; intros; lia.
Qed.

Lemma predicted_work_time_is_30s_after_scheduled_witness :
  inDateRange 1700000000 /\
  exists p,
    calculateTimingPredictions 1700000000 30 150 30 = Ok p /\
    workTime p = 1700000180000 /\
    workTime p =
      WorkManager.targetTimeMs
        (fst (WorkManager.scheduleWork Scenario.minerSucceeds WorkManager.initialWorld
                (WorkManager.TsNumber 1700000000) (WorkManager.Num 201) "abab"
                [Scenario.farmerF1])) + 30000.
Proof.
  assert (H : inDateRange 1700000000) by (vm_compute; split; discriminate).
  split; [exact H|].
  destruct (predicted_work_time_is_30s_after_scheduled 1700000000
              Scenario.minerSucceeds WorkManager.initialWorld (WorkManager.Num 201)
              "abab" [Scenario.farmerF1] H)
    as (p & Hp & _ & _ & Hw & _ & Hs & _).
  exists p. split; [exact Hp|]. split; [exact Hw|].
  apply Hs. lia.
Defined.

End ServiceFacts.

(** * Further properties of the Work Manager *)

Section WorkMore.

Import WorkManager.

(** ** One farmer, one attempt *)

(** What a call of executeWorkForFarmer leaves behind. *)
Lemma executeWorkForFarmer_footprint
    (env : Env) (w : World) (idx : JsNumber) (ent : string) (req : WorkRequest) :
  isWorking (workState (snd (executeWorkForFarmer env w idx ent req))) = false /\
  attempts (fst (executeWorkForFarmer env w idx ent req)) = 1 /\
  spawns (snd (executeWorkForFarmer env w idx ent req)) =
    match keypairFromSecret env (custodialSecretKey req), idx with
    | Ok hex, Num i =>
        spawns w ++ [{| farmerHex := hex; a_index := Num i; entropyHex := ent;
                        nonceCount := NONCE_COUNT |}]
    | _, _ => spawns w
    end /\
  submits (snd (executeWorkForFarmer env w idx ent req)) =
    match keypairFromSecret env (custodialSecretKey req), idx,
          miner env (length (spawns w)) with
    | Ok _, Num _, Printed (Num n) h =>
        submits w ++ [{| farmerPublicKey := custodialWallet req;
                         s_hash := Hex.fromString h; s_nonce := n |}]
    | _, _, _ => submits w
    end.
Proof.
  unfold executeWorkForFarmer, dateNow, spawn, callSubmitWork, cleanUp, setWorkState,
    readWorkStream, minedResult.
  cbn.
  destruct (keypairFromSecret env (custodialSecretKey req)) as [hex|e];
    [|cbn; auto].
  destruct idx as [i|]; [|cbn; auto].
  destruct (miner env (length (spawns w))) as [e| | | |n h]; cbn; auto.
  destruct n as [n|]; cbn; auto.
  destruct (WorkSubmissionService.success _); cbn; auto.
Qed.

(** X12: executeWorkForFarmer reports 'success' exactly when the farmer's
    key could be derived, the block index is a number, the miner printed a
    line with a numeric nonce, and submitWork for that line returned
    success; in every other case the result is 'failed'. *)
Theorem farmer_succeeds_iff_mined_and_submitted
    (env : Env) (w : World) (idx : JsNumber) (ent : string) (req : WorkRequest) :
  (status (fst (executeWorkForFarmer env w idx ent req)) = success <->
   exists hex i n h,
     keypairFromSecret env (custodialSecretKey req) = Ok hex /\
     idx = Num i /\
     miner env (length (spawns w)) = Printed (Num n) h /\
     WorkSubmissionService.success
       (fst (WorkSubmissionService.submitWork (relay env (length (submits w))))) = true) /\
  (status (fst (executeWorkForFarmer env w idx ent req)) = success \/
   status (fst (executeWorkForFarmer env w idx ent req)) = failed).
Proof.
  unfold executeWorkForFarmer, dateNow, spawn, callSubmitWork, cleanUp, setWorkState,
    readWorkStream, minedResult.
  cbn.
  destruct (keypairFromSecret env (custodialSecretKey req)) as [hex|e] eqn:Hk.
  2:{ cbn. split; [|auto].
      split; [discriminate | intros (? & ? & ? & ? & H & _); discriminate]. }
  destruct idx as [i|].
  2:{ cbn. split; [|auto].
      split; [discriminate | intros (? & ? & ? & ? & _ & H & _); discriminate]. }
  destruct (miner env (length (spawns w))) as [e| | | |n h] eqn:Hm; cbn;
    try (split; [|auto];
         split; [discriminate | intros (? & ? & ? & ? & _ & _ & H & _); discriminate]).
  destruct n as [n|]; cbn.
  2:{ split; [|auto].
      split; [discriminate | intros (? & ? & ? & ? & _ & _ & H & _); discriminate]. }
  destruct (WorkSubmissionService.success
              (fst (WorkSubmissionService.submitWork (relay env (length (submits w))))))
    eqn:Hs; cbn.
  - split; [|auto]. split; [intros _; exists hex, i, n, h; auto | reflexivity].
  - split; [|auto].
    split; [discriminate | intros (? & ? & ? & ? & _ & _ & _ & H); discriminate].
Qed.

(** X13: whatever happens in it, a call of executeWorkForFarmer ends with
    isWorking = false and a result with attempts = 1.  It starts the miner
    at most once: once when the key can be derived and the block index is a
    number (at the default nonce count, for the given block and entropy),
    not at all when the key cannot be derived or the block index is NaN -
    the result is then failed, for NaN with the message of the guard.  It
    calls submitWork exactly when the miner was started and printed a line
    with a numeric nonce - once, with the farmer's wallet, the bytes
    decoded from the printed hash and the printed nonce. *)
Theorem work_attempt_footprint
    (env : Env) (w : World) (idx : JsNumber) (ent : string) (req : WorkRequest) :
  isWorking (workState (snd (executeWorkForFarmer env w idx ent req))) = false /\
  attempts (fst (executeWorkForFarmer env w idx ent req)) = 1 /\
  spawns (snd (executeWorkForFarmer env w idx ent req)) =
    match keypairFromSecret env (custodialSecretKey req), idx with
    | Ok hex, Num i =>
        spawns w ++ [{| farmerHex := hex; a_index := Num i; entropyHex := ent;
                        nonceCount := NONCE_COUNT |}]
    | _, _ => spawns w
    end /\
  submits (snd (executeWorkForFarmer env w idx ent req)) =
    match keypairFromSecret env (custodialSecretKey req), idx,
          miner env (length (spawns w)) with
    | Ok _, Num _, Printed (Num n) h =>
        submits w ++ [{| farmerPublicKey := custodialWallet req;
                         s_hash := Hex.fromString h; s_nonce := n |}]
    | _, _, _ => submits w
    end /\
  (forall hex,
     keypairFromSecret env (custodialSecretKey req) = Ok hex -> idx = NaN ->
     status (fst (executeWorkForFarmer env w idx ent req)) = failed /\
     error (fst (executeWorkForFarmer env w idx ent req)) =
       Some "Invalid blockIndex: NaN. Must be a valid number."%string) /\
  (forall e,
     keypairFromSecret env (custodialSecretKey req) = Throw e ->
     status (fst (executeWorkForFarmer env w idx ent req)) = failed /\
     error (fst (executeWorkForFarmer env w idx ent req)) = Some e).
Proof.
  destruct (executeWorkForFarmer_footprint env w idx ent req) as (H1 & H2 & H3 & H4).
  split; [exact H1|]. split; [exact H2|]. split; [exact H3|]. split; [exact H4|].
  split.
  - intros hex Hk ->. unfold executeWorkForFarmer, dateNow. cbn. rewrite Hk.
    cbn. split; reflexivity.
  - intros e Hk. unfold executeWorkForFarmer, dateNow. cbn. rewrite Hk.
    cbn. split; reflexivity.
Qed.

(** A printed hash of odd length, or with a character that is no hex digit,
    is submitted cut short: "00005ef" goes out as the three bytes 00 00 5e. *)
Example odd_length_hash_is_cut_short :
  List.map s_hash
    (submits (snd (executeWorkForFarmer Scenario.minerTimesOutOnce
                     (snd (executeWorkForFarmer Scenario.minerTimesOutOnce initialWorld
                             201 "abab" Scenario.farmerF1))
                     201 "abab" Scenario.farmerF1))) =
    [[Byte.x00; Byte.x00; Byte.x5e]] /\
  Hex.fromString "0x2a" = [] /\
  Hex.fromString "2A2a" = [Byte.x2a; Byte.x2a].
Proof. vm_compute. repeat split; reflexivity. Qed.

(** ** Recovery attempts *)

(** One recovery run: it starts the miner once, and it returns a result
    with status success exactly when the miner printed a line with a
    numeric nonce and the submission of that line succeeded. *)
Lemma executeWorkWithParams_outcome
    (env : Env) (w : World) (idx : JsNumber) (ent : string) (req : WorkRequest)
    (nc an : Z) (hex : string) :
  keypairFromSecret env (custodialSecretKey req) = Ok hex ->
  spawns (snd (executeWorkWithParams env w idx ent req nc an)) =
    spawns w ++ [{| farmerHex := hex; a_index := idx; entropyHex := ent;
                    nonceCount := nc |}] /\
  ((exists r, fst (executeWorkWithParams env w idx ent req nc an) = Ok r /\
              status r = success) <->
   (exists n h,
      miner env (length (spawns w)) = Printed (Num n) h /\
      WorkSubmissionService.success
        (fst (WorkSubmissionService.submitWork (relay env (length (submits w))))) = true)).
Proof.
  intros Hk.
  unfold executeWorkWithParams, dateNow, spawn, callSubmitWork, readWorkStream,
    minedResult.
  cbn. rewrite Hk.
  destruct (miner env (length (spawns w))) as [e| | | |n h] eqn:Hm; cbn;
    try (split; [reflexivity|];
         split; [intros (r & H & _); discriminate
                | intros (? & ? & H & _); discriminate]).
  destruct n as [n|]; cbn.
  2:{ split; [reflexivity|].
      split; [intros (r & H & Hs); injection H as <-; discriminate
             | intros (? & ? & H & _); discriminate]. }
  destruct (WorkSubmissionService.success
              (fst (WorkSubmissionService.submitWork (relay env (length (submits w))))))
    eqn:Hs; cbn.
  - split; [reflexivity|].
    split; [intros _; exists n, h; auto | intros _; eexists; split; reflexivity].
  - split; [reflexivity|].
    split; [intros (r & H & Hst); injection H as <-; discriminate
           | intros (? & ? & _ & H); discriminate].
Qed.

Lemma executeWorkWithParams_spawns
    (env : Env) (w : World) (idx : JsNumber) (ent : string) (req : WorkRequest)
    (nc an : Z) (hex : string) :
  keypairFromSecret env (custodialSecretKey req) = Ok hex ->
  spawns (snd (executeWorkWithParams env w idx ent req nc an)) =
  spawns w ++ [{| farmerHex := hex; a_index := idx; entropyHex := ent;
                  nonceCount := nc |}].
Proof.
  intros Hk. exact (proj1 (executeWorkWithParams_outcome env w idx ent req nc an hex Hk)).
Qed.

Lemma recoveryLoop_spawns (fuel : nat) :
  forall (attempt : Z) (env : Env) (w : World) (idx : JsNumber) (ent : string)
         (req : WorkRequest) (hex : string),
    keypairFromSecret env (custodialSecretKey req) = Ok hex ->
    exists j : nat,
      (j <= fuel)%nat /\
      spawns (snd (recoveryLoop fuel attempt env w idx ent req)) =
        spawns w ++ List.map (recoveryArgs hex idx ent attempt) (List.seq 0 j) /\
      match fst (recoveryLoop fuel attempt env w idx ent req) with
      | Some r => (1 <= j)%nat /\ attempts r = attempt + Z.of_nat j
      | None => j = fuel
      end.
Proof.
  induction fuel as [|fuel IH]; intros attempt env w idx ent req hex Hk.
  - exists O. cbn. rewrite app_nil_r. auto.
  - cbn [recoveryLoop].
    pose proof (executeWorkWithParams_spawns env w idx ent req
                  (NONCE_COUNT + attempt * 1000000) (attempt + 1) hex Hk) as Hsp.
    pose proof (executeWorkWithParams_result env w idx ent req
                  (NONCE_COUNT + attempt * 1000000) (attempt + 1)) as Hres.
    assert (Hshift : forall j,
               recoveryArgs hex idx ent attempt 0 ::
               List.map (recoveryArgs hex idx ent (attempt + 1)) (List.seq 0 j) =
               List.map (recoveryArgs hex idx ent attempt) (List.seq 0 (S j))).
    { intros j. cbn [List.seq List.map]. f_equal.
      rewrite <- List.seq_shift, List.map_map.
      apply List.map_ext. intros i. unfold recoveryArgs. f_equal. lia. }
    assert (Hfirst : {| farmerHex := hex; a_index := idx; entropyHex := ent;
                        nonceCount := NONCE_COUNT + attempt * 1000000 |} =
                     recoveryArgs hex idx ent attempt 0).
    { unfold recoveryArgs. f_equal. lia. }
    rewrite Hfirst in Hsp.
    destruct (executeWorkWithParams env w idx ent req
                (NONCE_COUNT + attempt * 1000000) (attempt + 1)) as [[r|e] w1];
      cbn [fst snd] in *.
    + destruct (Status_eqb (status r) success).
      * exists 1%nat. cbn [fst snd List.seq List.map].
        destruct Hres as (_ & _ & _ & Ha).
        split; [lia|]. split; [exact Hsp|]. split; [lia|]. cbn. lia.
      * destruct (IH (attempt + 1) env w1 idx ent req hex Hk) as (j & Hj & Hs & Hr).
        exists (S j). split; [lia|]. split.
        -- rewrite Hs, Hsp, <- app_assoc. cbn [app]. now rewrite Hshift.
        -- destruct (fst (recoveryLoop fuel (attempt + 1) env w1 idx ent req)).
           ++ destruct Hr as [_ Hr]. split; lia.
           ++ lia.
    + destruct (IH (attempt + 1) env w1 idx ent req hex Hk) as (j & Hj & Hs & Hr).
      exists (S j). split; [lia|]. split.
      * rewrite Hs, Hsp, <- app_assoc. cbn [app]. now rewrite Hshift.
      * destruct (fst (recoveryLoop fuel (attempt + 1) env w1 idx ent req)).
        -- destruct Hr as [_ Hr]. split; lia.
        -- lia.
Qed.

(** One turn of the recovery loop: a successful run ends the loop with the
    result of that run, marked recovered; any other outcome goes on to the
    next attempt. *)
Lemma recoveryLoop_step
    (fuel : nat) (attempt : Z) (env : Env) (w : World) (idx : JsNumber)
    (ent : string) (req : WorkRequest) :
  let run := executeWorkWithParams env w idx ent req
               (NONCE_COUNT + attempt * 1000000) (attempt + 1) in
  ((exists r, fst run = Ok r /\ status r = success) ->
   exists r, fst run = Ok r /\
             recoveryLoop (S fuel) attempt env w idx ent req =
               (Some (asRecovered r), snd run)) /\
  (~ (exists r, fst run = Ok r /\ status r = success) ->
   recoveryLoop (S fuel) attempt env w idx ent req =
     recoveryLoop fuel (attempt + 1) env (snd run) idx ent req).
Proof.
  cbn zeta. cbn [recoveryLoop].
  destruct (executeWorkWithParams env w idx ent req
              (NONCE_COUNT + attempt * 1000000) (attempt + 1)) as [[r|e] w1];
    cbn [fst snd].
  - destruct (status r) eqn:Hst; cbn [Status_eqb].
    + split; [intros _; exists r; auto|].
      intros Hno. exfalso. apply Hno. exists r. auto.
    + split; [intros (r' & H & Hs); injection H as <-; congruence | reflexivity].
    + split; [intros (r' & H & Hs); injection H as <-; congruence | reflexivity].
  - split; [intros (r' & H & _); discriminate | reflexivity].
Qed.

(** X14: for a farmer whose key can be derived, attemptRecovery makes
    recovery runs 1, 2, 3 in turn, run k with nonce count
    10,000,000 + k * 1,000,000 for the same block index and entropy.  A run
    succeeds exactly when the miner prints a line with a numeric nonce and
    the submission of that line succeeds.  attemptRecovery stops at the
    first run that succeeds, starting no further miner, and returns the
    result of that run with status 'recovered', attempts = k + 1 and no
    compensation; it returns nothing exactly when all three runs fail. *)
Theorem recovery_runs_and_nonce_counts
    (env : Env) (w : World) (idx : JsNumber) (ent : string) (req : WorkRequest)
    (hex : string) :
  keypairFromSecret env (custodialSecretKey req) = Ok hex ->
  let run (k : Z) (w0 : World) :=
    executeWorkWithParams env w0 idx ent req (10000000 + k * 1000000) (k + 1) in
  let mined (w0 : World) :=
    exists n h,
      miner env (length (spawns w0)) = Printed (Num n) h /\
      WorkSubmissionService.success
        (fst (WorkSubmissionService.submitWork (relay env (length (submits w0))))) = true in
  let w1 := snd (run 1 w) in
  let w2 := snd (run 2 w1) in
  let w3 := snd (run 3 w2) in
  (forall k w0,
     spawns (snd (run k w0)) =
       spawns w0 ++ [{| farmerHex := hex; a_index := idx; entropyHex := ent;
                        nonceCount := 10000000 + k * 1000000 |}] /\
     ((exists r, fst (run k w0) = Ok r /\ status r = success) <-> mined w0) /\
     (forall r, fst (run k w0) = Ok r -> attempts r = k + 1)) /\
  (mined w ->
   exists r, fst (run 1 w) = Ok r /\
             attemptRecovery env w idx ent req = (Some (asRecovered r), w1)) /\
  (~ mined w -> mined w1 ->
   exists r, fst (run 2 w1) = Ok r /\
             attemptRecovery env w idx ent req = (Some (asRecovered r), w2)) /\
  (~ mined w -> ~ mined w1 -> mined w2 ->
   exists r, fst (run 3 w2) = Ok r /\
             attemptRecovery env w idx ent req = (Some (asRecovered r), w3)) /\
  (~ mined w -> ~ mined w1 -> ~ mined w2 ->
   attemptRecovery env w idx ent req = (None, w3)) /\
  (exists j : nat,
     (1 <= j <= 3)%nat /\
     spawns (snd (attemptRecovery env w idx ent req)) =
       spawns w ++
       List.map (fun k => {| farmerHex := hex; a_index := idx; entropyHex := ent;
                             nonceCount := 10000000 + Z.of_nat k * 1000000 |})
                (List.seq 1 j) /\
     match fst (attemptRecovery env w idx ent req) with
     | Some r =>
         status r = recovered /\ attempts r = Z.of_nat j + 1 /\
         compensationRequired r = false
     | None => j = 3%nat
     end).
Proof.
  intros Hk run mined w1 w2 w3.
  assert (Hrun : forall k w0,
     spawns (snd (run k w0)) =
       spawns w0 ++ [{| farmerHex := hex; a_index := idx; entropyHex := ent;
                        nonceCount := 10000000 + k * 1000000 |}] /\
     ((exists r, fst (run k w0) = Ok r /\ status r = success) <-> mined w0) /\
     (forall r, fst (run k w0) = Ok r -> attempts r = k + 1)).
  { intros k w0. unfold run, mined.
    destruct (executeWorkWithParams_outcome env w0 idx ent req
                (10000000 + k * 1000000) (k + 1) hex Hk) as [Hs Hiff].
    split; [exact Hs|]. split; [exact Hiff|].
    intros r Hr.
    pose proof (executeWorkWithParams_result env w0 idx ent req
                  (10000000 + k * 1000000) (k + 1)) as Hres.
    rewrite Hr in Hres. apply Hres. }
  assert (Hyes : forall fuel k w0,
             mined w0 ->
             exists r, fst (run k w0) = Ok r /\
                       recoveryLoop (S fuel) k env w0 idx ent req =
                         (Some (asRecovered r), snd (run k w0))).
  { intros fuel k w0 Hm.
    apply (proj1 (recoveryLoop_step fuel k env w0 idx ent req)).
    apply (proj1 (proj2 (Hrun k w0))). exact Hm. }
  assert (Hno : forall fuel k w0,
             ~ mined w0 ->
             recoveryLoop (S fuel) k env w0 idx ent req =
               recoveryLoop fuel (k + 1) env (snd (run k w0)) idx ent req).
  { intros fuel k w0 Hm.
    apply (proj2 (recoveryLoop_step fuel k env w0 idx ent req)).
    intros H. apply Hm. apply (proj1 (proj2 (Hrun k w0))). exact H. }
  unfold attemptRecovery. change (Z.to_nat MAX_RECOVERY_ATTEMPTS) with 3%nat.
  split; [exact Hrun|].
  split; [intros M0; exact (Hyes 2%nat 1 w M0)|].
  assert (Hskip1 : ~ mined w ->
            recoveryLoop 3 1 env w idx ent req = recoveryLoop 2 2 env w1 idx ent req).
  { intros M0. exact (Hno 2%nat 1 w M0). }
  assert (Hskip2 : ~ mined w1 ->
            recoveryLoop 2 2 env w1 idx ent req = recoveryLoop 1 3 env w2 idx ent req).
  { intros M1. exact (Hno 1%nat 2 w1 M1). }
  assert (Hskip3 : ~ mined w2 ->
            recoveryLoop 1 3 env w2 idx ent req = (None, w3)).
  { intros M2. exact (Hno 0%nat 3 w2 M2). }
  split.
  { intros M0 M1. rewrite (Hskip1 M0). exact (Hyes 1%nat 2 w1 M1). }
  split.
  { intros M0 M1 M2. rewrite (Hskip1 M0), (Hskip2 M1). exact (Hyes 0%nat 3 w2 M2). }
  split.
  { intros M0 M1 M2. rewrite (Hskip1 M0), (Hskip2 M1). exact (Hskip3 M2). }
  destruct (recoveryLoop_spawns 3 1 env w idx ent req hex Hk) as (j & Hj & Hs & Hr).
  pose proof (recoveryLoop_result 3 1 env w idx ent req) as Hres.
  exists j. split.
  - destruct (fst (recoveryLoop 3 1 env w idx ent req)); lia.
  - split.
    + rewrite Hs. f_equal. rewrite <- List.seq_shift, List.map_map.
      apply List.map_ext. intros i. unfold recoveryArgs, NONCE_COUNT. f_equal. lia.
    + destruct (fst (recoveryLoop 3 1 env w idx ent req)) as [r|]; [|exact Hr].
      destruct Hres as (Hc & _ & Hst & _). destruct Hr as [H1 Ha].
      split; [exact Hst|]. split; [lia|].
      unfold compensationCorrect in Hc.
      destruct (compensationRequired r); [|reflexivity].
      assert (status r = failed) by (apply Hc; reflexivity). congruence.
Qed.

Lemma recovery_runs_and_nonce_counts_witness :
  keypairFromSecret Scenario.minerTimesOutOnce
    (custodialSecretKey Scenario.farmerF1) = Ok "f1f1"%string /\
  exists r,
    fst (executeWorkWithParams Scenario.minerTimesOutOnce
           (snd (executeWorkWithParams Scenario.minerTimesOutOnce initialWorld
                   201 "abab" Scenario.farmerF1 11000000 2))
           201 "abab" Scenario.farmerF1 12000000 3) = Ok r /\
    fst (attemptRecovery Scenario.minerTimesOutOnce initialWorld 201 "abab"
           Scenario.farmerF1) = Some (asRecovered r).
Proof.
  split; [reflexivity|].
  destruct (recovery_runs_and_nonce_counts Scenario.minerTimesOutOnce initialWorld
              201 "abab" Scenario.farmerF1 "f1f1" eq_refl)
    as (_ & _ & H2 & _).
  destruct H2 as (r & Hr & Ha).
  - intros (n & h & Hm & _). vm_compute in Hm. discriminate.
  - exists 9999, "00005ef"%string. split; vm_compute; reflexivity.
  - exists r. split; [exact Hr|]. cbn zeta in Ha. rewrite Ha. reflexivity.
Defined.

(** ** The batch *)

Lemma batchLoop_footprint (reqs : list WorkRequest) :
  forall (env : Env) (w : World) (idx : JsNumber) (ent : string) (acc : list WorkResult),
    Forall (fun r => status r <> recovered /\ attempts r = 1) acc ->
    exists new,
      spawns (snd (batchLoop env w idx ent reqs acc)) = spawns w ++ new /\
      (length new <= length reqs)%nat /\
      Forall (fun a => nonceCount a = NONCE_COUNT /\ a_index a = idx /\
                       entropyHex a = ent) new /\
      length (fst (batchLoop env w idx ent reqs acc)) = (length acc + length reqs)%nat /\
      Forall (fun r => status r <> recovered /\ attempts r = 1)
             (fst (batchLoop env w idx ent reqs acc)).
Proof.
  induction reqs as [|req rest IH]; intros env w idx ent acc Hacc.
  - exists []. cbn. rewrite app_nil_r. repeat split; auto.
  - cbn [batchLoop].
    pose proof (executeWorkForFarmer_result env w idx ent req) as (_ & _ & Hn).
    pose proof (executeWorkForFarmer_footprint env w idx ent req) as (_ & Ha & Hsp & _).
    pose proof (recovery_guard_never_holds env w idx ent req) as Hg.
    cbn zeta in *.
    destruct (executeWorkForFarmer env w idx ent req) as [r w1]. cbn [fst snd] in *.
    rewrite Hg.
    destruct (IH env w1 idx ent (acc ++ [r])) as (new & I1 & I2 & I3 & I4 & I5).
    { apply Forall_app. split; [exact Hacc | constructor; [auto | constructor]]. }
    rewrite length_app in I4. cbn [length] in I4.
    destruct (keypairFromSecret env (custodialSecretKey req)) as [hex|e];
      [destruct idx as [i|]|].
    + exists ({| farmerHex := hex; a_index := Num i; entropyHex := ent;
                 nonceCount := NONCE_COUNT |} :: new).
      rewrite I1, Hsp, <- app_assoc. cbn [app length].
      split; [reflexivity|]. split; [lia|].
      split; [constructor; [cbn; auto | exact I3]|].
      split; [lia | exact I5].
    + exists new. rewrite I1, Hsp. cbn [length].
      split; [reflexivity|]. split; [lia|]. split; [exact I3|].
      split; [lia | exact I5].
    + exists new. rewrite I1, Hsp. cbn [length].
      split; [reflexivity|]. split; [lia|]. split; [exact I3|].
      split; [lia | exact I5].
Qed.

(** X15: executeWorkBatch returns one result per work request and starts
    the miner at most once per request, every time at the default nonce
    count of 10,000,000 and for the batch's block and entropy; every result
    has attempts = 1 and none has status 'recovered' (the batch never takes
    the recovery branch). *)
Theorem batch_runs_each_farmer_once
    (env : Env) (w : World) (idx : JsNumber) (ent : string) (reqs : list WorkRequest) :
  exists new,
    spawns (snd (executeWorkBatch env w idx ent reqs)) = spawns w ++ new /\
    (length new <= length reqs)%nat /\
    Forall (fun a => nonceCount a = 10000000 /\ a_index a = idx /\ entropyHex a = ent)
           new /\
    length (workResults (fst (executeWorkBatch env w idx ent reqs))) = length reqs /\
    Forall (fun r => status r <> recovered /\ attempts r = 1)
           (workResults (fst (executeWorkBatch env w idx ent reqs))) /\
    b_blockIndex (fst (executeWorkBatch env w idx ent reqs)) = idx /\
    b_poolerId (fst (executeWorkBatch env w idx ent reqs)) = POOLER_ID env.
Proof.
  unfold executeWorkBatch, dateNow. cbn.
  lazymatch goal with
  | |- context [batchLoop ?e ?w0 ?i ?n ?q []] =>
      destruct (batchLoop_footprint q e w0 i n [] (List.Forall_nil _))
        as (new & H1 & H2 & H3 & H4 & H5);
      destruct (batchLoop e w0 i n q []) as [rs w1]
  end.
  cbn in *. exists new. repeat split; assumption.
Qed.

(** ** Leading zeros *)

Lemma leadingZeros_stops (c : ascii) (rest : string) :
  c <> "0"%char -> leadingZeros (String c rest) = 0.
Proof.
  intros Hc. destruct c as [[] [] [] [] [] [] [] []]; try reflexivity.
  exfalso. apply Hc. reflexivity.
Qed.

(** X16: the zeros value read off the miner's output is the length of the
    run of '0' characters the hash starts with: a hash made of n zeros
    followed by anything that does not start with '0' gives n.  It is never
    negative and never more than the length of the hash. *)
Theorem leading_zeros_counts_zero_prefix (n : nat) (rest hash : string) (nn : JsNumber) :
  (forall tail, rest <> String "0" tail) ->
  leadingZeros (String.append (string_of_list_ascii (repeat "0"%char n)) rest)
    = Z.of_nat n /\
  0 <= leadingZeros hash <= Z.of_nat (String.length hash) /\
  option_map o_zeros (readWorkStream (Printed nn hash)) = Some (leadingZeros hash).
Proof.
  intros Hrest. split; [|split].
  - induction n as [|n IH].
    + cbn. destruct rest as [|c tail]; [reflexivity|].
      apply leadingZeros_stops. intros ->. eapply Hrest. reflexivity.
    + change (String.append (string_of_list_ascii (repeat "0"%char (S n))) rest)
        with (String "0" (String.append (string_of_list_ascii (repeat "0"%char n)) rest)).
      change (leadingZeros (String "0" ?x)) with (1 + leadingZeros x).
      rewrite IH. lia.
  - induction hash as [|c tail IH]; [cbn; lia|].
    destruct (Ascii.ascii_dec c "0") as [->|Hc].
    + cbn [leadingZeros String.length]. lia.
    + rewrite leadingZeros_stops by exact Hc. cbn [String.length]. lia.
  - reflexivity.
Qed.

Lemma leading_zeros_counts_zero_prefix_witness :
  (forall tail, "5ef"%string <> String "0" tail) /\
  leadingZeros "00005ef" = 4.
Proof.
  assert (H : forall tail, "5ef"%string <> String "0" tail)
    by (intros tail; discriminate).
  split; [exact H|].
  exact (proj1 (leading_zeros_counts_zero_prefix 4 "5ef" "" NaN H)).
Defined.

(** ** Scheduling *)

(** X17: for a non-negative integer timestamp n with
    n * 1000 + 150,000 at most Number.MAX_SAFE_INTEGER and a clock reading
    between 0 and Number.MAX_SAFE_INTEGER - the range in which the double
    arithmetic of the code is exact - scheduleWork never hands a negative
    delay to the timer: the wait is zero when the target time has passed
    and otherwise ends exactly at the target.  In that range a bigint
    timestamp is always taken as seconds (multiplied by 1000), also above
    10,000,000,000 where a number is taken as milliseconds, and a number of
    exactly 10,000,000,000 is still taken as seconds. *)
Theorem scheduleWork_waits_until_target
    (env : Env) (w : World) (ts : Timestamp) (idx : JsNumber) (ent : string)
    (reqs : list WorkRequest) :
  inSafeRange ts ->
  0 <= clock env (ticks w) <= 9007199254740991 ->
  let s := fst (scheduleWork env w ts idx ent reqs) in
  let nowMs := clock env (ticks w) in
  0 <= waitTimeMs s <= 9007199254740991 /\
  0 <= targetTimeMs s <= 9007199254740991 /\
  (targetTimeMs s <= nowMs -> waitTimeMs s = 0) /\
  (nowMs <= targetTimeMs s -> nowMs + waitTimeMs s = targetTimeMs s) /\
  (forall n, ts = TsBigint n -> targetTimeMs s = n * 1000 + 150000) /\
  (forall n, ts = TsNumber n -> 10000000000 < n ->
     targetTimeMs s = n + 150000 /\
     targetTimeMs (fst (scheduleWork env w (TsBigint n) idx ent reqs)) =
       n * 1000 + 150000) /\
  (ts = TsNumber 10000000000 -> targetTimeMs s = 10000000150000).
Proof.
  intros Hsafe Hclock.
  unfold scheduleWork, dateNow. cbn -[executeWorkBatch].
  repeat lazymatch goal with
  | |- context [executeWorkBatch ?e ?w0 ?i ?m ?q] =>
      destruct (executeWorkBatch e w0 i m q)
  end.
  cbn. unfold WORK_DELAY_SECONDS.
  destruct ts as [n|n]; cbn in Hsafe |- *.
  - destruct (Z.gtb_spec n 10000000000); cbv beta iota;
      repeat split; intros; try discriminate;
      repeat match goal with
             | H : TsNumber _ = TsNumber _ |- _ => injection H as H; subst
             end;
      lia.
  - repeat split; intros; try discriminate;
      repeat match goal with
             | H : TsBigint _ = TsBigint _ |- _ => injection H as H; subst
             end;
      lia.
Qed.

Lemma scheduleWork_waits_until_target_witness :
  inSafeRange (TsBigint 1700000000) /\
  waitTimeMs (fst (scheduleWork Scenario.minerSucceeds initialWorld
                     (TsBigint 1700000000) 201 "abab" [Scenario.farmerF1])) =
    1700000150000 /\
  waitTimeMs (fst (scheduleWork Scenario.minerSucceeds initialWorld
                     (TsNumber 0) 201 "abab" [Scenario.farmerF1])) = 150000.
Proof.
  assert (H1 : inSafeRange (TsBigint 1700000000)) by (cbn; lia).
  assert (H2 : inSafeRange (TsNumber 0)) by (cbn; lia).
  assert (Hc : 0 <= clock Scenario.minerSucceeds (ticks initialWorld)
               <= 9007199254740991) by (cbn; lia).
  split; [exact H1|]. split.
  - destruct (scheduleWork_waits_until_target Scenario.minerSucceeds initialWorld
                (TsBigint 1700000000) 201 "abab" [Scenario.farmerF1] H1 Hc)
      as (_ & _ & _ & Hw & Ht & _).
    cbn zeta in Hw, Ht. rewrite (Ht 1700000000 eq_refl) in Hw.
    cbn in Hc. change (clock Scenario.minerSucceeds (ticks initialWorld)) with 0 in Hw.
    lia.
  - reflexivity.
Defined.

End WorkMore.

(** * Further properties of the Coordinator *)

Section CoordinatorMore.

Import PoolCoordinator.

Lemma status_partition (l : list WorkManager.WorkResult) :
  (length (List.filter isSuccessful l) + length (List.filter isFailed l))%nat = length l.
Proof.
  induction l as [|r rest IH]; [reflexivity|].
  cbn [List.filter]. unfold isSuccessful at 1, isFailed at 1.
  destruct (WorkManager.status r); cbn; lia.
Qed.

(** X18: in every completion report the summary adds up: totalFarmers is the
    number of results, and successfulWork (results with status 'success' or
    'recovered') plus failedWork (status 'failed') equals totalFarmers; the
    results of the batch are passed on as they are.  In the report built
    when the batch rejects, every planted farmer is counted as failed. *)
Theorem completion_summary_adds_up
    (idx : Z) (result : WorkManager.WorkBatchResult)
    (env : WorkManager.Env) (c : Coordinator) (message : string) (stamp : Z) :
  workResults (handleWorkCompletion idx result) = WorkManager.workResults result /\
  n_blockIndex (handleWorkCompletion idx result) = idx /\
  totalFarmers (summary (handleWorkCompletion idx result)) =
    Z.of_nat (length (WorkManager.workResults result)) /\
  successfulWork (summary (handleWorkCompletion idx result)) +
  failedWork (summary (handleWorkCompletion idx result)) =
    totalFarmers (summary (handleWorkCompletion idx result)) /\
  match handleWorkError env c idx message stamp, pendingWorkBlocks c !! idx with
  | Some report, Some notification =>
      successfulWork (summary report) = 0 /\
      failedWork (summary report) = totalFarmers (summary report) /\
      totalFarmers (summary report) = Z.of_nat (length (plantedFarmers notification))
  | None, None => True
  | _, _ => False
  end.
Proof.
  split; [reflexivity|]. split; [reflexivity|]. split; [reflexivity|]. split.
  - cbn. rewrite <- Nat2Z.inj_add, status_partition. reflexivity.
  - unfold handleWorkError.
    destruct (pendingWorkBlocks c !! idx) as [n|]; [|exact I].
    cbn. rewrite List.length_map. auto.
Qed.

(** X19: once the batch of an accepted notification has settled - resolved
    or rejected - the block index of the notification is in neither map,
    whatever was recorded under it before, and the entries of every other
    block index are as they were. *)
Theorem settled_block_is_forgotten
    (env : WorkManager.Env) (w : WorkManager.World) (c : Coordinator)
    (notification : PlantingNotification) (message : string) (stamp : Z) (k : Z) :
  plantedFarmers notification <> [] ->
  let c1 := fst (fst (receivePlantingNotification env w c notification)) in
  let c2 := fst (receivePlantingNotificationRejected env c notification message stamp) in
  c1 = c2 /\
  pendingWorkBlocks c1 !! blockIndex notification = None /\
  (blockIndex notification ∉ activeWorkPromises c1) /\
  (k <> blockIndex notification ->
     pendingWorkBlocks c1 !! k = pendingWorkBlocks c !! k /\
     (k ∈ activeWorkPromises c1 <-> k ∈ activeWorkPromises c)).
Proof.
  intros Hne.
  unfold receivePlantingNotification, receivePlantingNotificationRejected, accept.
  destruct (plantedFarmers notification) as [|f rest] eqn:Hf; [congruence|].
  cbn [length Nat.eqb].
  lazymatch goal with
  | |- context [WorkManager.scheduleWork ?e ?w0 ?t ?i ?n ?q] =>
      destruct (WorkManager.scheduleWork e w0 t i n q) as [sch w1]
  end.
  unfold onResolved, onRejected, forget. cbn.
  split; [reflexivity|]. split; [apply lookup_delete_eq|]. split.
  { rewrite elem_of_difference, elem_of_singleton. tauto. }
  intros Hk. split.
  - rewrite lookup_delete_ne by congruence. rewrite lookup_insert_ne by congruence.
    reflexivity.
  - rewrite elem_of_difference, elem_of_union, !elem_of_singleton. tauto.
Qed.

Lemma settled_block_is_forgotten_witness :
  plantedFarmers Scenario.plantingOfF1 <> [] /\
  pendingWorkBlocks
    (fst (fst (receivePlantingNotification Scenario.minerSucceeds
                 WorkManager.initialWorld Scenario.idleCoordinator
                 Scenario.plantingOfF1)))
    !! blockIndex Scenario.plantingOfF1 = None.
Proof.
  assert (H : plantedFarmers Scenario.plantingOfF1 <> []) by (cbn; discriminate).
  split; [exact H|].
  exact (proj1 (proj2
           (settled_block_is_forgotten Scenario.minerSucceeds WorkManager.initialWorld
              Scenario.idleCoordinator Scenario.plantingOfF1 "" 0 0 H))).
Defined.

(** X20: a notification with an empty plantedFarmers list is dropped: the
    two maps and the work manager are left as they were, no miner is
    started, nothing is scheduled and no completion report follows. *)
Theorem empty_notification_is_ignored
    (env : WorkManager.Env) (w : WorkManager.World) (c : Coordinator)
    (notification : PlantingNotification) (message : string) (stamp : Z) :
  plantedFarmers notification = [] ->
  accept c notification = (c, None) /\
  receivePlantingNotification env w c notification = (c, w, None) /\
  receivePlantingNotificationRejected env c notification message stamp = (c, None).
Proof.
  intros Hf.
  unfold receivePlantingNotification, receivePlantingNotificationRejected, accept.
  rewrite Hf. cbn. auto.
Qed.

Lemma empty_notification_is_ignored_witness :
  receivePlantingNotification Scenario.minerSucceeds WorkManager.initialWorld
    Scenario.idleCoordinator
    {| blockIndex := 7; entropy := "abab"; blockTimestamp := 1700000000;
       plantedFarmers := [] |}
  = (Scenario.idleCoordinator, WorkManager.initialWorld, None).
Proof.
  exact (proj1 (proj2
           (empty_notification_is_ignored Scenario.minerSucceeds
              WorkManager.initialWorld Scenario.idleCoordinator
              {| blockIndex := 7; entropy := "abab"; blockTimestamp := 1700000000;
                 plantedFarmers := [] |} "" 0 eq_refl))).
Defined.

(** ** cancelPendingWork *)

Lemma step_keeps_pending_active (c : Coordinator) (op : Op) :
  (forall k, is_Some (pendingWorkBlocks c !! k) -> k ∈ activeWorkPromises c) ->
  forall k, is_Some (pendingWorkBlocks (step c op) !! k) ->
            k ∈ activeWorkPromises (step c op).
Proof.
  intros Hinv k. destruct op as [n|b| |b]; cbn.
  - unfold accept. destruct (length (plantedFarmers n) =? 0)%nat; cbn; [apply Hinv|].
    destruct (decide (k = blockIndex n)) as [->|Hk].
    + intros _. rewrite elem_of_union, elem_of_singleton. tauto.
    + rewrite lookup_insert_ne by congruence. intros H. apply Hinv in H.
      rewrite elem_of_union. tauto.
  - destruct (decide (k = b)) as [->|Hk].
    + rewrite lookup_delete_eq. intros [x Hx]. discriminate.
    + rewrite lookup_delete_ne by congruence. intros H. apply Hinv in H.
      rewrite elem_of_difference, elem_of_singleton. tauto.
  - rewrite lookup_empty. intros [x Hx]. discriminate.
  - unfold cancelPendingWork.
    destruct (bool_decide (is_Some (pendingWorkBlocks c !! b)) &&
              negb (bool_decide (b ∈ activeWorkPromises c))); cbn; [|apply Hinv].
    destruct (decide (k = b)) as [->|Hk].
    + rewrite lookup_delete_eq. intros [x Hx]. discriminate.
    + rewrite lookup_delete_ne by congruence. apply Hinv.
Qed.

Lemma run_keeps_pending_active (ops : list Op) :
  forall c : Coordinator,
    (forall k, is_Some (pendingWorkBlocks c !! k) -> k ∈ activeWorkPromises c) ->
    forall k, is_Some (pendingWorkBlocks (run c ops) !! k) ->
              k ∈ activeWorkPromises (run c ops).
Proof.
  induction ops as [|op rest IH]; intros c Hinv; [exact Hinv|].
  cbn. apply IH. apply step_keeps_pending_active. exact Hinv.
Qed.

(** X21: cancelPendingWork never cancels anything.  It asks for a block that
    is pending but not active, while every operation that writes the maps
    keeps each pending block active (a notification enters both maps at
    once, a settled batch leaves both, an emergency stop empties the
    pending map only): after any sequence of accepted notifications,
    settled batches, emergency stops and cancel requests, a cancel request
    returns false and changes nothing. *)
Theorem cancel_never_cancels (ops : list Op) (blockIndex : Z) :
  cancelPendingWork (run newCoordinator ops) blockIndex =
  (run newCoordinator ops, false).
Proof.
  pose proof (run_keeps_pending_active ops newCoordinator) as Hinv.
  assert (H0 : forall k, is_Some (pendingWorkBlocks newCoordinator !! k) ->
                         k ∈ activeWorkPromises newCoordinator).
  { intros k. cbn. rewrite lookup_empty. intros [x Hx]. discriminate. }
  specialize (Hinv H0 blockIndex).
  unfold cancelPendingWork.
  destruct (bool_decide (is_Some (pendingWorkBlocks (run newCoordinator ops) !! blockIndex)))
    eqn:Hp; [|reflexivity].
  apply bool_decide_eq_true in Hp. apply Hinv in Hp.
  rewrite (bool_decide_eq_true_2 _ Hp). reflexivity.
Qed.

(** ** emergencyStop *)


End CoordinatorMore.

(** * Further properties of the Relay Submitter *)

Section RelayMore.

Import WorkSubmissionService.

Lemma toLowerCase_append (a b : string) :
  JsString.toLowerCase (String.append a b) =
  String.append (JsString.toLowerCase a) (JsString.toLowerCase b).
Proof.
  induction a as [|c a IH]; [reflexivity|].
  transitivity (String (JsString.lowerAscii c)
                  (JsString.toLowerCase (String.append a b))); [reflexivity|].
  rewrite IH. reflexivity.
Qed.

Lemma includes_skip (c : ascii) (s t : string) :
  JsString.startsWith (String c s) t = false ->
  JsString.includes (String c s) t = JsString.includes s t.
Proof. intros H. cbn [JsString.includes]. rewrite H. reflexivity. Qed.

(** None of the tokens begins inside the text that sendViaLaunchtube puts
    before the relay's error text. *)
Lemma prefix_hides_no_token (rest token : string) :
  In token (List.map JsString.toLowerCase retryableErrors) ->
  JsString.includes
    (String.append "launchtube submission failed: " rest) token =
  JsString.includes rest token.
Proof.
  intros Hin.
  change (String.append "launchtube submission failed: " rest) with
    (String "l" (String "a" (String "u" (String "n" (String "c" (String "h"
    (String "t" (String "u" (String "b" (String "e" (String " " (String "s"
    (String "u" (String "b" (String "m" (String "i" (String "s" (String "s"
    (String "i" (String "o" (String "n" (String " " (String "f" (String "a"
    (String "i" (String "l" (String "e" (String "d" (String ":" (String " "
    rest)))))))))))))))))))))))))))))).
  cbn in Hin.
  repeat (destruct Hin as [<-|Hin];
          [repeat (rewrite includes_skip by reflexivity); reflexivity|]).
  destruct Hin.
Qed.

(** X23: for a non-2xx answer of the relay, whether submitWork retries
    depends on the relay's error text alone: the message thrown,
    "Launchtube submission failed: " followed by that text, is retryable
    exactly when the text itself is. *)
Theorem relay_rejection_retryable_iff_error_text (errorText : string) (attempt : Z) :
  thrownMessage (Built (RelayRejected errorText)) attempt =
    Some (String.append "Launchtube submission failed: " errorText) /\
  isRetryableError (String.append "Launchtube submission failed: " errorText) =
    isRetryableError errorText.
Proof.
  split; [reflexivity|].
  unfold isRetryableError.
  rewrite toLowerCase_append.
  change (JsString.toLowerCase "Launchtube submission failed: ")
    with "launchtube submission failed: "%string.
  generalize (JsString.toLowerCase errorText). intros rest.
  assert (H : forall l,
             (forall t, In t l -> In (JsString.toLowerCase t)
                                     (List.map JsString.toLowerCase retryableErrors)) ->
             existsb (fun error =>
                        JsString.includes
                          (String.append "launchtube submission failed: " rest)
                          (JsString.toLowerCase error)) l =
             existsb (fun error =>
                        JsString.includes rest (JsString.toLowerCase error)) l).
  { induction l as [|t l IH]; intros Hl; [reflexivity|].
    cbn [existsb]. rewrite prefix_hides_no_token by (apply Hl; left; reflexivity).
    rewrite IH; [reflexivity|]. intros t' Ht'. apply Hl. right. exact Ht'. }
  apply H. intros t Ht. apply List.in_map. exact Ht.
Qed.

(** ** Successful submissions *)

Lemma tryAttempt_success (o : AttemptOutcome) (k : Z) (res : WorkSubmissionResult) :
  tryAttempt o k = Ok res ->
  success res = true ->
  exists h, o = Built (RelayAccepted h) /\
            res = {| success := true; transactionHash := h; error := None;
                     details_attempts := k |}.
Proof.
  destruct o as [msg|msg|[msg|txt|h]]; cbn; intros H Hs; try discriminate.
  - injection H as <-. discriminate.
  - injection H as <-. exists h. auto.
Qed.

(** X24: submitWork returns success exactly when some attempt k (1, 2 or 3)
    is accepted by the relay after every earlier attempt threw a retryable
    error.  The result then carries the transaction hash of that answer,
    attempts = k and no error, and the trace shows k attempts. *)
Theorem submitWork_succeeds_iff_accepted (relay : Z -> AttemptOutcome) :
  (success (fst (submitWork relay)) = true <->
   exists k h,
     1 <= k <= 3 /\
     relay k = Built (RelayAccepted h) /\
     forall j, 1 <= j < k ->
       exists msg, thrownMessage (relay j) j = Some msg /\
                   isRetryableError msg = true) /\
  (forall k h,
     1 <= k <= 3 ->
     relay k = Built (RelayAccepted h) ->
     (forall j, 1 <= j < k ->
        exists msg, thrownMessage (relay j) j = Some msg /\
                    isRetryableError msg = true) ->
     fst (submitWork relay) =
       {| success := true; transactionHash := h; error := None;
          details_attempts := k |} /\
     snd (submitWork relay) = schedule (Z.to_nat k) 1).
Proof.
  assert (Hfwd : forall k h,
     1 <= k <= 3 ->
     relay k = Built (RelayAccepted h) ->
     (forall j, 1 <= j < k ->
        exists msg, thrownMessage (relay j) j = Some msg /\
                    isRetryableError msg = true) ->
     fst (submitWork relay) =
       {| success := true; transactionHash := h; error := None;
          details_attempts := k |} /\
     snd (submitWork relay) = schedule (Z.to_nat k) 1).
  { intros k h Hk Hrel Hprev.
    assert (Hthrow : forall j, 1 <= j < k ->
               exists msg, tryAttempt (relay j) j = Throw msg /\
                           isRetryableError msg = true).
    { intros j Hj. destruct (Hprev j Hj) as (msg & Ht & Hr).
      unfold thrownMessage in Ht.
      destruct (tryAttempt (relay j) j) as [r|m]; [discriminate|].
      injection Ht as ->. eauto. }
    unfold submitWork. change (Z.to_nat maxRetries) with 3%nat.
    cbn [submitLoop]. change (1 + 1) with 2. change (2 + 1) with 3.
    change (1 =? maxRetries) with false. change (2 =? maxRetries) with false.
    cbn [orb].
    assert (k = 1 \/ k = 2 \/ k = 3) as [->|[->| ->]] by lia.
    - rewrite Hrel. cbn. auto.
    - destruct (Hthrow 1) as (m1 & H1 & R1); [lia|].
      rewrite H1, R1. cbn [negb]. rewrite Hrel. cbn. auto.
    - destruct (Hthrow 1) as (m1 & H1 & R1); [lia|].
      destruct (Hthrow 2) as (m2 & H2 & R2); [lia|].
      rewrite H1, R1. cbn [negb]. rewrite H2, R2. cbn [negb]. rewrite Hrel. cbn. auto. }
  split; [|exact Hfwd].
  split.
  - unfold submitWork. change (Z.to_nat maxRetries) with 3%nat.
    cbn [submitLoop]. change (1 + 1) with 2. change (2 + 1) with 3.
    change (1 =? maxRetries) with false. change (2 =? maxRetries) with false.
    change (3 =? maxRetries) with true. cbn [orb].
    destruct (tryAttempt (relay 1) 1) as [r1|m1] eqn:H1.
    { cbn [fst]. intros Hs. destruct (tryAttempt_success _ _ _ H1 Hs) as (h & Hr & _).
      exists 1, h. split; [lia|]. split; [exact Hr|]. intros j Hj. lia. }
    destruct (isRetryableError m1) eqn:R1; cbn [negb]; [|cbn; discriminate].
    assert (P1 : exists msg, thrownMessage (relay 1) 1 = Some msg /\
                             isRetryableError msg = true).
    { exists m1. unfold thrownMessage. rewrite H1. auto. }
    destruct (tryAttempt (relay 2) 2) as [r2|m2] eqn:H2.
    { cbn [fst]. intros Hs. destruct (tryAttempt_success _ _ _ H2 Hs) as (h & Hr & _).
      exists 2, h. split; [lia|]. split; [exact Hr|].
      intros j Hj. assert (j = 1) as -> by lia. exact P1. }
    destruct (isRetryableError m2) eqn:R2; cbn [negb]; [|cbn; discriminate].
    assert (P2 : exists msg, thrownMessage (relay 2) 2 = Some msg /\
                             isRetryableError msg = true).
    { exists m2. unfold thrownMessage. rewrite H2. auto. }
    destruct (tryAttempt (relay 3) 3) as [r3|m3] eqn:H3; [|cbn; discriminate].
    cbn [fst]. intros Hs. destruct (tryAttempt_success _ _ _ H3 Hs) as (h & Hr & _).
    exists 3, h. split; [lia|]. split; [exact Hr|].
    intros j Hj. assert (j = 1 \/ j = 2) as [-> | ->] by lia; assumption.
  - intros (k & h & Hk & Hrel & Hprev).
    destruct (Hfwd k h Hk Hrel Hprev) as [-> _]. reflexivity.
Qed.

End RelayMore.
